(** * The retrieval-augmentation pipeline of the AWS RAG chatbot

    A shallow embedding of
    - [backend/src/services/rag_service.py]        (class [RAGService]),
    - [backend/src/services/opensearch_service.py] (class [OpenSearchService]),
    - [backend/src/api/main.py]                    (endpoint [chat]),
    together with the properties the specification states about them, and of
    - the other endpoints of [main.py] and the chat route of
      [backend/src/handlers/simple_handler.py],
    - [backend/src/services/document_processor_service.py] and
      [backend/src/handlers/document_processor_lambda.py],
    - [backend/src/core/utils/config_manager.py] ([get_parameter]),
    with further properties read off the code.

    Conventions of the embedding:
    - a Python [str] is the list of its Unicode code points, so [len] is
      [length] and the slice [s[:n]] is [take n];
    - a Python [dict] with optional keys is a record of [option] fields and
      [d.get(k, default)] is [dict_get];
    - a Python [float] is a binary64 number of IEEE 754 ([PyFloat]): sums
      and quotients are rounded to the nearest float, ties to even, and
      [round(x, 2)] is the float nearest to the decimal that is nearest to
      the exact value of [x], as CPython computes it; a relevance score is
      carried as the exact rational value of its float, and the confidence
      is computed on the floats;
    - remote services (OpenSearch, Bedrock) and the system clock are the
      explicit [World] state threaded through a state-and-exception monad. *)

From Stdlib Require Import ZArith QArith Qround Qminmax Lqa String Ascii List Lia.
From Stdlib Require SpecFloat.
From stdpp Require Import gmap.
Import ListNotations.

Local Open Scope list_scope.

(** ** Python strings *)

Module Py.

(** A Unicode code point. *)
Definition char := N.

(** [str]: an immutable sequence of code points. *)
Definition str := list N.

(** [bytes]: a sequence of octets. *)
Definition bytes := list N.

(** Decoding of UTF-8, used to read the literals of the source: a string
    literal of this file holds the UTF-8 octets of its text. *)
Fixpoint utf8_decode (bs : bytes) : str :=
  match bs with
  | [] => []
  | b0 :: r0 =>
      if (b0 <? 0x80)%N then b0 :: utf8_decode r0
      else
        match r0 with
        | [] => []
        | b1 :: r1 =>
            if (b0 <? 0xE0)%N
            then N.lor (N.shiftl (N.land b0 0x1F) 6) (N.land b1 0x3F) :: utf8_decode r1
            else
              match r1 with
              | [] => []
              | b2 :: r2 =>
                  if (b0 <? 0xF0)%N
                  then N.lor (N.shiftl (N.land b0 0x0F) 12)
                         (N.lor (N.shiftl (N.land b1 0x3F) 6) (N.land b2 0x3F))
                       :: utf8_decode r2
                  else
                    match r2 with
                    | [] => []
                    | b3 :: r3 =>
                        N.lor (N.shiftl (N.land b0 0x07) 18)
                          (N.lor (N.shiftl (N.land b1 0x3F) 12)
                             (N.lor (N.shiftl (N.land b2 0x3F) 6) (N.land b3 0x3F)))
                        :: utf8_decode r3
                    end
              end
        end
  end.

(** A string literal of the source as a [str]. *)
Definition lit (s : string) : str :=
  utf8_decode (map N_of_ascii (list_ascii_of_string s)).

(** The UTF-8 octets of one code point; [None] for a surrogate or a value
    beyond U+10FFFF, on which [str.encode] raises [UnicodeEncodeError]. *)
Definition utf8_encode_char (c : char) : option bytes :=
  if (c <? 0x80)%N then Some [c]
  else if (c <? 0x800)%N then
    Some [N.lor 0xC0 (N.shiftr c 6); N.lor 0x80 (N.land c 0x3F)]
  else if ((0xD800 <=? c) && (c <=? 0xDFFF))%N then None
  else if (c <? 0x10000)%N then
    Some [N.lor 0xE0 (N.shiftr c 12);
          N.lor 0x80 (N.land (N.shiftr c 6) 0x3F);
          N.lor 0x80 (N.land c 0x3F)]
  else if (c <? 0x110000)%N then
    Some [N.lor 0xF0 (N.shiftr c 18);
          N.lor 0x80 (N.land (N.shiftr c 12) 0x3F);
          N.lor 0x80 (N.land (N.shiftr c 6) 0x3F);
          N.lor 0x80 (N.land c 0x3F)]
  else None.

(** [s.encode()]: UTF-8, strict. *)
Fixpoint encode (s : str) : option bytes :=
  match s with
  | [] => Some []
  | c :: rest =>
      match utf8_encode_char c, encode rest with
      | Some bs, Some more => Some (bs ++ more)
      | _, _ => None
      end
  end.

(** The line feed of ["\n".join(...)]. *)
Definition nl : str := [10%N].

(** [sep.join(parts)]. *)
Fixpoint join (sep : str) (parts : list str) : str :=
  match parts with
  | [] => []
  | p :: rest =>
      match rest with
      | [] => p
      | _ :: _ => p ++ sep ++ join sep rest
      end
  end.

(** [s.startswith(prefix)]. *)
Fixpoint startswith (prefix s : str) : bool :=
  match prefix, s with
  | [], _ => true
  | _ :: _, [] => false
  | a :: prefix', b :: s' => (a =? b)%N && startswith prefix' s'
  end.

(** [needle in haystack] on strings. *)
Fixpoint contains (needle haystack : str) : bool :=
  startswith needle haystack ||
  match haystack with
  | [] => false
  | _ :: rest => contains needle rest
  end.

(** [d.get(key, default)] on an optional key. *)
Definition dict_get {A : Type} (field : option A) (default : A) : A :=
  match field with
  | Some v => v
  | None => default
  end.

(** [l[-n:]] for a positive [n]: the last [n] items, all of them when the
    list is shorter. *)
Definition slice_last {A : Type} (n : nat) (l : list A) : list A :=
  drop (length l - n) l.

(** [s[:n]]. *)
Definition slice_to {A : Type} (n : nat) (l : list A) : list A :=
  take n l.

(** Truthiness of a [str] or a list: non-empty. *)
Definition truthy {A : Type} (l : list A) : bool :=
  match l with
  | [] => false
  | _ :: _ => true
  end.

(** Round-half-to-even of an exact rational to an integer. *)
Definition round_half_even (x : Q) : Z :=
  let f := Qfloor x in
  match Qcompare (x - inject_Z f) (1 # 2) with
  | Lt => f
  | Gt => (f + 1)%Z
  | Eq => if Z.even f then f else (f + 1)%Z
  end.

(** [str.capitalize] on ASCII letters: the first character in upper case,
    the others in lower case.  It instantiates the runtime's [capitalize],
    which the services take as a parameter, when examples are run. *)
Definition ascii_upper (c : char) : char :=
  if ((97 <=? c) && (c <=? 122))%N then (c - 32)%N else c.

Definition ascii_lower (c : char) : char :=
  if ((65 <=? c) && (c <=? 90))%N then (c + 32)%N else c.

Definition ascii_capitalize (s : str) : str :=
  match s with
  | [] => []
  | c :: rest => ascii_upper c :: map ascii_lower rest
  end.

End Py.

(** ** Integers as text *)

Module PyInt.

(** The decimal digits of [n] before [acc], most significant first. *)
Fixpoint digits (fuel : nat) (n : N) (acc : Py.str) : Py.str :=
  match fuel with
  | O => acc
  | S fuel' =>
      let acc' := (48 + n mod 10)%N :: acc in
      if (n <? 10)%N then acc' else digits fuel' (n / 10)%N acc'
  end.

(** [str(n)] for a natural number: it has at most [log2 n + 1] digits. *)
Definition str_of_nat (n : nat) : Py.str :=
  digits (S (N.to_nat (N.log2 (N.of_nat n)))) (N.of_nat n) [].

(** A hexadecimal digit in lower case. *)
Definition hex_digit (d : N) : Py.char :=
  if (d <? 10)%N then (48 + d)%N else (87 + d)%N.

(** The last [width] hexadecimal digits of [n]: the formats [%02x],
    [%04x] and [%08x] for a number that has no more digits. *)
Fixpoint hex (width : nat) (n : N) : Py.str :=
  match width with
  | O => []
  | S width' => hex width' (n / 16)%N ++ [hex_digit (n mod 16)%N]
  end.

End PyInt.

(** ** Python floats: binary64 *)

Module PyFloat.

Import SpecFloat.

(** [float]: a binary64 number, that is a zero or an infinity with its
    sign, a NaN, or a finite number [(-1)^s * m * 2^e]. *)
Definition float : Type := spec_float.

(** The precision and the exponent of the infinities of binary64. *)
Definition prec : Z := 53.
Definition emax : Z := 1024.

(** [0.0] and [1.0]. *)
Definition zero : float := S754_zero false.
Definition one : float := S754_finite false 4503599627370496 (-52).

(** [x + y] and [x / y], rounded to the nearest float, ties to even. *)
Definition add (x y : float) : float := SFadd prec emax x y.
Definition div (x y : float) : float := SFdiv prec emax x y.

(** An integer as a mantissa with exponent zero. *)
Definition exact (n : Z) : float :=
  match n with
  | Z0 => S754_zero false
  | Zpos p => S754_finite false p 0
  | Zneg p => S754_finite true p 0
  end.

(** [float(n)] for an int, which [x / n] applies to [n]. *)
Definition of_Z (n : Z) : float := binary_normalize prec emax n 0 false.

Definition of_nat (n : nat) : float := of_Z (Z.of_nat n).

(** The float nearest to a rational: the float a decimal literal denotes,
    and the float itself for a rational that is the value of one. *)
Definition of_Q (q : Q) : float := div (exact (Qnum q)) (exact (Zpos (Qden q))).

(** The exact value of a finite float. *)
Definition value (x : float) : Q :=
  match x with
  | S754_finite s m e =>
      let magnitude :=
        match e with
        | Z0 => inject_Z (Zpos m)
        | Zpos k => inject_Z (Zpos m * 2 ^ Zpos k)
        | Zneg k => Zpos m # (2 ^ k)
        end in
      if s then (- magnitude)%Q else magnitude
  | _ => 0%Q
  end.

(** The comparison of two floats: by their values, the infinities below and
    above every number, and no answer when one of them is a NaN. *)
Definition compare (x y : float) : option comparison :=
  match x, y with
  | S754_nan, _ | _, S754_nan => None
  | S754_infinity s1, S754_infinity s2 =>
      Some match s1, s2 with
           | true, true | false, false => Eq
           | true, false => Lt
           | false, true => Gt
           end
  | S754_infinity s, _ => Some (if s then Lt else Gt)
  | _, S754_infinity s => Some (if s then Gt else Lt)
  | _, _ => Some (Qcompare (value x) (value y))
  end.

(** [x < y] and [x <= y]. *)
Definition ltb (x y : float) : bool :=
  match compare x y with
  | Some Lt => true
  | _ => false
  end.

Definition leb (x y : float) : bool :=
  match compare x y with
  | Some (Lt | Eq) => true
  | _ => false
  end.

(** [min(a, b)]: [b] when [b < a], otherwise [a]. *)
Definition min (a b : float) : float := if ltb b a then b else a.

(** [round(x, ndigits)] for [ndigits >= 0]: the exact value of [x] is
    rounded to [ndigits] decimals, a tie going to the even digit, and the
    result is the float nearest to that decimal, with the sign of [x] when
    it is zero (CPython goes through the decimal digits and reads them
    back).  Zeros, infinities and NaN round to themselves. *)
Definition round (x : float) (ndigits : nat) : float :=
  match x with
  | S754_finite s _ _ =>
      let scale := (10 ^ Z.of_nat ndigits)%Z in
      match Py.round_half_even (value x * inject_Z scale) with
      | Z0 => S754_zero s
      | n => div (exact n) (exact scale)
      end
  | _ => x
  end.

(** The builtin [sum] of CPython up to 3.11 on floats: they are added from
    left to right, starting from the int [0]. *)
Definition sum (xs : list float) : float := fold_left add xs zero.

(** The float is a number and its sign bit is clear: it is [0.0], a
    positive number or the positive infinity. *)
Definition sign_clear (x : float) : bool :=
  match x with
  | S754_zero s | S754_infinity s | S754_finite s _ _ => negb s
  | S754_nan => false
  end.

End PyFloat.

(** ** [hashlib.md5] (RFC 1321) on 32-bit words *)

Module MD5.

Definition mask32 (x : N) : N := N.land x 0xFFFFFFFF.

Definition not32 (x : N) : N := N.lxor x 0xFFFFFFFF.

Definition add32 (x y : N) : N := mask32 (x + y).

(** Rotation to the left of a 32-bit word. *)
Definition rotl32 (x c : N) : N :=
  mask32 (N.lor (N.shiftl x c) (N.shiftr x (32 - c))).

(** The sine table: [floor (2^32 * abs (sin (i + 1)))]. *)
Definition K : list N :=
  [ 0xd76aa478; 0xe8c7b756; 0x242070db; 0xc1bdceee;
    0xf57c0faf; 0x4787c62a; 0xa8304613; 0xfd469501;
    0x698098d8; 0x8b44f7af; 0xffff5bb1; 0x895cd7be;
    0x6b901122; 0xfd987193; 0xa679438e; 0x49b40821;
    0xf61e2562; 0xc040b340; 0x265e5a51; 0xe9b6c7aa;
    0xd62f105d; 0x02441453; 0xd8a1e681; 0xe7d3fbc8;
    0x21e1cde6; 0xc33707d6; 0xf4d50d87; 0x455a14ed;
    0xa9e3e905; 0xfcefa3f8; 0x676f02d9; 0x8d2a4c8a;
    0xfffa3942; 0x8771f681; 0x6d9d6122; 0xfde5380c;
    0xa4beea44; 0x4bdecfa9; 0xf6bb4b60; 0xbebfbc70;
    0x289b7ec6; 0xeaa127fa; 0xd4ef3085; 0x04881d05;
    0xd9d4d039; 0xe6db99e5; 0x1fa27cf8; 0xc4ac5665;
    0xf4292244; 0x432aff97; 0xab9423a7; 0xfc93a039;
    0x655b59c3; 0x8f0ccc92; 0xffeff47d; 0x85845dd1;
    0x6fa87e4f; 0xfe2ce6e0; 0xa3014314; 0x4e0811a1;
    0xf7537e82; 0xbd3af235; 0x2ad7d2bb; 0xeb86d391 ]%N.

(** The rotation amounts of the four rounds. *)
Definition shifts : list N :=
  (concat (repeat [7; 12; 17; 22] 4) ++ concat (repeat [5; 9; 14; 20] 4) ++
   concat (repeat [4; 11; 16; 23] 4) ++ concat (repeat [6; 10; 15; 21] 4))%N.

(** [n] octets of [x], least significant first. *)
Fixpoint le_bytes (n : nat) (x : N) : list N :=
  match n with
  | O => []
  | S n' => N.land x 0xFF :: le_bytes n' (N.shiftr x 8)
  end.

(** The word whose octets, least significant first, are [bs]. *)
Definition word_of_bytes (bs : list N) : N :=
  fold_right (fun b acc => N.lor b (N.shiftl acc 8)) 0%N bs.

(** The first [n] little-endian words of [bs]. *)
Fixpoint words (n : nat) (bs : list N) : list N :=
  match n with
  | O => []
  | S n' => word_of_bytes (take 4 bs) :: words n' (drop 4 bs)
  end.

(** Padding: a one bit, zeros up to 56 modulo 64 octets, then the length
    of the message in bits on 64 bits. *)
Definition pad (msg : list N) : list N :=
  let len := N.of_nat (length msg) in
  let zeros := N.to_nat ((119 - len mod 64) mod 64) in
  msg ++ [0x80%N] ++ repeat 0%N zeros ++ le_bytes 8 ((len * 8) mod 2 ^ 64)%N.

Definition state : Type := N * N * N * N.

Definition init : state :=
  (0x67452301, 0xefcdab89, 0x98badcfe, 0x10325476)%N.

(** Operation [i] of the compression of the block with words [M]. *)
Definition step (M : list N) (st : state) (i : nat) : state :=
  let '(A, B, C, D) := st in
  let '(F, g) :=
    if (i <? 16)%nat then (N.lor (N.land B C) (N.land (not32 B) D), i)
    else if (i <? 32)%nat then (N.lor (N.land D B) (N.land (not32 D) C), (5 * i + 1) mod 16)%nat
    else if (i <? 48)%nat then (N.lxor (N.lxor B C) D, (3 * i + 5) mod 16)%nat
    else (N.lxor C (N.lor B (not32 D)), (7 * i) mod 16)%nat in
  let F' := add32 (add32 (add32 F A) (nth i K 0%N)) (nth g M 0%N) in
  (D, add32 B (rotl32 F' (nth i shifts 0%N)), B, C).

Definition compress (st : state) (block : list N) : state :=
  let M := words 16 block in
  let '(a0, b0, c0, d0) := st in
  let '(A, B, C, D) := fold_left (step M) (seq 0 64) st in
  (add32 a0 A, add32 b0 B, add32 c0 C, add32 d0 D).

(** Compression of the first [n] blocks of [bs]. *)
Fixpoint blocks (n : nat) (bs : list N) (st : state) : state :=
  match n with
  | O => st
  | S n' => blocks n' (drop 64 bs) (compress st (take 64 bs))
  end.

(** [hashlib.md5(msg).digest()]. *)
Definition digest (msg : list N) : list N :=
  let padded := pad msg in
  let '(a, b, c, d) := blocks (length padded / 64) padded init in
  le_bytes 4 a ++ le_bytes 4 b ++ le_bytes 4 c ++ le_bytes 4 d.

Definition hex_digit (d : N) : Py.char :=
  if (d <? 10)%N then (48 + d)%N else (87 + d)%N.

(** [hashlib.md5(msg).hexdigest()]: 32 lower-case hexadecimal digits. *)
Definition hexdigest (msg : list N) : Py.str :=
  flat_map (fun b => [hex_digit (N.shiftr b 4); hex_digit (N.land b 0xF)]) (digest msg).

End MD5.

(** ** Data model *)

(** The open key-value bag attached to a document; values are kept as
    strings. *)
Abbreviation Metadata := (gmap Py.str Py.str).

(** A document as the services exchange it: a [dict] whose keys may be
    missing ([search_documents] fills all of them). *)
Record Document := mkDocument {
  doc_id : option Py.str;
  doc_title : option Py.str;
  doc_content : option Py.str;
  doc_metadata : option Metadata;
  doc_score : option Q;
  doc_created_at : option Py.str
}.

(** A turn of the conversation as a [dict]: [{"role": ..., "content": ...}],
    either key possibly missing. *)
Record ChatTurn := mkChatTurn {
  turn_role : option Py.str;
  turn_content : option Py.str
}.

(** [ChatMessage] of chat_models.py, a pydantic model. *)
Record ChatMessage := mkChatMessage {
  cm_role : Py.str;
  cm_content : Py.str;
  cm_timestamp : option Py.str
}.

(** An item of a [chat_history] list at run time: the Lambda handler passes
    the dicts it parsed from JSON, the FastAPI endpoint passes [ChatMessage]
    objects. *)
Inductive HistoryItem :=
| ItemDict (turn : ChatTurn)
| ItemModel (message : ChatMessage).

(** An entry of the [sources] list of a response. *)
Record Source := mkSource {
  src_title : Py.str;
  src_content_preview : Py.str;
  src_score : Q;
  src_metadata : Metadata
}.

(** The body of a record of the index, as [_index_document_sync] writes it. *)
Record DocBody := mkDocBody {
  body_title : Py.str;
  body_content : Py.str;
  body_embedding : list Q;
  body_metadata : Metadata;
  body_created_at : Py.str;
  body_updated_at : Py.str
}.

(** The ["doc"] of an update request: the fields to overwrite. *)
Record PartialDoc := mkPartialDoc {
  upd_title : option Py.str;
  upd_content : option Py.str;
  upd_embedding : option (list Q);
  upd_metadata : option Metadata;
  upd_updated_at : option Py.str
}.

(** The type of a field of the index mapping. *)
Inductive FieldType :=
| TextField (analyzer : Py.str) (keyword_subfield : bool)
| DenseVector (dims : N)
| ObjectField
| DateField.

(** The mapping of an index: the one [_create_index_if_not_exists] sends, or
    the dynamic one OpenSearch derives when a write creates the index. *)
Inductive Mapping :=
| ExplicitMapping (properties : list (Py.str * FieldType))
| DynamicMapping.

(** The index [chatbot-documents]: its mapping and its records by [_id]. *)
Record Index := mkIndex {
  idx_mapping : Mapping;
  idx_docs : gmap Py.str DocBody
}.

(** A hit of a search response. *)
Record Hit := mkHit {
  hit_id : Py.str;
  hit_score : Q;
  hit_source : DocBody
}.

(** The response of a write: [_id] and [result]. *)
Record WriteResponse := mkWriteResponse {
  resp_id : Py.str;
  resp_result : Py.str
}.

(** ** Exceptions, the world, and the monad of effectful code *)

(** What Python code raises: any exception a handler [except Exception]
    catches, with [str(e)]; and FastAPI's [HTTPException]. *)
Inductive PyError :=
| Exception (message : Py.str)
| HTTPException (status_code : Z) (detail : Py.str).

Definition str_of_error (e : PyError) : Py.str :=
  match e with
  | Exception message => message
  | HTTPException _ detail => detail
  end.

Inductive Result (A : Type) :=
| Ok (value : A)
| Raise (error : PyError).

Arguments Ok {A} value.
Arguments Raise {A} error.

(** A request sent to the OpenSearch client. *)
Inductive ClientCall :=
| CallExists
| CallCreate (mapping : Mapping)
| CallIndex (id : Py.str) (body : DocBody)
| CallSearch (size : Z) (query : Py.str)
| CallMatchAll (size : Z)
| CallDelete (id : Py.str)
| CallUpdate (id : Py.str) (doc : PartialDoc).

(** The state outside the Python process and the module-level state of
    main.py.
    - [os_index]: the index, [None] while it does not exist;
    - [os_log]: the requests sent to OpenSearch, oldest first;
    - [faults]: the outcome of the next remote calls, one entry per call,
      [Some msg] for a call that fails with message [msg] (transport error,
      throttling, denied access); no entry left means no failure;
    - [clock_reads]: how many times the clock has been read;
    - [opensearch_service]: whether the lazily built service exists. *)
Record World := mkWorld {
  os_index : option Index;
  os_log : list ClientCall;
  faults : list (option Py.str);
  clock_reads : nat;
  opensearch_service : bool
}.

(** What the code is given by its environment and does not define:
    the runtime's [str.capitalize], the readings of the clock in ISO format,
    the embedding model, the language model, the relevance ranking of the
    search engine (ids with their scores, best first), and the runtime's
    builtin [sum] on floats (CPython adds them from left to right up to
    version 3.11, which is [PyFloat.sum], and carries a compensation term
    from 3.12 on). *)
Record Env := mkEnv {
  capitalize : Py.str -> Py.str;
  clock : nat -> Py.str;
  titan_embed : Py.str -> list Q;
  claude_haiku : Py.str -> Py.str;
  rank : Py.str -> gmap Py.str DocBody -> list (Py.str * Q);
  float_sum : list PyFloat.float -> PyFloat.float
}.

(** Computations with state [World] that return or raise. *)
Definition M (A : Type) : Type := World -> Result A * World.

Definition ret {A : Type} (a : A) : M A := fun w => (Ok a, w).

Definition raise {A : Type} (e : PyError) : M A := fun w => (Raise e, w).

Definition bind {A B : Type} (c : M A) (k : A -> M B) : M B :=
  fun w =>
    match c w with
    | (Ok a, w') => k a w'
    | (Raise e, w') => (Raise e, w')
    end.

(** [try: body except Exception as e: handler e]. *)
Definition try_except {A : Type} (body : M A) (handler : PyError -> M A) : M A :=
  fun w =>
    match body w with
    | (Ok a, w') => (Ok a, w')
    | (Raise e, w') => handler e w'
    end.

Declare Scope py_scope.
Delimit Scope py_scope with py.

Notation "'let*' x ':=' c 'in' k" := (bind c (fun x => k))
  (at level 10, x name, c at level 100, k at level 200) : py_scope.

Notation "c1 '>>' c2" := (bind c1 (fun _ => c2))
  (at level 100, c2 at level 200, right associativity) : py_scope.

Local Open Scope py_scope.

Definition get_world : M World := fun w => (Ok w, w).

Definition put_index (ix : option Index) : M unit :=
  fun w => (Ok tt, mkWorld ix (os_log w) (faults w) (clock_reads w) (opensearch_service w)).

Definition log_call (c : ClientCall) : M unit :=
  fun w => (Ok tt, mkWorld (os_index w) (os_log w ++ [c]) (faults w) (clock_reads w) (opensearch_service w)).

(** A round trip to a remote service: it consumes the next entry of
    [faults] and raises when that entry is a failure. *)
Definition remote_call : M unit :=
  fun w =>
    match faults w with
    | [] => (Ok tt, w)
    | outcome :: later =>
        let w' := mkWorld (os_index w) (os_log w) later (clock_reads w) (opensearch_service w) in
        match outcome with
        | None => (Ok tt, w')
        | Some msg => (Raise (Exception msg), w')
        end
    end.

Section Environment.

Variable env : Env.

(** [datetime.now().isoformat()]. *)
Definition now_isoformat : M Py.str :=
  fun w =>
    (Ok (clock env (clock_reads w)),
     mkWorld (os_index w) (os_log w) (faults w) (S (clock_reads w)) (opensearch_service w)).

(** *** The OpenSearch client *)

Definition index_not_found : Py.str :=
  Py.lit "NotFoundError(404, 'index_not_found_exception', 'no such index [chatbot-documents]', chatbot-documents, index_or_alias)".

Definition resource_already_exists : Py.str :=
  Py.lit "RequestError(400, 'resource_already_exists_exception', 'index [chatbot-documents] already exists')".

Definition document_missing : Py.str :=
  Py.lit "NotFoundError(404, 'document_missing_exception', 'document missing')".

Definition document_not_found : Py.str :=
  Py.lit "NotFoundError(404, 'not_found')".

Definition negative_size : Py.str :=
  Py.lit "RequestError(400, 'illegal_argument_exception', '[size] parameter cannot be negative')".

Definition window_too_large : Py.str :=
  Py.lit "RequestError(400, 'search_phase_execution_exception', 'Result window is too large')".

(** [client.indices.exists(index)]. *)
Definition indices_exists : M bool :=
  log_call CallExists >>
  remote_call >>
  let* w := get_world in
  ret (match os_index w with Some _ => true | None => false end).

(** [client.indices.create(index, body)]. *)
Definition indices_create (mapping : Mapping) : M unit :=
  log_call (CallCreate mapping) >>
  remote_call >>
  let* w := get_world in
  match os_index w with
  | Some _ => raise (Exception resource_already_exists)
  | None => put_index (Some (mkIndex mapping ∅))
  end.

(** [client.index(index, id, body)]: writes the record under [id], replacing
    the one stored there; a write to a missing index creates it with a
    dynamic mapping. *)
Definition client_index (id : Py.str) (body : DocBody) : M WriteResponse :=
  log_call (CallIndex id body) >>
  remote_call >>
  let* w := get_world in
  let ix := Py.dict_get (os_index w) (mkIndex DynamicMapping ∅) in
  let result :=
    match idx_docs ix !! id with
    | Some _ => Py.lit "updated"
    | None => Py.lit "created"
    end in
  put_index (Some (mkIndex (idx_mapping ix) (<[id := body]> (idx_docs ix)))) >>
  ret (mkWriteResponse id result).

(** The hits of a ranking: the ranked ids that are in the index. *)
Definition hits_of (docs : gmap Py.str DocBody) (ranking : list (Py.str * Q)) : list Hit :=
  flat_map
    (fun '(id, score) =>
       match docs !! id with
       | Some body => [mkHit id score body]
       | None => []
       end)
    ranking.

(** [client.search(index, body)] with a [multi_match] query: at most [size]
    hits, best first. *)
Definition client_search (size : Z) (query : Py.str) : M (list Hit) :=
  log_call (CallSearch size query) >>
  remote_call >>
  let* w := get_world in
  match os_index w with
  | None => raise (Exception index_not_found)
  | Some ix =>
      if (size <? 0)%Z then raise (Exception negative_size)
      else if (10000 <? size)%Z then raise (Exception window_too_large)
      else ret (take (Z.to_nat size) (hits_of (idx_docs ix) (rank env query (idx_docs ix))))
  end.

(** [client.search(index, body)] with a [match_all] query. *)
Definition client_match_all (size : Z) : M (list Hit) :=
  log_call (CallMatchAll size) >>
  remote_call >>
  let* w := get_world in
  match os_index w with
  | None => raise (Exception index_not_found)
  | Some ix =>
      if (size <? 0)%Z then raise (Exception negative_size)
      else if (10000 <? size)%Z then raise (Exception window_too_large)
      else ret (take (Z.to_nat size)
                  (map (fun '(id, body) => mkHit id 1%Q body) (map_to_list (idx_docs ix))))
  end.

(** [client.delete(index, id)]. *)
Definition client_delete (id : Py.str) : M WriteResponse :=
  log_call (CallDelete id) >>
  remote_call >>
  let* w := get_world in
  match os_index w with
  | None => raise (Exception index_not_found)
  | Some ix =>
      match idx_docs ix !! id with
      | None => raise (Exception document_not_found)
      | Some _ =>
          put_index (Some (mkIndex (idx_mapping ix) (delete id (idx_docs ix)))) >>
          ret (mkWriteResponse id (Py.lit "deleted"))
      end
  end.

(** The record after a partial update: the fields of the request replace
    the stored ones, the keys of a [metadata] object are merged into the
    stored object, the other fields stay. *)
Definition merge_doc (doc : PartialDoc) (old : DocBody) : DocBody :=
  {| body_title := Py.dict_get (upd_title doc) (body_title old);
     body_content := Py.dict_get (upd_content doc) (body_content old);
     body_embedding := Py.dict_get (upd_embedding doc) (body_embedding old);
     body_metadata :=
       match upd_metadata doc with
       | Some m => m ∪ body_metadata old
       | None => body_metadata old
       end;
     body_created_at := body_created_at old;
     body_updated_at := Py.dict_get (upd_updated_at doc) (body_updated_at old) |}.

(** [client.update(index, id, body={"doc": doc})]. *)
Definition client_update (id : Py.str) (doc : PartialDoc) : M WriteResponse :=
  log_call (CallUpdate id doc) >>
  remote_call >>
  let* w := get_world in
  match os_index w with
  | None => raise (Exception index_not_found)
  | Some ix =>
      match idx_docs ix !! id with
      | None => raise (Exception document_missing)
      | Some old =>
          put_index (Some (mkIndex (idx_mapping ix) (<[id := merge_doc doc old]> (idx_docs ix)))) >>
          ret (mkWriteResponse id (Py.lit "updated"))
      end
  end.

(** *** The Bedrock runtime *)

(** [bedrock_client.invoke_model] on the embedding model, and the
    ["embedding"] of the response. *)
Definition invoke_embedding_model (text : Py.str) : M (list Q) :=
  remote_call >> ret (titan_embed env text).

(** [llm.invoke(messages).content]. *)
Definition llm_invoke (prompt : Py.str) : M Py.str :=
  remote_call >> ret (claude_haiku env prompt).

End Environment.

(** ** [RAGService] (rag_service.py) *)

(** The dict [generate_response] returns. *)
Record RagResponse := mkRagResponse {
  rag_answer : Py.str;
  rag_sources : list Source;
  rag_confidence : PyFloat.float;
  rag_timestamp : Py.str
}.

Module RAGService.

(** The default title of a document without one. *)
Definition sin_titulo : Py.str := Py.lit "Sin título".

(** The three lines one document contributes to [context_parts]. *)
Definition context_block (doc : Document) : list Py.str :=
  [ Py.lit "Documento: " ++ Py.dict_get (doc_title doc) sin_titulo;
    Py.lit "Contenido: " ++ Py.dict_get (doc_content doc) [];
    Py.lit "---" ].

(** [_prepare_context]: the loop appends three lines per document to
    [context_parts], which are then joined by line feeds. *)
Definition _prepare_context (documents : list Document) : Py.str :=
  let context_parts :=
    fold_left (fun parts doc => parts ++ context_block doc) documents [] in
  Py.join Py.nl context_parts.

(** [msg.get(key, default)]: the lookup of a dict; a [ChatMessage] has no
    method [get]. *)
Definition item_get (msg : HistoryItem) (key : ChatTurn -> option Py.str)
    (default : Py.str) : Result Py.str :=
  match msg with
  | ItemDict turn => Ok (Py.dict_get (key turn) default)
  | ItemModel _ => Raise (Exception (Py.lit "'ChatMessage' object has no attribute 'get'"))
  end.

Section ChatHistory.

(** [str.capitalize] of the Python runtime. *)
Variable capitalize : Py.str -> Py.str.

(** The body of the loop of [_prepare_chat_history]: the line
    [f"{role.capitalize()}: {content}"] is appended to [history_parts]. *)
Definition history_step (history_parts : Result (list Py.str)) (msg : HistoryItem)
    : Result (list Py.str) :=
  match history_parts with
  | Raise e => Raise e
  | Ok parts =>
      match item_get msg turn_role [] with
      | Raise e => Raise e
      | Ok role =>
          match item_get msg turn_content [] with
          | Raise e => Raise e
          | Ok content => Ok (parts ++ [capitalize role ++ Py.lit ": " ++ content])
          end
      end
  end.

(** [_prepare_chat_history]. *)
Definition _prepare_chat_history (chat_history : list HistoryItem) : Result Py.str :=
  if negb (Py.truthy chat_history) then Ok []
  else
    match fold_left history_step (Py.slice_last 5 chat_history) (Ok []) with
    | Ok history_parts => Ok (Py.join Py.nl history_parts)
    | Raise e => Raise e
    end.

End ChatHistory.

(** [_create_prompt]: the template, with the history, the context and the
    question interpolated. *)
Definition _create_prompt (question context history : Py.str) : Py.str :=
  Py.nl ++
  Py.lit "Eres un asistente inteligente especializado en AWS y tecnologías de nube." ++ Py.nl ++
  Py.nl ++
  (if Py.truthy history then Py.lit "Historial de conversación:" else []) ++ Py.nl ++
  history ++ Py.nl ++
  Py.nl ++
  Py.lit "Contexto de documentos disponibles:" ++ Py.nl ++
  context ++ Py.nl ++
  Py.nl ++
  Py.lit "Pregunta del usuario: " ++ question ++ Py.nl ++
  Py.nl ++
  Py.lit "Instrucciones:" ++ Py.nl ++
  Py.lit "1. Si encuentras información relevante en el contexto, responde basándote en ella y cita las fuentes" ++ Py.nl ++
  Py.lit "2. Si NO encuentras información específica en el contexto:" ++ Py.nl ++
  Py.lit "   - Reconoce que no tienes esa información específica en tus documentos" ++ Py.nl ++
  Py.lit "   - Si es sobre tecnología de nube/AWS, proporciona una respuesta general útil" ++ Py.nl ++
  Py.lit "   - Sugiere temas relacionados que sí puedes responder basándote en tus documentos" ++ Py.nl ++
  Py.lit "3. Mantén un tono profesional y amigable" ++ Py.nl ++
  Py.lit "4. Sé claro y conciso en tu respuesta" ++ Py.nl ++
  Py.lit "5. Si la pregunta es sobre AWS o tecnologías relacionadas, puedes usar conocimiento general" ++ Py.nl ++
  Py.nl ++
  Py.lit "Respuesta:" ++ Py.nl.

Section Confidence.

(** The builtin [sum] of the Python runtime, on floats. *)
Variable float_sum : list PyFloat.float -> PyFloat.float.

(** [_calculate_confidence].  A score is a float, given by its value; a
    score that is missing counts as the int [0], which adds as [0.0]. *)
Definition _calculate_confidence (documents : list Document) : PyFloat.float :=
  if negb (Py.truthy documents) then PyFloat.zero
  else
    let total_score :=
      float_sum
        (map (fun doc => PyFloat.of_Q (Py.dict_get (doc_score doc) 0%Q)) documents) in
    let avg_score := PyFloat.div total_score (PyFloat.of_nat (length documents)) in
    let confidence := PyFloat.min avg_score PyFloat.one in
    PyFloat.round confidence 2.

End Confidence.

(** The [content_preview] expression of [_prepare_sources]:
    [content[:200] + "..." if len(content) > 200 else content]. *)
Definition content_preview (content : Py.str) : Py.str :=
  if (200 <? length content)%nat
  then Py.slice_to 200 content ++ Py.lit "..."
  else content.

(** [_prepare_sources]. *)
Definition _prepare_sources (documents : list Document) : list Source :=
  fold_left
    (fun sources doc =>
       sources ++
       [ {| src_title := Py.dict_get (doc_title doc) sin_titulo;
            src_content_preview := content_preview (Py.dict_get (doc_content doc) []);
            src_score := Py.dict_get (doc_score doc) 0%Q;
            src_metadata := Py.dict_get (doc_metadata doc) ∅ |} ])
    documents [].

Section Effects.

Variable env : Env.

(** [_generate_llm_response]. *)
Definition _generate_llm_response (prompt : Py.str) : M Py.str :=
  try_except
    (llm_invoke env prompt)
    (fun e => raise (Exception (Py.lit "Error calling Bedrock: " ++ str_of_error e))).

(** [generate_response]. *)
Definition generate_response (question : Py.str) (context_documents : list Document)
    (chat_history : option (list HistoryItem)) : M RagResponse :=
  try_except
    (let context := _prepare_context context_documents in
     let* history_context :=
       (fun w => (_prepare_chat_history (capitalize env) (Py.dict_get chat_history []), w)) in
     let prompt := _create_prompt question context history_context in
     let* response := _generate_llm_response prompt in
     let confidence := _calculate_confidence (float_sum env) context_documents in
     let sources := _prepare_sources context_documents in
     let* timestamp := now_isoformat env in
     ret (mkRagResponse response sources confidence timestamp))
    (fun e => raise (Exception (Py.lit "Error generating RAG response: " ++ str_of_error e))).

End Effects.

End RAGService.

(** ** [OpenSearchService] (opensearch_service.py) *)

Module OpenSearchService.

(** The ["properties"] of the mapping [_create_index_if_not_exists] sends. *)
Definition index_properties : list (Py.str * FieldType) :=
  [ (Py.lit "title", TextField (Py.lit "spanish_analyzer") true);
    (Py.lit "content", TextField (Py.lit "spanish_analyzer") false);
    (Py.lit "embedding", DenseVector 1536);
    (Py.lit "metadata", ObjectField);
    (Py.lit "created_at", DateField);
    (Py.lit "updated_at", DateField) ].

Definition index_body : Mapping := ExplicitMapping index_properties.

(** The id of a document: [hashlib.md5(f"{title}{content}".encode()).hexdigest()];
    [None] when the text cannot be encoded. *)
Definition document_id (title content : Py.str) : option Py.str :=
  match Py.encode (title ++ content) with
  | Some octets => Some (MD5.hexdigest octets)
  | None => None
  end.

(** The first character of [text], from position [i] on, that UTF-8 cannot
    encode: its position, the character and what follows it. *)
Fixpoint first_unencodable (text : Py.str) (i : nat) : option (nat * Py.char * Py.str) :=
  match text with
  | [] => None
  | c :: rest =>
      match Py.utf8_encode_char c with
      | Some _ => first_unencodable rest (S i)
      | None => Some (i, c, rest)
      end
  end.

Definition is_surrogate (c : Py.char) : bool := ((0xD800 <=? c) && (c <=? 0xDFFF))%N.

(** How many surrogates [rest] starts with. *)
Fixpoint surrogate_run (rest : Py.str) : nat :=
  match rest with
  | c :: rest' => if is_surrogate c then S (surrogate_run rest') else O
  | [] => O
  end.

(** The character in the message of a [UnicodeError]. *)
Definition escaped (c : Py.char) : Py.str :=
  if (c <=? 0xFF)%N then Py.lit "\x" ++ PyInt.hex 2 c
  else if (c <=? 0xFFFF)%N then Py.lit "\u" ++ PyInt.hex 4 c
  else Py.lit "\U" ++ PyInt.hex 8 c.

(** [str(e)] for the [UnicodeEncodeError] that [text.encode()] raises: the
    encoder stops at the first surrogate and reports it together with the
    surrogates that follow it without a gap, the character itself when it is
    alone and the positions of the first and the last otherwise. *)
Definition unicode_encode_error (text : Py.str) : Py.str :=
  match first_unencodable text 0 with
  | None => []
  | Some (start, badchar, rest) =>
      match surrogate_run rest with
      | O =>
          Py.lit "'utf-8' codec can't encode character '" ++ escaped badchar ++
          Py.lit "' in position " ++ PyInt.str_of_nat start ++
          Py.lit ": surrogates not allowed"
      | S more =>
          Py.lit "'utf-8' codec can't encode characters in position " ++
          PyInt.str_of_nat start ++ Py.lit "-" ++ PyInt.str_of_nat (start + S more) ++
          Py.lit ": surrogates not allowed"
      end
  end.

(** Truthiness of an optional string argument: given and not empty. *)
Definition given_str (arg : option Py.str) : bool :=
  match arg with
  | Some s => Py.truthy s
  | None => false
  end.

(** Truthiness of an optional dict argument: given and not empty. *)
Definition given_dict (arg : option Metadata) : bool :=
  match arg with
  | Some m => negb (bool_decide (m = ∅))
  | None => false
  end.

(** The dict a hit becomes in [search_documents]. *)
Definition search_result (hit : Hit) : Document :=
  {| doc_id := Some (hit_id hit);
     doc_title := Some (body_title (hit_source hit));
     doc_content := Some (body_content (hit_source hit));
     doc_metadata := Some (body_metadata (hit_source hit));
     doc_score := Some (hit_score hit);
     doc_created_at := Some (body_created_at (hit_source hit)) |}.

Section Effects.

Variable env : Env.

(** [_create_index_if_not_exists]: every exception is caught and printed. *)
Definition _create_index_if_not_exists : M unit :=
  try_except
    (let* present := indices_exists in
     if present then ret tt
     else indices_create index_body)
    (fun _ => ret tt).

(** [__init__], as far as the world is concerned. *)
Definition __init__ : M unit := _create_index_if_not_exists.

(** [_get_embedding_sync]. *)
Definition _get_embedding_sync (text : Py.str) : M (list Q) :=
  try_except
    (invoke_embedding_model env text)
    (fun e => raise (Exception (Py.lit "Error getting embedding: " ++ str_of_error e))).

(** [get_embedding]: in an event loop the synchronous version runs in the
    executor, otherwise directly. *)
Definition get_embedding (text : Py.str) : M (list Q) := _get_embedding_sync text.

(** [_index_document_sync]. *)
Definition _index_document_sync (title content : Py.str) (metadata : option Metadata)
    : M WriteResponse :=
  try_except
    (let* doc_id :=
       match document_id title content with
       | Some id => ret id
       | None => raise (Exception (unicode_encode_error (title ++ content)))
       end in
     let* embedding := _get_embedding_sync content in
     let* created_at := now_isoformat env in
     let* updated_at := now_isoformat env in
     let doc_body :=
       {| body_title := title;
          body_content := content;
          body_embedding := embedding;
          body_metadata := Py.dict_get metadata ∅;
          body_created_at := created_at;
          body_updated_at := updated_at |} in
     client_index doc_id doc_body)
    (fun e => raise (Exception (Py.lit "Error indexing document: " ++ str_of_error e))).

(** [index_document]. *)
Definition index_document (title content : Py.str) (metadata : option Metadata)
    : M WriteResponse :=
  _index_document_sync title content metadata.

(** [search_documents]. *)
Definition search_documents (query : Py.str) (max_results : Z) : M (list Document) :=
  try_except
    (let* hits := client_search env max_results query in
     ret (fold_left (fun results hit => results ++ [search_result hit]) hits []))
    (fun e =>
       let* healed :=
         if Py.contains (Py.lit "index_not_found_exception") (str_of_error e)
         then try_except (_create_index_if_not_exists >> ret true) (fun _ => ret false)
         else ret false in
       if healed : bool then ret []
       else raise (Exception (Py.lit "Error searching documents: " ++ str_of_error e))).

(** The dict a hit becomes in [list_documents] ([updated_at] is listed too,
    which [Document] does not keep). *)
Definition list_documents (size : Z) : M (list (Document * Py.str)) :=
  try_except
    (let* hits := client_match_all size in
     ret (fold_left
            (fun documents hit =>
               documents ++
               [ (mkDocument (Some (hit_id hit)) (Some (body_title (hit_source hit)))
                    (Some (body_content (hit_source hit)))
                    (Some (body_metadata (hit_source hit))) None
                    (Some (body_created_at (hit_source hit))),
                  body_updated_at (hit_source hit)) ])
            hits []))
    (fun e => raise (Exception (Py.lit "Error listing documents: " ++ str_of_error e))).

(** [delete_document]. *)
Definition delete_document (document_id : Py.str) : M WriteResponse :=
  try_except
    (client_delete document_id)
    (fun e => raise (Exception (Py.lit "Error deleting document: " ++ str_of_error e))).

(** [update_document]. *)
Definition update_document (document_id : Py.str) (title content : option Py.str)
    (metadata : option Metadata) : M WriteResponse :=
  try_except
    (let* updated_at := now_isoformat env in
     let doc0 := mkPartialDoc None None None None (Some updated_at) in
     let doc1 :=
       if given_str title
       then mkPartialDoc title (upd_content doc0) (upd_embedding doc0)
              (upd_metadata doc0) (upd_updated_at doc0)
       else doc0 in
     let* doc2 :=
       if given_str content
       then
         let* embedding := get_embedding (Py.dict_get content []) in
         ret (mkPartialDoc (upd_title doc1) content (Some embedding)
                (upd_metadata doc1) (upd_updated_at doc1))
       else ret doc1 in
     let doc3 :=
       if given_dict metadata
       then mkPartialDoc (upd_title doc2) (upd_content doc2) (upd_embedding doc2)
              metadata (upd_updated_at doc2)
       else doc2 in
     client_update document_id doc3)
    (fun e => raise (Exception (Py.lit "Error updating document: " ++ str_of_error e))).

End Effects.

End OpenSearchService.

(** ** The [chat] endpoint (api/main.py, models/chat_models.py) *)

(** [ChatRequest]: [chat_history], [max_results] and [user_id] are optional
    and may be null. *)
Record ChatRequest := mkChatRequest {
  req_message : Py.str;
  req_chat_history : option (list ChatMessage);
  req_max_results : option Z;
  req_user_id : option Py.str
}.

Record ChatResponse := mkChatResponse {
  res_message : Py.str;
  res_sources : list Source;
  res_confidence : PyFloat.float;
  res_timestamp : Py.str
}.

Module Api.

(** [x or default] on an optional integer: the default replaces null and
    zero, the falsy values. *)
Definition int_or (x : option Z) (default : Z) : Z :=
  match x with
  | None => default
  | Some n => if (n =? 0)%Z then default else n
  end.

Section Effects.

Variable env : Env.

(** [get_opensearch_service]: the service is built on first use. *)
Definition get_opensearch_service : M unit :=
  let* w := get_world in
  if opensearch_service w then ret tt
  else
    OpenSearchService.__init__ >>
    (fun w' => (Ok tt, mkWorld (os_index w') (os_log w') (faults w') (clock_reads w') true)).

(** [chat]. *)
Definition chat (request : ChatRequest) : M ChatResponse :=
  try_except
    (get_opensearch_service >>
     let* relevant_docs :=
       OpenSearchService.search_documents env (req_message request)
         (int_or (req_max_results request) 5) in
     let* response :=
       RAGService.generate_response env (req_message request) relevant_docs
         (Some (map ItemModel (Py.dict_get (req_chat_history request) []))) in
     let* timestamp := now_isoformat env in
     ret (mkChatResponse (rag_answer response) (rag_sources response)
            (rag_confidence response) timestamp))
    (fun e => raise (HTTPException 500 (str_of_error e))).

End Effects.

End Api.

(** ** Observations on the world *)

(** The records of the index, none while the index does not exist. *)
Definition stored (w : World) : gmap Py.str DocBody :=
  match os_index w with
  | Some ix => idx_docs ix
  | None => ∅
  end.

(** No failure of a remote call is pending. *)
Definition healthy (w : World) : Prop := faults w = [].

(** The record an index write stores when the clock has been read [reads]
    times before it. *)
Definition written_body (env : Env) (title content : Py.str)
    (metadata : option Metadata) (reads : nat) : DocBody :=
  {| body_title := title;
     body_content := content;
     body_embedding := titan_embed env content;
     body_metadata := Py.dict_get metadata ∅;
     body_created_at := clock env reads;
     body_updated_at := clock env (S reads) |}.

(** The world after a successful write of [body] under [id]. *)
Definition world_after_index (w : World) (id : Py.str) (body : DocBody) : World :=
  let ix := Py.dict_get (os_index w) (mkIndex DynamicMapping ∅) in
  {| os_index := Some (mkIndex (idx_mapping ix) (<[id := body]> (idx_docs ix)));
     os_log := os_log w ++ [CallIndex id body];
     faults := [];
     clock_reads := S (S (clock_reads w));
     opensearch_service := opensearch_service w |}.

(** The searches among the requests sent to OpenSearch, oldest first. *)
Definition is_search (call : ClientCall) : bool :=
  match call with
  | CallSearch _ _ => true
  | _ => false
  end.

Definition searches (w : World) : list ClientCall :=
  List.filter is_search (os_log w).

(** ** The specification's vocabulary *)

Module Spec.

(** The scores of the candidates, a missing score counting as zero. *)
Definition scores (candidates : list Document) : list Q :=
  map (fun doc => Py.dict_get (doc_score doc) 0%Q) candidates.

(** The arithmetic mean of the scores, as floats: their sum divided by
    their number. *)
Definition mean (float_sum : list PyFloat.float -> PyFloat.float) (xs : list Q)
    : PyFloat.float :=
  PyFloat.div (float_sum (map PyFloat.of_Q xs)) (PyFloat.of_nat (length xs)).

(** Every candidate has a non-negative score, as the relevance scores of
    the search engine are. *)
Definition nonnegative_scores (candidates : list Document) : Prop :=
  Forall (fun x => (0 <= x)%Q) (scores candidates).

(** The sum of floats none of which is negative (nor a NaN) is not negative
    (nor a NaN). *)
Definition sum_keeps_sign (float_sum : list PyFloat.float -> PyFloat.float) : Prop :=
  forall xs : list PyFloat.float,
    Forall (fun x => PyFloat.sign_clear x = true) xs ->
    PyFloat.sign_clear (float_sum xs) = true.

End Spec.

(** ** The prompt in the specification's words *)

Module SpecPrompt.

(** The block of a candidate: a line [Document: <title>], a line
    [Content: <content>], and a delimiter line. *)
Definition candidate_block (candidate : Document) : list Py.str :=
  [ Py.lit "Document: " ++ Py.dict_get (doc_title candidate) (Py.lit "Untitled");
    Py.lit "Content: " ++ Py.dict_get (doc_content candidate) [];
    Py.lit "---" ].

(** The document-context block: the blocks of the candidates, in the order
    received. *)
Definition context_block (candidates : list Document) : Py.str :=
  Py.join Py.nl (flat_map candidate_block candidates).

(** The line of a turn: [<Role capitalized>: <content>]. *)
Definition turn_line (capitalize : Py.str -> Py.str) (turn : ChatTurn) : Py.str :=
  capitalize (Py.dict_get (turn_role turn) []) ++ Py.lit ": " ++
  Py.dict_get (turn_content turn) [].

End SpecPrompt.

(** ** Data of the examples *)

Module Example.

(** A candidate as [search_documents] returns it. *)
Definition candidate (title content : Py.str) (score : Q) : Document :=
  mkDocument (Some (MD5.hexdigest [])) (Some title) (Some content) (Some ∅)
    (Some score) (Some (Py.lit "2025-07-18T19:51:09.138000")).

(** Two candidates with scores 0.04 and 0.61. *)
Definition close_candidates : list Document :=
  [ candidate (Py.lit "AWS S3") (Py.lit "S3 is object storage") (4 # 100);
    candidate (Py.lit "AWS EC2") (Py.lit "EC2 is compute") (61 # 100) ].

(** Two candidates with scores 0.75 and 0.5. *)
Definition two_candidates : list Document :=
  [ candidate (Py.lit "AWS S3") (Py.lit "S3 is object storage") (3 # 4);
    candidate (Py.lit "AWS EC2") (Py.lit "EC2 is compute") (1 # 2) ].

(** One candidate, and its context as the code renders it. *)
Definition one_candidate : list Document :=
  [ candidate (Py.lit "AWS S3") (Py.lit "S3 is object storage") (3 # 4) ].

Definition one_candidate_context : Py.str :=
  Py.lit "Documento: AWS S3" ++ Py.nl ++
  Py.lit "Contenido: S3 is object storage" ++ Py.nl ++
  Py.lit "---".

(** A turn [{"role": role, "content": content}]. *)
Definition turn (role content : Py.str) : ChatTurn :=
  mkChatTurn (Some role) (Some content).

(** A history of eight turns. *)
Definition eight_turns : list ChatTurn :=
  [ turn (Py.lit "user") (Py.lit "q1"); turn (Py.lit "assistant") (Py.lit "a1");
    turn (Py.lit "user") (Py.lit "q2"); turn (Py.lit "assistant") (Py.lit "a2");
    turn (Py.lit "user") (Py.lit "q3"); turn (Py.lit "assistant") (Py.lit "a3");
    turn (Py.lit "user") (Py.lit "q4"); turn (Py.lit "assistant") (Py.lit "a4") ].

Definition eight_turns_block : Py.str :=
  Py.lit "Assistant: a2" ++ Py.nl ++ Py.lit "User: q3" ++ Py.nl ++
  Py.lit "Assistant: a3" ++ Py.nl ++ Py.lit "User: q4" ++ Py.nl ++
  Py.lit "Assistant: a4".

(** A content of [n] letters. *)
Definition letters (n : nat) : Py.str := repeat 120%N n.

(** A candidate of 250 characters and one of 150. *)
Definition long_and_short : list Document :=
  [ candidate (Py.lit "long") (letters 250) (3 # 4);
    candidate (Py.lit "short") (letters 150) (1 # 2) ].

(** An environment to run the services in: ASCII [capitalize]; a clock
    whose reading [n] is [n] seconds after midnight ([n < 10]); an embedding
    model that returns the length of its input; a language model with a
    fixed answer; a ranking that gives every record the score one; the
    [sum] that adds from left to right. *)
Definition env : Env :=
  {| capitalize := Py.ascii_capitalize;
     clock := fun n => Py.lit "2025-07-18T00:00:0" ++ [N.of_nat (48 + n)];
     titan_embed := fun text => [inject_Z (Z.of_nat (length text))];
     claude_haiku := fun _ => Py.lit "S3 is the object storage service of AWS.";
     rank := fun _ docs => map (fun '(id, _) => (id, 1%Q)) (map_to_list docs);
     float_sum := PyFloat.sum |}.

(** A cold start: no index, nothing logged, no failure pending, the clock
    never read, the service not built. *)
Definition cold : World := mkWorld None [] [] 0 false.

(** The worlds after ("ab", "c") is indexed on a cold start, and after
    ("a", "bc") is indexed next. *)
Definition after_ab_c : World :=
  snd (OpenSearchService._index_document_sync env (Py.lit "ab") (Py.lit "c") None cold).

Definition after_a_bc : World :=
  snd (OpenSearchService._index_document_sync env (Py.lit "a") (Py.lit "bc") None after_ab_c).

(** The world after ("ab", "c") is indexed a second time. *)
Definition after_ab_c_twice : World :=
  snd (OpenSearchService._index_document_sync env (Py.lit "ab") (Py.lit "c") None after_ab_c).

(** The id of both pairs: the MD5 digest of "abc". *)
Definition id_abc : Py.str := Py.lit "900150983cd24fb0d6963f7d28e17f72".

(** The record of ("ab", "c") indexed on a cold start, and the index then. *)
Definition record_ab_c : DocBody :=
  written_body env (Py.lit "ab") (Py.lit "c") None 0.

Definition index_ab_c : Index :=
  mkIndex DynamicMapping {[ id_abc := record_ab_c ]}.

(** A metadata bag with one key. *)
Definition reviewed : Metadata := {[ Py.lit "reviewed" := Py.lit "yes" ]}.

(** The world after the content of that record is updated to "xyz", after
    its metadata alone are updated, and after an update with an empty
    content. *)
Definition after_content_update : World :=
  snd (OpenSearchService.update_document env id_abc None (Some (Py.lit "xyz")) None
         after_ab_c).

Definition after_metadata_update : World :=
  snd (OpenSearchService.update_document env id_abc None None (Some reviewed) after_ab_c).

Definition after_empty_content_update : World :=
  snd (OpenSearchService.update_document env id_abc None (Some []) None after_ab_c).

(** A running service: the index exists with its mapping, the service is
    built, no failure is pending. *)
Definition warm : World :=
  mkWorld (Some (mkIndex OpenSearchService.index_body ∅)) [] [] 0 true.



(** A cold start where the third remote call fails. *)
Definition cold_third_call_fails : World :=
  mkWorld None [] [None; None; Some (Py.lit "ConnectionTimeout")] 0 false.

End Example.


(** ** Frames *)

(** [c] relates every world it starts in to the world it ends in by [R],
    whether it returns or raises. *)
Definition keeps {A : Type} (R : World -> World -> Prop) (c : M A) : Prop :=
  forall w : World, R w (snd (c w)).

(** The index has the same records. *)
Definition same_records (w w' : World) : Prop := stored w' = stored w.

(** The index is the same: present or not, its mapping, its records. *)
Definition same_index (w w' : World) : Prop := os_index w' = os_index w.

(** The same ids are stored. *)
Definition same_ids (w w' : World) : Prop := dom (stored w') = dom (stored w).

(** ** More data of the examples *)

Module Scenario.

(** A cold start where the next remote call fails. *)
Definition cold_throttled : World :=
  mkWorld None [] [Some (Py.lit "ThrottlingException")] 0 false.

(** A title that holds a lone surrogate, which UTF-8 cannot encode. *)
Definition surrogate_title : Py.str := [0xD800%N].

(** The id of ("ab", "xyz"): the MD5 digest of "abxyz". *)
Definition id_abxyz : Py.str := MD5.hexdigest [97; 98; 120; 121; 122]%N.

End Scenario.


(** ** More data of the examples: conversations *)

Module Conversation.

(** Five turns, as dicts. *)
Definition recent : list ChatTurn :=
  [ Example.turn (Py.lit "assistant") (Py.lit "a2");
    Example.turn (Py.lit "user") (Py.lit "q3");
    Example.turn (Py.lit "assistant") (Py.lit "a3");
    Example.turn (Py.lit "user") (Py.lit "q4");
    Example.turn (Py.lit "assistant") (Py.lit "a4") ].

(** An older item that is not a dict. *)
Definition older : list HistoryItem :=
  [ ItemModel (mkChatMessage (Py.lit "user") (Py.lit "q1") None) ].

(** A world where the next remote call, the one to the model, fails. *)
Definition model_down : World :=
  mkWorld (Some (mkIndex OpenSearchService.index_body ∅)) []
    [Some (Py.lit "AccessDeniedException")] 0 true.

End Conversation.


(** ** [RAGService.process_document] (rag_service.py) *)

(** A chunk of a document with its metadata; the integers of the metadata
    are kept by their decimal text. *)
Record Chunk := mkChunk {
  chunk_content : Py.str;
  chunk_metadata : Metadata
}.

Module RAGChunks.

Section Splitter.

(** [text_splitter.split_text], the recursive character splitter of
    langchain set to chunks of 1000 characters with an overlap of 200. *)
Variable split_text : Py.str -> list Py.str.

(** The body of the loop over [enumerate(chunks)]: the state is the next
    index and the chunks processed so far. *)
Definition process_step (metadata : option Metadata) (total : nat)
    (state : nat * list Chunk) (chunk : Py.str) : nat * list Chunk :=
  let '(i, processed_chunks) := state in
  (S i,
   processed_chunks ++
   [ {| chunk_content := chunk;
        chunk_metadata :=
          <[Py.lit "total_chunks" := PyInt.str_of_nat total]>
            (<[Py.lit "chunk_index" := PyInt.str_of_nat i]>
               (Py.dict_get metadata ∅)) |} ]).

(** [process_document]. *)
Definition process_document (content : Py.str) (metadata : option Metadata) : list Chunk :=
  let chunks := split_text content in
  snd (fold_left (process_step metadata (length chunks)) chunks (O, [])).

End Splitter.

End RAGChunks.

(** ** Files: [os.path], the codecs, S3 and Textract *)

(** [os.path] of the Linux runtime ([posixpath]). *)
Module PosixPath.

Fixpoint rfind_from (c : Py.char) (s : Py.str) (i : nat) (last : option nat) : option nat :=
  match s with
  | [] => last
  | x :: s' => rfind_from c s' (S i) (if (x =? c)%N then Some i else last)
  end.

(** [s.rfind(c)], [None] for -1. *)
Definition rfind (c : Py.char) (s : Py.str) : option nat := rfind_from c s 0 None.

Definition sep : Py.char := 47%N.
Definition extsep : Py.char := 46%N.

(** The index after the last separator: [p.rfind(sep) + 1]. *)
Definition filename_index (p : Py.str) : nat :=
  match rfind sep p with
  | Some i => S i
  | None => O
  end.

(** [os.path.basename(p)]. *)
Definition basename (p : Py.str) : Py.str := drop (filename_index p) p.

(** [os.path.splitext(p)]: the extension starts at the last dot of the
    last component, unless only dots come before it in that component. *)
Definition splitext (p : Py.str) : Py.str * Py.str :=
  match rfind extsep p with
  | Some dot_index =>
      if existsb (fun ch => negb (ch =? extsep)%N)
           (drop (filename_index p) (take dot_index p))
      then (take dot_index p, drop dot_index p)
      else (p, [])
  | None => (p, [])
  end.

End PosixPath.

Module Codec.

(** A continuation octet. *)
Definition cont (b : N) : bool := ((0x80 <=? b) && (b <=? 0xBF))%N.

Definition bits (b : N) : N := N.land b 0x3F.

(** [bs.decode('utf-8')]: [None] where Python raises [UnicodeDecodeError],
    that is on a truncated or overlong sequence, a surrogate, a value
    beyond U+10FFFF and an octet that starts no sequence. *)
Fixpoint decode_utf8 (bs : Py.bytes) : option Py.str :=
  match bs with
  | [] => Some []
  | b0 :: r0 =>
      if (b0 <? 0x80)%N then option_map (cons b0) (decode_utf8 r0)
      else
        match r0 with
        | [] => None
        | b1 :: r1 =>
            if ((0xC2 <=? b0) && (b0 <=? 0xDF))%N then
              if cont b1
              then option_map (cons (N.lor (N.shiftl (N.land b0 0x1F) 6) (bits b1)))
                     (decode_utf8 r1)
              else None
            else
              match r1 with
              | [] => None
              | b2 :: r2 =>
                  if ((0xE0 <=? b0) && (b0 <=? 0xEF))%N then
                    if cont b1 && cont b2 &&
                       (if (b0 =? 0xE0)%N then (0xA0 <=? b1)%N else true) &&
                       (if (b0 =? 0xED)%N then (b1 <=? 0x9F)%N else true)
                    then option_map
                           (cons (N.lor (N.shiftl (N.land b0 0x0F) 12)
                                    (N.lor (N.shiftl (bits b1) 6) (bits b2))))
                           (decode_utf8 r2)
                    else None
                  else
                    match r2 with
                    | [] => None
                    | b3 :: r3 =>
                        if ((0xF0 <=? b0) && (b0 <=? 0xF4))%N then
                          if cont b1 && cont b2 && cont b3 &&
                             (if (b0 =? 0xF0)%N then (0x90 <=? b1)%N else true) &&
                             (if (b0 =? 0xF4)%N then (b1 <=? 0x8F)%N else true)
                          then option_map
                                 (cons (N.lor (N.shiftl (N.land b0 0x07) 18)
                                          (N.lor (N.shiftl (bits b1) 12)
                                             (N.lor (N.shiftl (bits b2) 6) (bits b3)))))
                                 (decode_utf8 r3)
                          else None
                        else None
                    end
              end
        end
  end.

(** [bs.decode('latin-1')]: every octet is the code point of its value. *)
Definition decode_latin1 (bs : Py.bytes) : Py.str := bs.

End Codec.

(** The answer of [head_object], as far as it is read; [LastModified] by
    its [isoformat()]. *)
Record S3Head := mkS3Head {
  ContentLength : nat;
  LastModified : Py.str
}.

(** A block of the answer of Textract. *)
Record Block := mkBlock {
  BlockType : Py.str;
  Text : Py.str
}.

(** What the S3 client and the Textract client answer for a bucket and a
    key: [inl] is the message of the error they raise. *)
Record Files := mkFiles {
  head_object : Py.str -> Py.str -> Py.str + S3Head;
  get_object : Py.str -> Py.str -> Py.str + Py.bytes;
  detect_document_text : Py.str -> Py.str -> Py.str + list Block
}.

(** The dict [_process_s3_file_sync] returns. *)
Record S3Result := mkS3Result {
  sr_document_id : Py.str;
  sr_bucket : Py.str;
  sr_key : Py.str;
  sr_content_length : nat;
  sr_metadata : Metadata
}.

(** ** [DocumentProcessorService] (document_processor_service.py) *)

(** The dict [_process_direct_document_sync] returns. *)
Record DirectResult := mkDirectResult {
  dr_document_id : Py.str;
  dr_title : Py.str;
  dr_content_length : nat;
  dr_metadata : Metadata
}.

Module DocumentProcessorService.

(** [__init__], as far as the world is concerned: it builds an
    [OpenSearchService].  The configuration of the deployment is taken to
    be present, so that reading it and building the clients of [boto3]
    does not fail; the calls of the constructor to the engine may fail. *)
Definition __init__ : M unit := OpenSearchService.__init__.

Section Effects.

Variable env : Env.

(** [_process_direct_document_sync]: the handler logs the exception and
    raises it again. *)
Definition _process_direct_document_sync (title content : Py.str)
    (metadata : option Metadata) : M DirectResult :=
  try_except
    (let* processed_at := now_isoformat env in
     let proc_metadata0 : Metadata :=
       <[Py.lit "content_length" := PyInt.str_of_nat (length content)]>
         (<[Py.lit "source" := Py.lit "direct_upload"]>
            (<[Py.lit "processed_at" := processed_at]> ∅)) in
     let proc_metadata :=
       if OpenSearchService.given_dict metadata
       then Py.dict_get metadata ∅ ∪ proc_metadata0
       else proc_metadata0 in
     let* result :=
       OpenSearchService._index_document_sync env title content (Some proc_metadata) in
     ret (mkDirectResult (resp_id result) title (length content) proc_metadata))
    (fun e => raise e).

(** [process_direct_document]. *)
Definition process_direct_document (title content : Py.str)
    (metadata : option Metadata) : M DirectResult :=
  _process_direct_document_sync title content metadata.

End Effects.

Section Storage.

Variable env : Env.

(** The buckets and the text detection. *)
Variable files : Files.

(** [str.lower]. *)
Variable lower : Py.str -> Py.str.

(** A call of a client of [boto3]. *)
Definition client_call {A : Type} (answer : Py.str + A) : M A :=
  match answer with
  | inl message => raise (Exception message)
  | inr response => ret response
  end.

(** [_download_and_process_text]. *)
Definition _download_and_process_text (bucket key : Py.str) : M Py.str :=
  try_except
    (let* content := client_call (get_object files bucket key) in
     match Codec.decode_utf8 content with
     | Some text => ret text
     | None => ret (Codec.decode_latin1 content)
     end)
    (fun e => raise e).

(** [_process_pdf]. *)
Definition _process_pdf (bucket key : Py.str) : M Py.str :=
  try_except
    (let* response := client_call (detect_document_text files bucket key) in
     let text_lines :=
       map Text
         (List.filter (fun item => bool_decide (BlockType item = Py.lit "LINE")) response) in
     ret (Py.join Py.nl text_lines))
    (fun _ => _download_and_process_text bucket key).

Definition _process_text (bucket key : Py.str) : M Py.str :=
  _download_and_process_text bucket key.

Definition _process_docx (bucket key : Py.str) : M Py.str :=
  _download_and_process_text bucket key.

Definition _process_markdown (bucket key : Py.str) : M Py.str :=
  _download_and_process_text bucket key.

(** [self.supported_extensions]. *)
Definition supported_extensions : list (Py.str * (Py.str -> Py.str -> M Py.str)) :=
  [ (Py.lit ".pdf", _process_pdf);
    (Py.lit ".txt", _process_text);
    (Py.lit ".docx", _process_docx);
    (Py.lit ".md", _process_markdown) ].

(** [self.supported_extensions.get(file_extension)]. *)
Definition supported (file_extension : Py.str) : option (Py.str -> Py.str -> M Py.str) :=
  option_map snd
    (List.find (fun entry => bool_decide (fst entry = file_extension)) supported_extensions).

(** [_process_s3_file_sync]: the handler logs the exception and raises it
    again. *)
Definition _process_s3_file_sync (bucket key : Py.str) : M S3Result :=
  try_except
    (let* response := client_call (head_object files bucket key) in
     let file_size := ContentLength response in
     let last_modified := LastModified response in
     let file_extension := lower (snd (PosixPath.splitext key)) in
     match supported file_extension with
     | None => raise (Exception (Py.lit "Unsupported file type: " ++ file_extension))
     | Some processor =>
         let* content := processor bucket key in
         let* processed_at := now_isoformat env in
         let metadata : Metadata :=
           <[Py.lit "processed_at" := processed_at]>
             (<[Py.lit "file_type" := file_extension]>
                (<[Py.lit "last_modified" := last_modified]>
                   (<[Py.lit "file_size" := PyInt.str_of_nat file_size]>
                      (<[Py.lit "source" :=
                           Py.lit "s3://" ++ bucket ++ Py.lit "/" ++ key]> ∅)))) in
         let* result :=
           OpenSearchService._index_document_sync env (PosixPath.basename key) content
             (Some metadata) in
         ret (mkS3Result (resp_id result) bucket key (length content) metadata)
     end)
    (fun e => raise e).

End Storage.

End DocumentProcessorService.

(** ** [handle_direct_invocation] (document_processor_lambda.py) *)

(** The body of a direct invocation, parsed: each key may be missing. *)
Record DirectBody := mkDirectBody {
  db_title : option Py.str;
  db_content : option Py.str;
  db_metadata : option Metadata
}.

(** A JSON value where the handler expects the body: an object, by the
    three keys the handler reads (a title and a content that are strings and
    a metadata that is an object of strings, when they are there), or a
    value of another type ([list], [str], [int], [float], [bool],
    [NoneType]), by the name of its type. *)
Inductive JsonValue :=
| JsonObject (fields : DirectBody)
| JsonOther (type_name : Py.str).

(** [event['body']]: a string, which is JSON text or not, or a value
    that was parsed already. *)
Inductive EventBody :=
| BodyText (text : Py.str)
| BodyValue (value : JsonValue).

(** The event of a direct invocation, an object: its key [body] when it
    has one, and its own keys [title], [content] and [metadata]. *)
Record DirectEvent := mkDirectEvent {
  event_body : option EventBody;
  event_fields : DirectBody
}.

(** What the handler answers: the status code and the body. *)
Inductive DirectAnswer :=
| DocumentProcessed (document_id : Py.str)
| FieldsRequired
| ProcessingError (error : Py.str).

Definition status_code (answer : DirectAnswer) : Z :=
  match answer with
  | DocumentProcessed _ => 200
  | FieldsRequired => 400
  | ProcessingError _ => 500
  end.

(** A record of an S3 event, as far as it is read. *)
Record EventRecord := mkEventRecord {
  eventSource : Py.str;
  bucket_name : Py.str;
  object_key : Py.str
}.

(** An entry of the results of an S3 event: the dict of the processor, or
    the bucket, the key and the error. *)
Inductive EventResult :=
| FileProcessed (result : S3Result)
| FileFailed (bucket key error : Py.str).

(** What [handle_s3_event] answers. *)
Record EventAnswer := mkEventAnswer {
  ea_statusCode : Z;
  ea_message : Py.str;
  ea_results : list EventResult
}.

Module DocumentProcessorLambda.

Section Effects.

Variable env : Env.

(** [json.loads]: the value of a JSON text, or the message of the
    [JSONDecodeError] for a text that is not JSON. *)
Variable json_loads : Py.str -> Py.str + JsonValue.

(** The body the handler works on (lines 75 to 78): the text of
    [event['body']] parsed, or [event['body']] as it is when it is not a
    string, or the event itself when it has no such key. *)
Definition event_value (event : DirectEvent) : Py.str + JsonValue :=
  match event_body event with
  | Some (BodyText text) => json_loads text
  | Some (BodyValue value) => inr value
  | None => inr (JsonObject (event_fields event))
  end.

(** The message of the [AttributeError] of [body.get] on a value that is
    not an object. *)
Definition no_attribute_get (type_name : Py.str) : Py.str :=
  Py.lit "'" ++ type_name ++ Py.lit "' object has no attribute 'get'".

(** [handle_direct_invocation].  The service is built first; parsing the
    body and reading its keys are outside the [try]. *)
Definition handle_direct_invocation (event : DirectEvent) : M DirectAnswer :=
  DocumentProcessorService.__init__ >>
  match event_value event with
  | inl message => raise (Exception message)
  | inr (JsonOther type_name) => raise (Exception (no_attribute_get type_name))
  | inr (JsonObject body) =>
      if negb (OpenSearchService.given_str (db_title body)) ||
         negb (OpenSearchService.given_str (db_content body))
      then ret FieldsRequired
      else
        try_except
          (let* result :=
             DocumentProcessorService._process_direct_document_sync env
               (Py.dict_get (db_title body) []) (Py.dict_get (db_content body) [])
               (Some (Py.dict_get (db_metadata body) ∅)) in
           ret (DocumentProcessed (dr_document_id result)))
          (fun e => ret (ProcessingError (str_of_error e)))
  end.

End Effects.

Section Storage.

Variable env : Env.
Variable files : Files.
Variable lower : Py.str -> Py.str.

(** The loop of [handle_s3_event] over the records. *)
Fixpoint process_records (records : list EventRecord) (results : list EventResult)
    : M (list EventResult) :=
  match records with
  | [] => ret results
  | record :: later =>
      if negb (bool_decide (eventSource record = Py.lit "aws:s3"))
      then process_records later results
      else
        let bucket := bucket_name record in
        let key := object_key record in
        let* entry :=
          try_except
            (let* result :=
               DocumentProcessorService._process_s3_file_sync env files lower bucket key in
             ret (FileProcessed result))
            (fun e => ret (FileFailed bucket key (str_of_error e))) in
        process_records later (results ++ [entry])
  end.

(** [handle_s3_event], from the records of the event on. *)
Definition handle_s3_event (records : list EventRecord) : M EventAnswer :=
  DocumentProcessorService.__init__ >>
  let* results := process_records records [] in
  ret (mkEventAnswer 200
         (Py.lit "Processed " ++ PyInt.str_of_nat (length results) ++ Py.lit " documents")
         results).

(** The event of the handler: an S3 event, which has the key [Records],
    or a direct invocation. *)
Inductive LambdaEvent :=
| S3Event (records : list EventRecord)
| DirectInvocation (event : DirectEvent).

(** What the handler returns: the answer of one of the two functions; the
    answer of its own [except] has the shape of the status 500 of a direct
    invocation. *)
Inductive HandlerAnswer :=
| EventProcessed (answer : EventAnswer)
| DirectReply (answer : DirectAnswer).

Variable json_loads : Py.str -> Py.str + JsonValue.

(** [lambda_handler]. *)
Definition lambda_handler (event : LambdaEvent) : M HandlerAnswer :=
  try_except
    match event with
    | S3Event records =>
        let* answer := handle_s3_event records in ret (EventProcessed answer)
    | DirectInvocation direct =>
        let* answer := handle_direct_invocation env json_loads direct in
        ret (DirectReply answer)
    end
    (fun e => ret (DirectReply (ProcessingError (str_of_error e)))).

End Storage.

End DocumentProcessorLambda.

(** ** The other endpoints of api/main.py *)

Module Endpoints.

Section Effects.

Variable env : Env.

(** [search_documents]: [GET /search], [max_results] being 10 when the
    query does not give it. *)
Definition search_documents (query : Py.str) (max_results : option Z) : M (list Document) :=
  try_except
    (Api.get_opensearch_service >>
     OpenSearchService.search_documents env query (Py.dict_get max_results 10%Z))
    (fun e => raise (HTTPException 500 (str_of_error e))).

(** [list_documents]: [GET /documents]. *)
Definition list_documents : M (list (Document * Py.str)) :=
  try_except
    (Api.get_opensearch_service >> OpenSearchService.list_documents 100)
    (fun e => raise (HTTPException 500 (str_of_error e))).

(** [delete_document]: [DELETE /documents/{document_id}]; the value is the
    message of the answer. *)
Definition delete_document (document_id : Py.str) : M Py.str :=
  try_except
    (Api.get_opensearch_service >>
     let* result := OpenSearchService.delete_document document_id in
     ret (Py.lit "Document deleted successfully"))
    (fun e => raise (HTTPException 500 (str_of_error e))).

End Effects.

End Endpoints.

(** ** The chat route of the simple Lambda handler (simple_handler.py) *)

(** The payload of a chat request, parsed from the body of the event: each
    key may be missing. *)
Record ChatPayload := mkChatPayload {
  pl_message : option Py.str;
  pl_chat_history : option (list ChatTurn);
  pl_max_results : option Z
}.

(** The answer of the route: the status code and the body. *)
Record LambdaAnswer := mkLambdaAnswer {
  la_status_code : Z;
  la_body : ChatResponse
}.

(** What is local in building the two services: importing their modules,
    loading the file of variables that is read outside Lambda, and building
    the clients and the other objects of each constructor.  [None] for a
    step that succeeds, [Some message] for one that raises (a library that
    is missing from the package, a client that cannot be set up). *)
Record Package := mkPackage {
  imported : option Py.str;
  dotenv : option Py.str;
  opensearch_clients : option Py.str;
  rag_clients : option Py.str
}.

Module SimpleHandler.

(** The message of the mock response. *)
Definition mock_message (message error : Py.str) : Py.str :=
  Py.lit "⚠️ RAG system is not fully configured yet. Mock response for: '" ++ message ++
  Py.lit "'" ++ Py.nl ++ Py.nl ++
  Py.lit "To enable full RAG functionality, please:" ++ Py.nl ++
  Py.lit "1. Enable Bedrock model access in AWS Console" ++ Py.nl ++
  Py.lit "2. Request access to 'Amazon Titan Text Embeddings V1'" ++ Py.nl ++
  Py.lit "3. Request access to 'Claude 3 Haiku' or 'Claude 3.5 Sonnet'" ++ Py.nl ++ Py.nl ++
  Py.lit "Error details: " ++ error.

Section Effects.

Variable env : Env.

(** Whether the code runs in Lambda: [is_lambda_environment()], that is
    whether the variable [AWS_LAMBDA_FUNCTION_NAME] is set. *)
Variable lambda_environment : bool.

Variable package : Package.

(** A step that is local: it raises or not, and touches nothing. *)
Definition local_step (outcome : option Py.str) : M unit :=
  match outcome with
  | None => ret tt
  | Some message => raise (Exception message)
  end.

(** [get_environment_config] of core/utils/environment.py, by its effects:
    in Lambda it reads the endpoint, the user name and the password from the
    Parameter Store, three remote calls, and wraps the failure of any of
    them; elsewhere it loads the file of variables and reads the variables
    of the process. *)
Definition get_environment_config : M unit :=
  if lambda_environment then
    try_except
      (remote_call >> remote_call >> remote_call)
      (fun e =>
         raise (Exception (Py.lit "Failed to get OpenSearch configuration from SSM: " ++
                           str_of_error e)))
  else local_step (dotenv package).

(** The imports, [OpenSearchService()] and [RAGService()].  Each
    constructor reads the configuration first; the first one then builds
    its clients and creates the index when it is missing, the second one
    builds its client, the embeddings, the model and the splitter. *)
Definition build_services : M unit :=
  local_step (imported package) >>
  (get_environment_config >> local_step (opensearch_clients package) >>
   OpenSearchService.__init__) >>
  (get_environment_config >> local_step (rag_clients package)).

(** The RAG workflow of the route: both services are built, the documents
    are searched, the answer is generated. *)
Definition rag_workflow (message : Py.str) (chat_history : list ChatTurn)
    (max_results : Z) : M ChatResponse :=
  build_services >>
  let* docs := OpenSearchService.search_documents env message max_results in
  let* rag_resp :=
    RAGService.generate_response env message docs (Some (map ItemDict chat_history)) in
  ret (mkChatResponse (rag_answer rag_resp) (rag_sources rag_resp)
         (rag_confidence rag_resp) (rag_timestamp rag_resp)).

(** The branch of [lambda_handler] for [POST /chat], from the parsed payload
    on. *)
Definition chat_route (payload : ChatPayload) : M LambdaAnswer :=
  let message := Py.dict_get (pl_message payload) [] in
  let chat_history := Py.dict_get (pl_chat_history payload) [] in
  let max_results := Py.dict_get (pl_max_results payload) 5%Z in
  let* response_body :=
    try_except
      (rag_workflow message chat_history max_results)
      (fun rag_error =>
         let* timestamp := now_isoformat env in
         ret (mkChatResponse (mock_message message (str_of_error rag_error)) []
                PyFloat.zero timestamp)) in
  ret (mkLambdaAnswer 200 response_body).

End Effects.

End SimpleHandler.

(** ** More data of the examples: requests *)

Module Requests.

(** A chat request with one turn of history. *)
Definition request_with_history : ChatRequest :=
  mkChatRequest (Py.lit "And EC2?")
    (Some [mkChatMessage (Py.lit "user") (Py.lit "What is S3?") None]) None None.

(** A chat request without history nor limit. *)
Definition request_plain : ChatRequest :=
  mkChatRequest (Py.lit "What is S3?") None None None.

(** A payload with [max_results] zero. *)
Definition payload_zero : ChatPayload :=
  mkChatPayload (Some (Py.lit "What is S3?")) None (Some 0%Z).

(** A direct invocation without content, and one with both fields and a
    [source] of its own. *)
Definition body_without_content : DirectBody :=
  mkDirectBody (Some (Py.lit "ab")) None None.

Definition body_ab_c : DirectBody :=
  mkDirectBody (Some (Py.lit "ab")) (Some (Py.lit "c"))
    (Some {[ Py.lit "source" := Py.lit "crawler" ]}).

(** A text between double quotes. *)
Definition quoted (text : Py.str) : Py.str := [34%N] ++ text ++ [34%N].

(** The JSON text of an object with a title only. *)
Definition text_title_only : Py.str :=
  Py.lit "{" ++ quoted (Py.lit "title") ++ Py.lit ": " ++ quoted (Py.lit "ab") ++ Py.lit "}".

(** A parser that knows this text and the text of a list, and takes any
    other text for no JSON. *)
Definition json_loads (text : Py.str) : Py.str + JsonValue :=
  if bool_decide (text = text_title_only) then inr (JsonObject body_without_content)
  else if bool_decide (text = Py.lit "[1, 2]") then inr (JsonOther (Py.lit "list"))
  else inl (Py.lit "Expecting value: line 1 column 1 (char 0)").

(** Direct invocations: with the text of an object as body, with a text
    that is not JSON, with a list, with [null], and with the fields in the
    event itself. *)
Definition event_title_only : DirectEvent :=
  mkDirectEvent (Some (BodyText text_title_only)) (mkDirectBody None None None).

Definition event_not_json : DirectEvent :=
  mkDirectEvent (Some (BodyText (Py.lit "title=ab"))) (mkDirectBody None None None).

Definition event_list : DirectEvent :=
  mkDirectEvent (Some (BodyText (Py.lit "[1, 2]"))) (mkDirectBody None None None).

Definition event_null : DirectEvent :=
  mkDirectEvent (Some (BodyValue (JsonOther (Py.lit "NoneType"))))
    (mkDirectBody None None None).

Definition event_ab_c : DirectEvent := mkDirectEvent None body_ab_c.

(** A splitter that cuts a text in pieces of two characters. *)
Fixpoint pairs (fuel : nat) (text : Py.str) : list Py.str :=
  match fuel, text with
  | O, _ => []
  | _, [] => []
  | S fuel', _ => take 2 text :: pairs fuel' (drop 2 text)
  end.

Definition split_in_pairs (text : Py.str) : list Py.str := pairs (length text) text.

End Requests.


(** ** Reading an integer back *)

Module PyIntRead.

(** [int(s)] for a string of decimal digits. *)
Definition int_of_str (s : Py.str) : N :=
  fold_left (fun value digit => (10 * value + (digit - 48))%N) s 0%N.

End PyIntRead.


(** ** [ConfigManager.get_parameter] (core/utils/config_manager.py) *)

(** The Parameter Store and the manager.
    - [ssm_parameters]: the parameters of the store by name;
    - [ssm_requests]: the names asked of the store, oldest first;
    - [ssm_faults]: the outcome of the next calls to the store, [Some msg]
      for a call that fails with an error other than [ParameterNotFound];
    - [cm_cache]: the [_cache] of the manager. *)
Record ConfigWorld := mkConfigWorld {
  ssm_parameters : gmap Py.str Py.str;
  ssm_requests : list Py.str;
  ssm_faults : list (option Py.str);
  cm_cache : gmap Py.str Py.str
}.

Module ConfigManager.

(** [ssm_client.get_parameter(Name=name)]: the value, [Ok None] for the
    error [ParameterNotFound], [Raise] for another error. *)
Definition ssm_get_parameter (name : Py.str) (cw : ConfigWorld)
    : Result (option Py.str) * ConfigWorld :=
  let asked later :=
    mkConfigWorld (ssm_parameters cw) (ssm_requests cw ++ [name]) later (cm_cache cw) in
  match ssm_faults cw with
  | Some msg :: later => (Raise (Exception msg), asked later)
  | None :: later => (Ok (ssm_parameters cw !! name), asked later)
  | [] => (Ok (ssm_parameters cw !! name), asked [])
  end.

(** [f"{self.ssm_prefix}/{parameter_name}"] *)
Definition full_name (prefix parameter_name : Py.str) : Py.str :=
  prefix ++ Py.lit "/" ++ parameter_name.

(** [get_parameter], for a manager whose [ssm_prefix] is [prefix]. *)
Definition get_parameter (prefix parameter_name : Py.str) (decrypt : bool)
    (cw : ConfigWorld) : Result (option Py.str) * ConfigWorld :=
  let full_name := full_name prefix parameter_name in
  match cm_cache cw !! full_name with
  | Some cached => (Ok (Some cached), cw)
  | None =>
      match ssm_get_parameter full_name cw with
      | (Ok (Some value), cw') =>
          (Ok (Some value),
           mkConfigWorld (ssm_parameters cw') (ssm_requests cw') (ssm_faults cw')
             (<[full_name := value]> (cm_cache cw')))
      | (Ok None, cw') => (Ok None, cw')
      | (Raise e, cw') => (Raise e, cw')
      end
  end.

End ConfigManager.

(** What happens to a manager and its store between two calls: the store
    is changed from outside (its parameters and the outcome of its next
    calls), or a parameter is read through the manager.  Every method of
    the manager that reads a parameter does so through [get_parameter], and
    nothing else writes to [_cache]. *)
Inductive ConfigEvent :=
| StoreChanged (parameters : gmap Py.str Py.str) (faults : list (option Py.str))
| ParameterRead (parameter_name : Py.str) (decrypt : bool).

(** The manager and the store after an event, and after a list of them. *)
Definition after_event (prefix : Py.str) (cw : ConfigWorld) (event : ConfigEvent)
    : ConfigWorld :=
  match event with
  | StoreChanged parameters faults =>
      mkConfigWorld parameters (ssm_requests cw) faults (cm_cache cw)
  | ParameterRead parameter_name decrypt =>
      snd (ConfigManager.get_parameter prefix parameter_name decrypt cw)
  end.

Definition after_events (prefix : Py.str) (cw : ConfigWorld) (events : list ConfigEvent)
    : ConfigWorld :=
  fold_left (after_event prefix) events cw.

(** No event of the list reads the parameter [parameter_name]. *)
Definition reads_other (parameter_name : Py.str) (event : ConfigEvent) : Prop :=
  match event with
  | StoreChanged _ _ => True
  | ParameterRead other _ => other <> parameter_name
  end.

(** The next call to the store answers: it does not fail with an error
    other than [ParameterNotFound]. *)
Definition store_answers (cw : ConfigWorld) : Prop :=
  match ssm_faults cw with
  | Some _ :: _ => False
  | _ => True
  end.

(** ** More data of the examples: parameters *)

Module Parameters.

Definition prefix : Py.str := Py.lit "/chatbot/dev".

Definition endpoint_name : Py.str := Py.lit "/chatbot/dev/opensearch/endpoint".

(** A store with the endpoint, and a manager that has asked nothing yet. *)
Definition fresh : ConfigWorld :=
  mkConfigWorld {[ endpoint_name := Py.lit "https://search.example" ]} [] [] ∅.

(** The same manager, before the endpoint is put in the store. *)
Definition empty_store : ConfigWorld := mkConfigWorld ∅ [] [] ∅.

(** The store is throttled after another parameter was read. *)
Definition read_then_throttled : list ConfigEvent :=
  [ ParameterRead (Py.lit "vpc/id") false;
    StoreChanged ∅ [Some (Py.lit "ThrottlingException")] ].

(** Another parameter is put in the store and read, then the endpoint is
    put in the store. *)
Definition read_then_added : list ConfigEvent :=
  [ StoreChanged {[ Py.lit "/chatbot/dev/vpc/id" := Py.lit "vpc-1" ]} [];
    ParameterRead (Py.lit "vpc/id") false;
    StoreChanged {[ endpoint_name := Py.lit "https://search.example" ]} [] ].

End Parameters.


(** ** Observations on the results of an S3 event *)

(** The records of an event the handler does not skip. *)
Definition is_s3_record (record : EventRecord) : bool :=
  bool_decide (eventSource record = Py.lit "aws:s3").

Definition record_location (record : EventRecord) : Py.str * Py.str :=
  (bucket_name record, object_key record).

(** The bucket and the key an entry of the results names. *)
Definition result_location (entry : EventResult) : Py.str * Py.str :=
  match entry with
  | FileProcessed result => (sr_bucket result, sr_key result)
  | FileFailed bucket key _ => (bucket, key)
  end.

(** ** More data of the examples: uploads *)

Module Uploads.

(** The octets of [café] in Latin-1: they are not UTF-8. *)
Definition cafe_latin1 : Py.bytes := [99; 97; 102; 233]%N.

(** A bucket where every key holds these four octets, and a text
    detection that is not available. *)
Definition files : Files :=
  mkFiles
    (fun _ _ => inr (mkS3Head 4 (Py.lit "2025-07-01T10:00:00+00:00")))
    (fun _ _ => inr cafe_latin1)
    (fun _ _ => inl (Py.lit "UnsupportedDocumentException")).

Definition bucket : Py.str := Py.lit "inbox".

Definition key : Py.str := Py.lit "docs/v1.2/Notes.TXT".

End Uploads.


(** * Properties *)

(** ** Sanity of the runtime model *)

(** The digests of RFC 1321's test suite and of a padded-block boundary. *)
Example md5_test_suite :
  MD5.hexdigest [] = Py.lit "d41d8cd98f00b204e9800998ecf8427e" /\
  option_map MD5.hexdigest (Py.encode (Py.lit "abc"))
    = Some (Py.lit "900150983cd24fb0d6963f7d28e17f72") /\
  MD5.hexdigest (repeat 97%N 55) = Py.lit "ef1772b6dff9a122358552954ad0df65" /\
  MD5.hexdigest (repeat 97%N 56) = Py.lit "3b0c8ac703f828b04c6c197006d17218" /\
  MD5.hexdigest (repeat 97%N 64) = Py.lit "014842d480b571495a4a0363793f7367".
Proof. vm_compute. repeat split; reflexivity. Qed.

(** Literals are read as code points: the accented letter counts once, and
    is encoded on two octets. *)
Example sin_titulo_code_points :
  length RAGService.sin_titulo = 10%nat /\
  option_map (@length N) (Py.encode RAGService.sin_titulo) = Some 11%nat.
Proof. vm_compute. split; reflexivity. Qed.

(** Floats: [0.1], [0.1 + 0.2] and [0.3]; [1.0 / 3]; [round] on exact
    ties goes to the even neighbour, as [round(0.125, 2)] and
    [round(0.375, 2)] do in Python, [round(2.675, 2)] is [2.67] because the
    float is below the tie, and a small negative number rounds to [-0.0]. *)
Example float_examples :
  PyFloat.of_Q (1 # 10) = SpecFloat.S754_finite false 7205759403792794 (-56) /\
  PyFloat.add (PyFloat.of_Q (1 # 10)) (PyFloat.of_Q (2 # 10))
  = SpecFloat.S754_finite false 5404319552844596 (-54) /\
  PyFloat.of_Q (3 # 10) = SpecFloat.S754_finite false 5404319552844595 (-54) /\
  PyFloat.div PyFloat.one (PyFloat.of_nat 3)
  = SpecFloat.S754_finite false 6004799503160661 (-54) /\
  PyFloat.of_Q (1 # 1) = PyFloat.one /\
  PyFloat.round (PyFloat.of_Q (1 # 8)) 2 = PyFloat.of_Q (12 # 100) /\
  PyFloat.round (PyFloat.of_Q (3 # 8)) 2 = PyFloat.of_Q (38 # 100) /\
  PyFloat.round (PyFloat.of_Q (2675 # 1000)) 2 = PyFloat.of_Q (267 # 100) /\
  PyFloat.round (PyFloat.of_Q (2 # 3)) 2 = PyFloat.of_Q (67 # 100) /\
  PyFloat.round (PyFloat.of_Q (- (1 # 1000))) 2 = SpecFloat.S754_zero true /\
  PyFloat.sum (repeat (PyFloat.of_Q (1 # 10)) 10)
  = SpecFloat.S754_finite false 9007199254740991 (-53).
Proof. vm_compute. repeat split; reflexivity. Qed.

(** The comparison by values agrees with the one of the standard on these
    floats, which are in normal form. *)
Example float_compare_examples :
  Forall (fun '(x, y) =>
            PyFloat.compare (PyFloat.of_Q x) (PyFloat.of_Q y)
            = SpecFloat.SFcompare (PyFloat.of_Q x) (PyFloat.of_Q y))
    [ (1 # 3, 1 # 1); (1 # 1, 1 # 3); (33 # 100, 33 # 100); (0 # 1, 1 # 100);
      (- (1 # 3), 1 # 4); (7 # 1, 700 # 100); (- (5 # 2), - (5 # 3)) ].
Proof. repeat constructor. Qed.

(** ** Arithmetic of [round] and [min] *)

Section Rounding.

Local Open Scope Q_scope.

Lemma round_half_even_between (x : Q) (lo hi : Z) :
  inject_Z lo <= x -> x <= inject_Z hi ->
  (lo <= Py.round_half_even x <= hi)%Z.
Proof.
  intros Hlo Hhi. unfold Py.round_half_even.
  assert (Hf1 : (lo <= Qfloor x)%Z).
  { rewrite <- (Qfloor_Z lo). now apply Qfloor_resp_le. }
  assert (Hf2 : (Qfloor x <= hi)%Z).
  { rewrite <- (Qfloor_Z hi). now apply Qfloor_resp_le. }
  assert (Hup : 0 < x - inject_Z (Qfloor x) -> (Qfloor x + 1 <= hi)%Z).
  { intros Hpos.
    assert (Hlt : inject_Z (Qfloor x) < inject_Z hi).
    { apply Qlt_le_trans with x; [|exact Hhi].
      apply Qlt_minus_iff. exact Hpos. }
    rewrite <- Zlt_Qlt in Hlt. lia. }
  destruct (Qcompare (x - inject_Z (Qfloor x)) (1 # 2)) eqn:Hc.
  - apply Qeq_alt in Hc.
    destruct (Z.even (Qfloor x)); [lia|].
    split; [lia|]. apply Hup. rewrite Hc. reflexivity.
  - lia.
  - apply Qgt_alt in Hc. split; [lia|]. apply Hup.
    apply Qlt_trans with (1 # 2); [reflexivity | exact Hc].
Qed.

End Rounding.

(** ** Binary64 arithmetic on numbers that are not negative *)

Section Binary64.

Import SpecFloat PyFloat.

Local Open Scope Q_scope.

Lemma iter_pos_invariant {A : Type} (P : A -> Prop) (f : A -> A) :
  (forall x, P x -> P (f x)) ->
  forall (p : positive) (x : A), P x -> P (SpecFloat.iter_pos f p x).
Proof.
  intros Hf. induction p as [p IH|p IH|]; intros x Hx; cbn; auto.
Qed.

Lemma shr_1_nonneg (mrs : shr_record) :
  (0 <= shr_m mrs)%Z -> (0 <= shr_m (shr_1 mrs))%Z.
Proof.
  destruct mrs as [m r s]. destruct m as [|[p|p|]|p]; cbn; lia.
Qed.

Lemma shr_fexp_nonneg (m e : Z) (l : location) :
  (0 <= m)%Z -> (0 <= shr_m (fst (shr_fexp prec emax m e l)))%Z.
Proof.
  intros Hm. unfold shr_fexp, shr.
  assert (Hrecord : (0 <= shr_m (shr_record_of_loc m l))%Z)
    by (destruct l as [|[]]; exact Hm).
  destruct (fexp prec emax (Zdigits2 m + e) - e)%Z as [|p|p]; cbn [fst];
    [exact Hrecord| |exact Hrecord].
  apply (iter_pos_invariant (fun mrs => (0 <= shr_m mrs)%Z)); [|exact Hrecord].
  exact shr_1_nonneg.
Qed.

Lemma round_nearest_even_nonneg (m : Z) (l : location) :
  (0 <= m)%Z -> (0 <= round_nearest_even m l)%Z.
Proof.
  intros Hm. destruct l as [|[]]; cbn; try destruct (Z.even m); lia.
Qed.

(** Rounding a mantissa that is not negative sets no sign and gives a number. *)
Lemma binary_round_aux_sign_clear (m e : Z) (l : location) :
  (0 <= m)%Z -> sign_clear (binary_round_aux prec emax false m e l) = true.
Proof.
  intros Hm. unfold binary_round_aux.
  pose proof (shr_fexp_nonneg m e l Hm) as Hfirst.
  destruct (shr_fexp prec emax m e l) as [mrs' e']. cbn [fst] in Hfirst.
  pose proof (shr_fexp_nonneg
                (round_nearest_even (shr_m mrs') (loc_of_shr_record mrs')) e' loc_Exact
                (round_nearest_even_nonneg _ _ Hfirst)) as Hsecond.
  destruct (shr_fexp prec emax _ e' loc_Exact) as [mrs'' e'']. cbn [fst] in Hsecond.
  destruct (shr_m mrs'') as [|p|p]; [reflexivity| |lia].
  destruct (e'' <=? emax - prec)%Z; reflexivity.
Qed.

Lemma add_sign_clear (x y : float) :
  sign_clear x = true -> sign_clear y = true -> sign_clear (add x y) = true.
Proof.
  destruct x as [[]|[]| |[] mx ex], y as [[]|[]| |[] my ey];
    try discriminate; intros _ _; try reflexivity.
  unfold add, SFadd, cond_Zopp, binary_normalize.
  change (Z.pos ?a + Z.pos ?b)%Z with (Z.pos (a + b)).
  unfold binary_round.
  destruct (shl_align _ _ _) as [mz ez].
  now apply binary_round_aux_sign_clear.
Qed.

Lemma div_sign_clear (x : float) (my : positive) (ey : Z) :
  sign_clear x = true -> sign_clear (div x (S754_finite false my ey)) = true.
Proof.
  destruct x as [[]|[]| |[] mx ex]; try discriminate; intros _; try reflexivity.
  unfold div, SFdiv, SFdiv_core_binary.
  set (e' := Z.min _ _). set (shift := (ex - ey - e')%Z).
  set (m' := match shift with Z.pos _ => _ | _ => _ end).
  assert (Hm' : (0 <= m')%Z).
  { subst m'. destruct shift; [lia| |lia]. apply Z.shiftl_nonneg. lia. }
  pose proof (Z.div_pos m' (Z.pos my) Hm' ltac:(lia)) as Hq.
  unfold Z.div in Hq. destruct (Z.div_eucl m' (Z.pos my)) as [q r].
  now apply binary_round_aux_sign_clear.
Qed.

Lemma of_Q_sign_clear (q : Q) : 0 <= q -> sign_clear (of_Q q) = true.
Proof.
  intros Hq. unfold of_Q. apply div_sign_clear.
  destruct q as [[|p|p] d]; [reflexivity|reflexivity|].
  exfalso. unfold Qle in Hq. cbn in Hq. lia.
Qed.

Lemma sum_sign_clear (xs : list float) :
  Forall (fun x => sign_clear x = true) xs -> sign_clear (PyFloat.sum xs) = true.
Proof.
  unfold PyFloat.sum. assert (Hzero : sign_clear zero = true) by reflexivity.
  revert Hzero. generalize zero as acc.
  induction xs as [|x xs IH]; intros acc Hacc Hxs; [exact Hacc|].
  apply Forall_cons in Hxs as [Hx Hxs]. cbn [fold_left].
  apply IH; [|exact Hxs]. now apply add_sign_clear.
Qed.

Lemma digits2_pos_size (p : positive) : digits2_pos p = Pos.size p.
Proof. induction p as [p IH|p IH|]; cbn; now rewrite ?IH. Qed.

Lemma digits2_pos_iter (p k : positive) :
  digits2_pos (Pos.iter xO p k) = (digits2_pos p + k)%positive.
Proof.
  induction k as [|k IH] using Pos.peano_ind.
  - cbn. lia.
  - rewrite Pos.iter_succ. cbn [digits2_pos]. rewrite IH. lia.
Qed.

Lemma binary_round_aux_exact (s : bool) (m : positive) (e : Z) :
  Z.pos (digits2_pos m) = prec -> (-1074 <= e <= 971)%Z ->
  binary_round_aux prec emax s (Z.pos m) e loc_Exact = S754_finite s m e.
Proof.
  intros Hdigits He. unfold binary_round_aux, shr_fexp. cbn [Zdigits2].
  rewrite Hdigits.
  assert (Hshift : (fexp prec emax (prec + e) - e = 0)%Z)
    by (unfold fexp, SpecFloat.emin, prec, emax; lia).
  rewrite Hshift. cbn [shr shr_record_of_loc loc_of_shr_record shr_m round_nearest_even].
  cbn [Zdigits2]. rewrite Hdigits, Hshift. cbn [shr shr_record_of_loc shr_m].
  destruct (Z.leb_spec e (emax - prec)); [reflexivity|].
  unfold emax, prec in *. lia.
Qed.

(** The length of a list of fewer than [2^53] items is a float exactly. *)
Lemma of_nat_finite (n : nat) :
  (0 < n)%nat -> (Z.of_nat n < 2 ^ 53)%Z ->
  exists (m : positive) (e : Z), of_nat n = S754_finite false m e.
Proof.
  intros Hpos Hsmall. unfold of_nat, of_Z.
  destruct (Z.of_nat n) as [|p|p] eqn:Hn; [lia| |lia].
  unfold binary_normalize, binary_round, shl_align.
  assert (Hdigits : (Z.pos (digits2_pos p) <= 53)%Z).
  { rewrite digits2_pos_size.
    pose proof (Pos.size_le p) as Hle.
    destruct (Z.le_gt_cases (Z.pos (Pos.size p)) 53) as [Hok|Hbig]; [exact Hok|].
    exfalso.
    assert (H2 : (2 ^ 54 <= 2 ^ Z.pos (Pos.size p))%Z)
      by (apply Z.pow_le_mono_r; lia).
    assert (H3 : (Z.pos (2 ^ Pos.size p) <= Z.pos p~0)%Z) by exact Hle.
    rewrite Pos2Z.inj_pow in H3. change (Z.pos 2) with 2%Z in H3.
    rewrite Pos2Z.inj_xO in H3. lia. }
  assert (Hfexp : fexp prec emax (Z.pos (digits2_pos p) + 0)
                  = (Z.pos (digits2_pos p) - 53)%Z)
    by (unfold fexp, SpecFloat.emin, prec, emax; lia).
  rewrite Hfexp.
  destruct (Z.pos (digits2_pos p) - 53 - 0)%Z as [|k|k] eqn:Hk; [|lia|].
  - eexists _, _. apply binary_round_aux_exact; [unfold prec; lia | lia].
  - eexists _, _. apply binary_round_aux_exact; [|lia].
    rewrite digits2_pos_iter. unfold prec. lia.
Qed.

Lemma value_nonneg (m : positive) (e : Z) : 0 <= value (S754_finite false m e).
Proof.
  unfold value. destruct e as [|k|k]; unfold Qle; cbn; lia.
Qed.

(** What [min(x, 1.0)] is for an [x] without sign: without sign, finite and
    at most one. *)
Lemma min_one_bounds (x : float) :
  sign_clear x = true ->
  min x one = zero \/
  exists (m : positive) (e : Z),
    min x one = S754_finite false m e /\ value (S754_finite false m e) <= 1.
Proof.
  destruct x as [[]|[]| |[] m e]; try discriminate; intros _.
  - left. reflexivity.
  - right. eexists _, _. split; [reflexivity|]. unfold Qle. cbn. lia.
  - right. unfold min, ltb, compare.
    destruct (Qcompare (value one) (value (S754_finite false m e))) eqn:Hcmp.
    + exists m, e. split; [reflexivity|]. apply Qeq_alt in Hcmp.
      rewrite <- Hcmp. unfold Qle. cbn. lia.
    + eexists _, _. split; [reflexivity|]. unfold Qle. cbn. lia.
    + exists m, e. split; [reflexivity|]. apply Qgt_alt in Hcmp.
      apply Qlt_le_weak. eapply Qlt_le_trans; [exact Hcmp|]. unfold Qle. cbn. lia.
Qed.

Definition hundredths_checked : bool :=
  forallb (fun n : nat =>
             let c := div (exact (Z.of_nat n)) (exact 100) in
             leb zero c && leb c one)
          (seq 1 100).

Lemma hundredths_between (k : Z) :
  (0 <= k <= 100)%Z ->
  leb zero (of_Q (k # 100)) = true /\ leb (of_Q (k # 100)) one = true.
Proof.
  intros Hk.
  destruct (Z.eq_dec k 0%Z) as [->|Hnz]; [split; vm_compute; reflexivity|].
  assert (Htable : hundredths_checked = true) by (vm_compute; reflexivity).
  unfold hundredths_checked in Htable. rewrite forallb_forall in Htable.
  specialize (Htable (Z.to_nat k)).
  rewrite Z2Nat.id in Htable by lia.
  apply andb_true_iff. apply Htable. apply in_seq. lia.
Qed.

(** Rounding to two decimals a float between zero and one gives the float
    nearest to [k/100] for the integer [k] nearest to hundred times the
    float, a tie going to the even one. *)
Lemma round2_unit (x : float) :
  x = zero \/
  (exists (m : positive) (e : Z),
     x = S754_finite false m e /\ value (S754_finite false m e) <= 1) ->
  let k := Py.round_half_even (value x * 100) in
  (0 <= k <= 100)%Z /\ PyFloat.round x 2 = of_Q (k # 100).
Proof.
  intros [->|(m & e & -> & Hle)]; [split; [vm_compute; split; discriminate|reflexivity]|].
  intros k.
  assert (Hk : (0 <= k <= 100)%Z).
  { apply round_half_even_between.
    - pose proof (value_nonneg m e) as H0.
      change (inject_Z 0) with 0%Q.
      apply Qmult_le_0_compat; [exact H0 | discriminate].
    - change (inject_Z 100) with (1 * 100)%Q.
      apply Qmult_le_compat_r; [exact Hle | discriminate]. }
  split; [exact Hk|].
  unfold PyFloat.round. change (10 ^ Z.of_nat 2)%Z with 100%Z.
  change (inject_Z 100) with 100%Q. fold k.
  destruct k as [|p|p]; [reflexivity|reflexivity|lia].
Qed.

End Binary64.

(** ** The confidence of a response *)

(** The sum from left to right keeps the sign clear. *)
Lemma sum_left_keeps_sign : Spec.sum_keeps_sign PyFloat.sum.
Proof. exact sum_sign_clear. Qed.

(** C1.  No candidate: the confidence is exactly [0.0].  One candidate or
    more: the confidence is [min(mean of the scores, 1.0)] rounded to two
    decimal places, computed on floats.  When no score is negative, as for
    the relevance scores of the search engine, it is the float nearest to
    [k/100] for the integer [k] from 0 to 100 that is nearest to a hundred
    times that minimum (a tie going to the even one), and it is between
    [0.0] and [1.0].  (The list has fewer than [2^53] candidates, so that
    its length is a float, and the [sum] of the runtime gives no negative
    total for scores that are not negative.) *)
Theorem calculate_confidence_spec (float_sum : list PyFloat.float -> PyFloat.float)
    (documents : list Document) :
  (documents = [] ->
   RAGService._calculate_confidence float_sum documents = PyFloat.zero) /\
  (documents <> [] ->
   let confidence := RAGService._calculate_confidence float_sum documents in
   let target :=
     PyFloat.min (Spec.mean float_sum (Spec.scores documents)) PyFloat.one in
   confidence = PyFloat.round target 2 /\
   (Spec.nonnegative_scores documents ->
    (Z.of_nat (length documents) < 2 ^ 53)%Z ->
    Spec.sum_keeps_sign float_sum ->
    exists k : Z,
      (0 <= k <= 100)%Z /\
      k = Py.round_half_even (PyFloat.value target * 100) /\
      confidence = PyFloat.of_Q (k # 100) /\
      PyFloat.leb PyFloat.zero confidence = true /\
      PyFloat.leb confidence PyFloat.one = true)).
Proof.
  split; [intros ->; reflexivity|].
  intros Hne confidence target.
  assert (Heq : confidence = PyFloat.round target 2).
  { subst confidence target. unfold RAGService._calculate_confidence, Spec.mean, Spec.scores.
    destruct documents as [|d ds]; [congruence|].
    cbn [Py.truthy negb]. cbv zeta. now rewrite map_map, length_map. }
  split; [exact Heq|].
  intros Hscores Hlength Hsum.
  assert (Htotal : PyFloat.sign_clear
                     (float_sum (map PyFloat.of_Q (Spec.scores documents))) = true).
  { apply Hsum. apply Forall_map.
    eapply Forall_impl; [exact Hscores|]. intros q Hq. now apply of_Q_sign_clear. }
  assert (Hmean : PyFloat.sign_clear (Spec.mean float_sum (Spec.scores documents)) = true).
  { unfold Spec.mean, Spec.scores. rewrite length_map.
    destruct (of_nat_finite (length documents)) as (m & e & ->);
      [destruct documents; [congruence | cbn; lia] | exact Hlength |].
    now apply div_sign_clear. }
  destruct (round2_unit target (min_one_bounds _ Hmean)) as [Hk Hround].
  exists (Py.round_half_even (PyFloat.value target * 100)).
  split; [exact Hk|]. split; [reflexivity|].
  rewrite Heq, Hround. split; [reflexivity|].
  now apply hundredths_between.
Qed.

(** The statement at two candidates scored 0.04 and 0.61, with the sum from
    left to right: the floats add up to the float above 0.65, their mean is
    the float above 0.325, and the confidence is 0.33. *)
Lemma calculate_confidence_spec_witness :
  Example.close_candidates <> [] /\
  Spec.nonnegative_scores Example.close_candidates /\
  (Z.of_nat (length Example.close_candidates) < 2 ^ 53)%Z /\
  Spec.sum_keeps_sign PyFloat.sum /\
  RAGService._calculate_confidence PyFloat.sum Example.close_candidates
  = PyFloat.of_Q (33 # 100) /\
  PyFloat.leb PyFloat.zero
    (RAGService._calculate_confidence PyFloat.sum Example.close_candidates) = true /\
  PyFloat.leb (RAGService._calculate_confidence PyFloat.sum Example.close_candidates)
    PyFloat.one = true.
Proof.
  assert (Hne : Example.close_candidates <> []) by discriminate.
  assert (Hpos : Spec.nonnegative_scores Example.close_candidates).
  { repeat constructor; discriminate. }
  assert (Hlength : (Z.of_nat (length Example.close_candidates) < 2 ^ 53)%Z)
    by reflexivity.
  destruct (calculate_confidence_spec PyFloat.sum Example.close_candidates) as [_ H].
  destruct (H Hne) as (_ & Hbounds).
  destruct (Hbounds Hpos Hlength sum_left_keeps_sign) as (k & _ & _ & _ & Hge & Hle).
  split; [exact Hne|]. split; [exact Hpos|]. split; [exact Hlength|].
  split; [exact sum_left_keeps_sign|].
  split; [vm_compute; reflexivity|].
  split; [exact Hge | exact Hle].
Defined.

(** Two candidates scored 0.75 and 0.5: the mean 0.625 is a float and a
    tie, which goes to the even neighbour 0.62. *)
Example calculate_confidence_tie :
  RAGService._calculate_confidence PyFloat.sum Example.two_candidates
  = PyFloat.of_Q (62 # 100).
Proof. vm_compute. reflexivity. Qed.

(** ** The context and the history of the prompt *)

Section PromptBlocks.

(** A loop that appends to a list builds the concatenation, in order. *)
Lemma fold_left_append {A B : Type} (g : A -> list B) (l : list A) (acc : list B) :
  fold_left (fun parts x => parts ++ g x) l acc = acc ++ flat_map g l.
Proof.
  revert acc. induction l as [|x l IH]; intros acc; simpl.
  - now rewrite app_nil_r.
  - rewrite IH. now rewrite <- app_assoc.
Qed.

Lemma fold_left_append_one {A B : Type} (g : A -> B) (l : list A) (acc : list B) :
  fold_left (fun parts x => parts ++ [g x]) l acc = acc ++ map g l.
Proof.
  revert acc. induction l as [|x l IH]; intros acc; simpl.
  - now rewrite app_nil_r.
  - rewrite IH. now rewrite <- app_assoc.
Qed.

(** The three lines at position [3 * i] are the block of candidate [i]. *)
Lemma context_lines_at (documents : list Document) (i : nat) :
  take 3 (drop (3 * i) (flat_map RAGService.context_block documents))
  = match documents !! i with
    | Some doc => RAGService.context_block doc
    | None => []
    end.
Proof.
  revert i. induction documents as [|d ds IH]; intros i.
  - simpl. now rewrite drop_nil.
  - destruct i as [|i].
    + reflexivity.
    + replace (3 * S i)%nat with (3 + 3 * i)%nat by lia.
      cbn [flat_map RAGService.context_block app]. 
      change (drop (3 + 3 * i) (?a :: ?b :: ?c :: ?l)) with (drop (3 * i) l).
      apply IH.
Qed.

End PromptBlocks.

(** C4 (as amended).  The context is the blocks of the candidates joined by
    line feeds, in the order the candidates were received: the three lines
    at position [3 * i] are [Documento: <title>], [Contenido: <content>]
    and the delimiter [---] of candidate [i], whatever the scores; and the
    context lines of a list followed by another are the lines of the first
    followed by the lines of the second. *)
Theorem prepare_context_keeps_order (documents : list Document) :
  RAGService._prepare_context documents
  = Py.join Py.nl (flat_map RAGService.context_block documents) /\
  (forall i : nat,
     take 3 (drop (3 * i) (flat_map RAGService.context_block documents))
     = match documents !! i with
       | Some doc =>
           [ Py.lit "Documento: " ++ Py.dict_get (doc_title doc) (Py.lit "Sin título");
             Py.lit "Contenido: " ++ Py.dict_get (doc_content doc) [];
             Py.lit "---" ]
       | None => []
       end) /\
  (forall more : list Document,
     flat_map RAGService.context_block (documents ++ more)
     = flat_map RAGService.context_block documents
       ++ flat_map RAGService.context_block more).
Proof.
  split; [|split].
  - unfold RAGService._prepare_context. now rewrite fold_left_append.
  - intros i. rewrite context_lines_at. now destruct (documents !! i).
  - intros more. apply flat_map_app.
Qed.

(** One candidate: the labels of the rendered block are [Documento:] and
    [Contenido:], not the [Document:] and [Content:] of the specification. *)
Lemma prepare_context_labels :
  RAGService._prepare_context Example.one_candidate = Example.one_candidate_context /\
  RAGService._prepare_context Example.one_candidate
  <> SpecPrompt.context_block Example.one_candidate.
Proof.
  split.
  - vm_compute. reflexivity.
  - vm_compute. discriminate.
Qed.

Section History.

Variable capitalize : Py.str -> Py.str.

Lemma history_loop (turns : list ChatTurn) (parts : list Py.str) :
  fold_left (RAGService.history_step capitalize) (map ItemDict turns) (Ok parts)
  = Ok (parts ++ map (SpecPrompt.turn_line capitalize) turns).
Proof.
  revert parts. induction turns as [|t turns IH]; intros parts; simpl.
  - now rewrite app_nil_r.
  - rewrite IH. now rewrite <- app_assoc.
Qed.

Lemma slice_last_map {A B : Type} (f : A -> B) (n : nat) (l : list A) :
  Py.slice_last n (map f l) = map f (Py.slice_last n l).
Proof.
  unfold Py.slice_last. now rewrite length_map, skipn_map.
Qed.

Lemma slice_last_length {A : Type} (n : nat) (l : list A) :
  length (Py.slice_last n l) = Nat.min n (length l).
Proof.
  unfold Py.slice_last. rewrite length_skipn. lia.
Qed.

End History.

(** C5.  The history block of a list of turns is the lines
    [<Role capitalized>: <content>] of its last five turns joined by line
    feeds; the turns before them are dropped; the block of an empty history
    is empty. *)
Theorem prepare_chat_history_window (capitalize : Py.str -> Py.str)
    (turns : list ChatTurn) :
  RAGService._prepare_chat_history capitalize (map ItemDict turns)
  = Ok (Py.join Py.nl (map (SpecPrompt.turn_line capitalize) (Py.slice_last 5 turns))) /\
  turns = take (length turns - 5) turns ++ Py.slice_last 5 turns /\
  length (Py.slice_last 5 turns) = Nat.min 5 (length turns) /\
  RAGService._prepare_chat_history capitalize [] = Ok [].
Proof.
  split; [|split; [|split]].
  - unfold RAGService._prepare_chat_history.
    destruct turns as [|t turns]; [reflexivity|].
    cbn [map Py.truthy negb].
    change (ItemDict t :: map ItemDict turns) with (map ItemDict (t :: turns)).
    now rewrite slice_last_map, history_loop.
  - unfold Py.slice_last. now rewrite firstn_skipn.
  - apply slice_last_length.
  - reflexivity.
Qed.

(** Of a history of eight turns, the block holds the last five. *)
Example prepare_chat_history_eight_turns :
  RAGService._prepare_chat_history Py.ascii_capitalize (map ItemDict Example.eight_turns)
  = Ok Example.eight_turns_block.
Proof. vm_compute. reflexivity. Qed.

(** A [ChatMessage] object among the last five items has no method [get]:
    the loop raises. *)
Example prepare_chat_history_model_item :
  RAGService._prepare_chat_history Py.ascii_capitalize
    [ ItemModel (mkChatMessage (Py.lit "user") (Py.lit "Hello") None) ]
  = Raise (Exception (Py.lit "'ChatMessage' object has no attribute 'get'")).
Proof. reflexivity. Qed.

(** ** The sources of a response *)

Lemma prepare_sources_map (documents : list Document) :
  RAGService._prepare_sources documents
  = map (fun doc =>
           {| src_title := Py.dict_get (doc_title doc) RAGService.sin_titulo;
              src_content_preview :=
                RAGService.content_preview (Py.dict_get (doc_content doc) []);
              src_score := Py.dict_get (doc_score doc) 0%Q;
              src_metadata := Py.dict_get (doc_metadata doc) ∅ |})
        documents.
Proof.
  unfold RAGService._prepare_sources.
  now rewrite (fold_left_append_one _ documents []).
Qed.

Lemma lookup_map {A B : Type} (f : A -> B) (l : list A) (i : nat) :
  map f l !! i = option_map f (l !! i).
Proof.
  revert i. induction l as [|a l IH]; intros [|i]; simpl; auto.
Qed.

(** C6.  The source of candidate [i] is at position [i]; its
    [content_preview] is the first 200 characters of the content followed
    by [...] when the content has more than 200 characters (203 characters
    in all), and the content itself otherwise. *)
Theorem prepare_sources_preview (documents : list Document) (i : nat) (doc : Document) :
  documents !! i = Some doc ->
  exists source : Source,
    RAGService._prepare_sources documents !! i = Some source /\
    let content := Py.dict_get (doc_content doc) [] in
    (200 < length content ->
     src_content_preview source = take 200 content ++ Py.lit "..." /\
     length (src_content_preview source) = 203) /\
    (length content <= 200 -> src_content_preview source = content).
Proof.
  intros Hi. rewrite prepare_sources_map, lookup_map, Hi. cbn [option_map].
  eexists. split; [reflexivity|]. cbn [src_content_preview].
  unfold RAGService.content_preview, Py.slice_to. split.
  - intros Hlong.
    destruct (Nat.ltb_spec 200 (length (Py.dict_get (doc_content doc) []))); [|lia].
    split; [reflexivity|].
    rewrite length_app, length_take. change (length (Py.lit "...")) with 3. lia.
  - intros Hshort.
    destruct (Nat.ltb_spec 200 (length (Py.dict_get (doc_content doc) []))); [lia|].
    reflexivity.
Qed.

(** A content of 250 characters is cut to its first 200 and [...]; a
    content of 150 characters is kept as it is. *)
Lemma prepare_sources_preview_witness :
  (exists source : Source,
     RAGService._prepare_sources Example.long_and_short !! 0 = Some source /\
     src_content_preview source = Example.letters 200 ++ Py.lit "..." /\
     length (src_content_preview source) = 203) /\
  (exists source : Source,
     RAGService._prepare_sources Example.long_and_short !! 1 = Some source /\
     src_content_preview source = Example.letters 150).
Proof.
  split.
  - destruct (prepare_sources_preview Example.long_and_short 0
                (Example.candidate (Py.lit "long") (Example.letters 250) (3 # 4))
                eq_refl) as (source & Hsrc & Hlong & _).
    exists source. split; [exact Hsrc|].
    apply Hlong. vm_compute. lia.
  - destruct (prepare_sources_preview Example.long_and_short 1
                (Example.candidate (Py.lit "short") (Example.letters 150) (1 # 2))
                eq_refl) as (source & Hsrc & _ & Hshort).
    exists source. split; [exact Hsrc|].
    apply Hshort. vm_compute. lia.
Defined.

(** ** Running effectful code *)

(** Unfolds the monad and the client so that a call on a world given by its
    fields reduces to its outcome. *)
Ltac run :=
  cbv beta iota zeta delta
    [ bind ret raise try_except get_world put_index log_call remote_call
      now_isoformat indices_exists indices_create client_index client_search
      client_update client_delete invoke_embedding_model llm_invoke
      str_of_error stored healthy
      os_index os_log faults clock_reads opensearch_service
      idx_docs idx_mapping resp_id resp_result Py.dict_get Py.truthy negb
      upd_title upd_content upd_embedding upd_metadata upd_updated_at
      OpenSearchService._create_index_if_not_exists OpenSearchService.__init__
      OpenSearchService._get_embedding_sync OpenSearchService.get_embedding
      OpenSearchService._index_document_sync OpenSearchService.index_document
      OpenSearchService.search_documents OpenSearchService.update_document
      OpenSearchService.given_str OpenSearchService.given_dict ].

Lemma index_not_found_token :
  Py.contains (Py.lit "index_not_found_exception") index_not_found = true.
Proof. vm_compute. reflexivity. Qed.

(** ** Search on a cold start *)

(** C3.  When the index does not exist and the cluster answers, [search]
    returns the empty list, whatever the query and the limit, and leaves
    the index created with the mapping of the service and no record; the
    requests sent are the search, the existence check and the creation. *)
Theorem search_documents_self_heals (env : Env) (query : Py.str) (max_results : Z)
    (w : World) :
  os_index w = None ->
  healthy w ->
  exists w' : World,
    OpenSearchService.search_documents env query max_results w = (Ok [], w') /\
    os_index w' = Some (mkIndex OpenSearchService.index_body ∅) /\
    os_log w' = os_log w ++
                [ CallSearch max_results query; CallExists;
                  CallCreate OpenSearchService.index_body ].
Proof.
  destruct w as [ix log fs reads svc]. unfold healthy. cbn [os_index faults].
  intros -> ->.
  eexists. run. rewrite index_not_found_token. run.
  split; [reflexivity|]. split; [reflexivity|].
  now rewrite <- !app_assoc.
Qed.

Lemma search_documents_self_heals_witness :
  os_index Example.cold = None /\ healthy Example.cold /\
  exists w' : World,
    OpenSearchService.search_documents Example.env (Py.lit "object storage") 5 Example.cold
    = (Ok [], w') /\
    os_index w' = Some (mkIndex OpenSearchService.index_body ∅).
Proof.
  split; [reflexivity|]. split; [reflexivity|].
  destruct (search_documents_self_heals Example.env (Py.lit "object storage") 5
              Example.cold eq_refl eq_refl) as (w' & Hrun & Hix & _).
  exists w'. split; [exact Hrun | exact Hix].
Defined.

(** When the creation itself fails, the failure is swallowed: the search
    still returns the empty list and the index still does not exist. *)
Example search_documents_creation_fails :
  exists w' : World,
    OpenSearchService.search_documents Example.env (Py.lit "object storage") 5
      Example.cold_third_call_fails = (Ok [], w') /\
    os_index w' = None.
Proof. eexists. vm_compute. split; reflexivity. Qed.

(** ** Index writes *)

(** A write on a healthy world succeeds: it returns the id of the pair and
    stores the record under it. *)
Lemma index_document_run (env : Env) (title content : Py.str)
    (metadata : option Metadata) (id : Py.str) (w : World) :
  OpenSearchService.document_id title content = Some id ->
  healthy w ->
  exists result : Py.str,
    OpenSearchService._index_document_sync env title content metadata w
    = (Ok (mkWriteResponse id result),
       world_after_index w id (written_body env title content metadata (clock_reads w))).
Proof.
  destruct w as [ix log fs reads svc]. unfold healthy. cbn [faults].
  intros Hid ->. run. rewrite Hid. run.
  eexists. unfold world_after_index, written_body.
  cbn [os_index os_log clock_reads opensearch_service Py.dict_get].
  reflexivity.
Qed.

Lemma world_after_index_healthy (w : World) (id : Py.str) (body : DocBody) :
  healthy (world_after_index w id body).
Proof. reflexivity. Qed.

Lemma stored_after_index (w : World) (id : Py.str) (body : DocBody) :
  stored (world_after_index w id body) = <[id := body]> (stored w).
Proof.
  unfold stored, world_after_index. cbn [os_index].
  destruct (os_index w); reflexivity.
Qed.

(** Two successive writes under one id leave one record there, the second. *)
Lemma stored_after_two_writes (w : World) (id : Py.str) (first second : DocBody) :
  let w1 := world_after_index w id first in
  let w2 := world_after_index w1 id second in
  stored w2 !! id = Some second /\
  dom (stored w2) = dom (stored w1) /\
  size (stored w2) = size (stored w1).
Proof.
  intros w1 w2. unfold w2, w1. rewrite !stored_after_index.
  split; [apply lookup_insert_eq|]. split.
  - apply dom_insert_lookup_L. rewrite lookup_insert_eq. eauto.
  - apply map_size_insert_Some. rewrite lookup_insert_eq. eauto.
Qed.

(** C2.  The id an index write returns is [document_id title content], a
    function of the title and the content alone; two writes of one pair
    return that id both times, and the second replaces the record of the
    first: the index holds its record under that id and has as many records
    as after the first write. *)
Theorem index_document_idempotent (env : Env) (title content : Py.str)
    (metadata1 metadata2 : option Metadata) (id : Py.str) (w : World) :
  OpenSearchService.document_id title content = Some id ->
  healthy w ->
  exists (r1 r2 : WriteResponse) (w1 w2 : World),
    OpenSearchService._index_document_sync env title content metadata1 w = (Ok r1, w1) /\
    OpenSearchService._index_document_sync env title content metadata2 w1 = (Ok r2, w2) /\
    resp_id r1 = id /\ resp_id r2 = id /\
    stored w2 !! id
    = Some (written_body env title content metadata2 (clock_reads w1)) /\
    dom (stored w2) = dom (stored w1) /\
    size (stored w2) = size (stored w1).
Proof.
  intros Hid Hw.
  destruct (index_document_run env title content metadata1 id w Hid Hw) as [res1 H1].
  set (w1 := world_after_index w id
               (written_body env title content metadata1 (clock_reads w))) in *.
  destruct (index_document_run env title content metadata2 id w1 Hid
              (world_after_index_healthy _ _ _)) as [res2 H2].
  eexists _, _, _, _. split; [exact H1|]. split; [exact H2|].
  split; [reflexivity|]. split; [reflexivity|].
  apply stored_after_two_writes.
Qed.

Lemma index_document_idempotent_witness :
  OpenSearchService.document_id (Py.lit "ab") (Py.lit "c") = Some Example.id_abc /\
  healthy Example.cold /\
  stored Example.after_ab_c_twice !! Example.id_abc
  = Some (written_body Example.env (Py.lit "ab") (Py.lit "c") None 2) /\
  size (stored Example.after_ab_c_twice) = size (stored Example.after_ab_c).
Proof.
  assert (Hid : OpenSearchService.document_id (Py.lit "ab") (Py.lit "c")
                = Some Example.id_abc) by (vm_compute; reflexivity).
  split; [exact Hid|]. split; [reflexivity|].
  destruct (index_document_idempotent Example.env (Py.lit "ab") (Py.lit "c") None None
              Example.id_abc Example.cold Hid eq_refl)
    as (r1 & r2 & w1 & w2 & H1 & H2 & _ & _ & Hstored & _ & Hsize).
  assert (E1 : Example.after_ab_c = w1).
  { unfold Example.after_ab_c. now rewrite H1. }
  assert (E2 : Example.after_ab_c_twice = w2).
  { unfold Example.after_ab_c_twice. rewrite E1. now rewrite H2. }
  rewrite E2, E1. split; [|exact Hsize].
  rewrite Hstored. f_equal. f_equal.
  rewrite <- E1. vm_compute. reflexivity.
Defined.

(** C10.  The id depends on the concatenation of the title and the content
    only.  Two distinct pairs with the same concatenation get the same id,
    and indexing one after the other leaves a single record under that id,
    the record of the second pair: the record of the first is gone. *)
Theorem document_id_concatenation (env : Env) (title1 content1 title2 content2 : Py.str)
    (metadata1 metadata2 : option Metadata) (id : Py.str) (w : World) :
  (title1, content1) <> (title2, content2) ->
  title1 ++ content1 = title2 ++ content2 ->
  OpenSearchService.document_id title1 content1 = Some id ->
  healthy w ->
  OpenSearchService.document_id title2 content2 = Some id /\
  exists (r1 r2 : WriteResponse) (w1 w2 : World),
    OpenSearchService._index_document_sync env title1 content1 metadata1 w = (Ok r1, w1) /\
    OpenSearchService._index_document_sync env title2 content2 metadata2 w1 = (Ok r2, w2) /\
    resp_id r1 = id /\ resp_id r2 = id /\
    stored w1 !! id
    = Some (written_body env title1 content1 metadata1 (clock_reads w)) /\
    stored w2 !! id
    = Some (written_body env title2 content2 metadata2 (clock_reads w1)) /\
    stored w2 !! id <> stored w1 !! id /\
    size (stored w2) = size (stored w1).
Proof.
  intros Hne Hcat Hid1 Hw.
  assert (Hid2 : OpenSearchService.document_id title2 content2 = Some id).
  { unfold OpenSearchService.document_id in *. rewrite <- Hcat. exact Hid1. }
  split; [exact Hid2|].
  destruct (index_document_run env title1 content1 metadata1 id w Hid1 Hw) as [res1 H1].
  set (b1 := written_body env title1 content1 metadata1 (clock_reads w)) in *.
  set (w1 := world_after_index w id b1) in *.
  destruct (index_document_run env title2 content2 metadata2 id w1 Hid2
              (world_after_index_healthy _ _ _)) as [res2 H2].
  set (b2 := written_body env title2 content2 metadata2 (clock_reads w1)) in *.
  destruct (stored_after_two_writes w id b1 b2) as (Hsecond & _ & Hsize).
  fold w1 in Hsecond, Hsize.
  assert (Hfirst : stored w1 !! id = Some b1).
  { unfold w1. rewrite stored_after_index. apply lookup_insert_eq. }
  eexists _, _, _, _. split; [exact H1|]. split; [exact H2|].
  split; [reflexivity|]. split; [reflexivity|].
  split; [exact Hfirst|]. split; [exact Hsecond|]. split; [|exact Hsize].
  rewrite Hsecond, Hfirst. intros Heq. apply Hne.
  injection Heq as Ht Hc _. congruence.
Qed.

Lemma document_id_concatenation_witness :
  OpenSearchService.document_id (Py.lit "ab") (Py.lit "c") = Some Example.id_abc /\
  OpenSearchService.document_id (Py.lit "a") (Py.lit "bc") = Some Example.id_abc /\
  option_map body_title (stored Example.after_ab_c !! Example.id_abc) = Some (Py.lit "ab") /\
  option_map body_title (stored Example.after_a_bc !! Example.id_abc) = Some (Py.lit "a") /\
  size (stored Example.after_a_bc) = size (stored Example.after_ab_c).
Proof.
  assert (Hid : OpenSearchService.document_id (Py.lit "ab") (Py.lit "c")
                = Some Example.id_abc) by (vm_compute; reflexivity).
  assert (Hne : (Py.lit "ab", Py.lit "c") <> (Py.lit "a", Py.lit "bc"))
    by (vm_compute; discriminate).
  destruct (document_id_concatenation Example.env (Py.lit "ab") (Py.lit "c")
              (Py.lit "a") (Py.lit "bc") None None Example.id_abc Example.cold
              Hne eq_refl Hid eq_refl)
    as (Hid2 & r1 & r2 & w1 & w2 & H1 & H2 & _ & _ & Hfirst & Hsecond & _ & Hsize).
  assert (E1 : Example.after_ab_c = w1).
  { unfold Example.after_ab_c. now rewrite H1. }
  assert (E2 : Example.after_a_bc = w2).
  { unfold Example.after_a_bc. rewrite E1. now rewrite H2. }
  split; [exact Hid|]. split; [exact Hid2|].
  rewrite E2, E1, Hfirst, Hsecond.
  split; [reflexivity|]. split; [reflexivity | exact Hsize].
Defined.

(** C9 (as amended).  An index write that succeeds stores a record whose
    [created_at] and [updated_at] are the two readings of the clock made
    during the write, whether or not a record was stored under the id
    before. *)
Theorem index_document_timestamps (env : Env) (title content : Py.str)
    (metadata : option Metadata) (id : Py.str) (w : World) :
  OpenSearchService.document_id title content = Some id ->
  healthy w ->
  exists (r : WriteResponse) (w' : World) (body : DocBody),
    OpenSearchService._index_document_sync env title content metadata w = (Ok r, w') /\
    stored w' !! id = Some body /\
    body_created_at body = clock env (clock_reads w) /\
    body_updated_at body = clock env (S (clock_reads w)).
Proof.
  intros Hid Hw.
  destruct (index_document_run env title content metadata id w Hid Hw) as [res H].
  eexists _, _, _. split; [exact H|].
  rewrite stored_after_index, lookup_insert_eq.
  split; [reflexivity|]. split; reflexivity.
Qed.

Lemma index_document_timestamps_witness :
  OpenSearchService.document_id (Py.lit "ab") (Py.lit "c") = Some Example.id_abc /\
  healthy Example.cold /\
  exists body : DocBody,
    stored Example.after_ab_c !! Example.id_abc = Some body /\
    body_created_at body = Py.lit "2025-07-18T00:00:00" /\
    body_updated_at body = Py.lit "2025-07-18T00:00:01".
Proof.
  assert (Hid : OpenSearchService.document_id (Py.lit "ab") (Py.lit "c")
                = Some Example.id_abc) by (vm_compute; reflexivity).
  split; [exact Hid|]. split; [reflexivity|].
  destruct (index_document_timestamps Example.env (Py.lit "ab") (Py.lit "c") None
              Example.id_abc Example.cold Hid eq_refl)
    as (r & w' & body & Hrun & Hstored & Hc & Hu).
  exists body. unfold Example.after_ab_c. rewrite Hrun. cbn [snd].
  split; [exact Hstored|]. split; [rewrite Hc | rewrite Hu]; vm_compute; reflexivity.
Defined.

(** The pair ("ab", "c") indexed twice: the [created_at] of the record is
    that of the second write, not the one of the first. *)
Lemma reindex_resets_created_at :
  option_map body_created_at (stored Example.after_ab_c !! Example.id_abc)
  = Some (Py.lit "2025-07-18T00:00:00") /\
  option_map body_created_at (stored Example.after_ab_c_twice !! Example.id_abc)
  = Some (Py.lit "2025-07-18T00:00:02") /\
  option_map body_created_at (stored Example.after_ab_c_twice !! Example.id_abc)
  <> option_map body_created_at (stored Example.after_ab_c !! Example.id_abc).
Proof.
  assert (H1 : option_map body_created_at (stored Example.after_ab_c !! Example.id_abc)
               = Some (Py.lit "2025-07-18T00:00:00")) by (vm_compute; reflexivity).
  assert (H2 : option_map body_created_at
                 (stored Example.after_ab_c_twice !! Example.id_abc)
               = Some (Py.lit "2025-07-18T00:00:02")) by (vm_compute; reflexivity).
  split; [exact H1|]. split; [exact H2|].
  rewrite H1, H2. vm_compute. discriminate.
Qed.

(** ** Updates *)

(** C8 (as amended).  An update of a stored record on a healthy world
    succeeds and keeps the record under its id, with the same ids in the
    index and the same [created_at]; [updated_at] becomes the reading of
    the clock made by the update.  Without content, or with an empty
    content, the embedding and the content stay as they were, whatever the
    title and the metadata given.  With a non-empty content the content is
    replaced and the embedding is the one the model computes for it. *)
Theorem update_document_frame (env : Env) (id : Py.str) (title content : option Py.str)
    (metadata : option Metadata) (ix : Index) (old : DocBody) (w : World) :
  os_index w = Some ix ->
  idx_docs ix !! id = Some old ->
  healthy w ->
  exists (r : WriteResponse) (w' : World) (new : DocBody),
    OpenSearchService.update_document env id title content metadata w = (Ok r, w') /\
    resp_id r = id /\
    stored w' !! id = Some new /\
    dom (stored w') = dom (stored w) /\
    body_updated_at new = clock env (clock_reads w) /\
    body_created_at new = body_created_at old /\
    (OpenSearchService.given_str content = false ->
     body_embedding new = body_embedding old /\ body_content new = body_content old) /\
    (forall c : Py.str, content = Some c -> c <> [] ->
     body_embedding new = titan_embed env c /\ body_content new = c).
Proof.
  destruct w as [ix' log fs reads svc]. unfold healthy. cbn [os_index faults].
  intros -> Hold ->. destruct ix as [mapping docs]. cbn [idx_docs] in Hold.
  assert (Hdom : forall b : DocBody, dom (<[id := b]> docs) = dom docs).
  { intros b. apply dom_insert_lookup_L. rewrite Hold. eauto. }
  destruct title as [[|t0 t]|], content as [[|c0 c]|], metadata as [m|];
    run; try destruct (bool_decide (m = ∅)); run; rewrite Hold;
    (eexists _, _, _; split; [reflexivity|]; split; [reflexivity|];
     cbn [os_index idx_docs]; rewrite lookup_insert_eq;
     split; [reflexivity|]; split; [apply Hdom|];
     split; [reflexivity|]; split; [reflexivity|];
     split; [ intros Hgiven; try discriminate Hgiven; split; reflexivity
            | intros c' Hc' Hne; try discriminate Hc';
              try (injection Hc' as <-; try congruence; split; reflexivity) ]).
Qed.

Lemma update_document_frame_witness :
  os_index Example.after_ab_c = Some Example.index_ab_c /\
  idx_docs Example.index_ab_c !! Example.id_abc = Some Example.record_ab_c /\
  healthy Example.after_ab_c /\
  (exists new : DocBody,
     stored Example.after_metadata_update !! Example.id_abc = Some new /\
     body_embedding new = body_embedding Example.record_ab_c /\
     body_metadata new = Example.reviewed /\
     body_updated_at new = Py.lit "2025-07-18T00:00:02") /\
  (exists new : DocBody,
     stored Example.after_content_update !! Example.id_abc = Some new /\
     body_embedding new = [3%Q] /\
     body_content new = Py.lit "xyz" /\
     body_updated_at new = Py.lit "2025-07-18T00:00:02").
Proof.
  assert (Hix : os_index Example.after_ab_c = Some Example.index_ab_c)
    by (vm_compute; reflexivity).
  assert (Hold : idx_docs Example.index_ab_c !! Example.id_abc = Some Example.record_ab_c)
    by (vm_compute; reflexivity).
  assert (Hw : healthy Example.after_ab_c) by (vm_compute; reflexivity).
  split; [exact Hix|]. split; [exact Hold|]. split; [exact Hw|]. split.
  - destruct (update_document_frame Example.env Example.id_abc None None
                (Some Example.reviewed) Example.index_ab_c Example.record_ab_c
                Example.after_ab_c Hix Hold Hw)
      as (r & w' & new & Hrun & _ & Hnew & _ & Hupd & _ & Hkeep & _).
    exists new. unfold Example.after_metadata_update. rewrite Hrun. cbn [snd].
    split; [exact Hnew|]. split; [apply Hkeep; reflexivity|].
    split; [|rewrite Hupd; vm_compute; reflexivity].
    assert (Hval : option_map body_metadata (stored w' !! Example.id_abc)
                   = Some Example.reviewed).
    { replace w' with Example.after_metadata_update
        by (unfold Example.after_metadata_update; now rewrite Hrun).
      vm_compute. reflexivity. }
    rewrite Hnew in Hval. cbn [option_map] in Hval. congruence.
  - destruct (update_document_frame Example.env Example.id_abc None
                (Some (Py.lit "xyz")) None Example.index_ab_c Example.record_ab_c
                Example.after_ab_c Hix Hold Hw)
      as (r & w' & new & Hrun & _ & Hnew & _ & Hupd & _ & _ & Hset).
    exists new. unfold Example.after_content_update. rewrite Hrun. cbn [snd].
    split; [exact Hnew|].
    destruct (Hset (Py.lit "xyz") eq_refl) as [Hemb Hcontent].
    { vm_compute. discriminate. }
    split; [rewrite Hemb; vm_compute; reflexivity|].
    split; [exact Hcontent | rewrite Hupd; vm_compute; reflexivity].
Defined.

(** An update that gives the empty string as content succeeds and leaves
    the content and the embedding of the record as they were: the embedding
    of the new content is not computed. *)
Lemma update_empty_content_ignored :
  fst (OpenSearchService.update_document Example.env Example.id_abc None (Some []) None
         Example.after_ab_c)
  = Ok (mkWriteResponse Example.id_abc (Py.lit "updated")) /\
  option_map body_content (stored Example.after_empty_content_update !! Example.id_abc)
  = Some (Py.lit "c") /\
  option_map body_embedding (stored Example.after_empty_content_update !! Example.id_abc)
  = Some [1%Q] /\
  titan_embed Example.env [] = [0%Q] /\
  option_map body_embedding (stored Example.after_empty_content_update !! Example.id_abc)
  <> Some (titan_embed Example.env []).
Proof.
  split; [vm_compute; reflexivity|].
  split; [vm_compute; reflexivity|].
  split; [vm_compute; reflexivity|].
  split; [vm_compute; reflexivity|].
  vm_compute. discriminate.
Qed.

(** ** The limit of the search of [chat] *)

Section ChatLimit.

Variable env : Env.

(** Creating the index sends no search, and never raises. *)
Lemma create_index_no_search (w : World) :
  exists w' : World,
    OpenSearchService._create_index_if_not_exists w = (Ok tt, w') /\
    searches w' = searches w.
Proof.
  destruct w as [ix log fs reads svc]. unfold searches. run.
  repeat case_match; simplify_eq; eexists; (split; [reflexivity|]);
    cbn [os_log]; rewrite ?List.filter_app; cbn [List.filter is_search];
    now rewrite ?app_nil_r.
Qed.

(** The search of the client is logged, whatever its outcome. *)
Lemma client_search_logged (query : Py.str) (size : Z) (w : World) :
  searches (snd (client_search env size query w))
  = searches w ++ [CallSearch size query].
Proof.
  destruct w as [ix log fs reads svc]. unfold searches.
  cbv beta iota zeta delta
    [ client_search bind ret raise log_call remote_call get_world
      os_index os_log faults clock_reads opensearch_service ].
  destruct fs as [|[msg|] later]; cbn [snd os_log];
    try destruct ix as [ix|]; try destruct (size <? 0)%Z;
    try destruct (10000 <? size)%Z; cbn [snd os_log];
    rewrite List.filter_app; reflexivity.
Qed.

(** [search_documents] sends one search, with the limit it is given. *)
Lemma search_documents_one_search (query : Py.str) (max_results : Z) (w : World) :
  searches (snd (OpenSearchService.search_documents env query max_results w))
  = searches w ++ [CallSearch max_results query].
Proof.
  pose proof (client_search_logged query max_results w) as Hlog.
  unfold OpenSearchService.search_documents, try_except, bind.
  destruct (client_search env max_results query w) as [[hits|e] w1];
    cbn [snd] in Hlog; [exact Hlog|].
  destruct (Py.contains (Py.lit "index_not_found_exception") (str_of_error e)).
  - destruct (create_index_no_search w1) as (w2 & Hrun & Hsame).
    rewrite Hrun. cbn [ret snd]. now rewrite Hsame.
  - exact Hlog.
Qed.

(** [generate_response] sends nothing to OpenSearch. *)
Lemma generate_response_log (question : Py.str) (documents : list Document)
    (chat_history : option (list HistoryItem)) (w : World) :
  os_log (snd (RAGService.generate_response env question documents chat_history w))
  = os_log w.
Proof.
  assert (Hllm : forall prompt : Py.str,
             os_log (snd (RAGService._generate_llm_response env prompt w)) = os_log w).
  { intros prompt. destruct w as [ix log fs reads svc].
    unfold RAGService._generate_llm_response, llm_invoke, try_except, bind,
      remote_call, ret, raise.
    cbn [faults]. destruct fs as [|[msg|] later]; reflexivity. }
  unfold RAGService.generate_response, try_except, bind.
  destruct (RAGService._prepare_chat_history _ _) as [history|e]; [|reflexivity].
  match goal with
  | |- context [RAGService._generate_llm_response env ?p w] =>
      specialize (Hllm p);
      destruct (RAGService._generate_llm_response env p w) as [[response|e] w1]
  end; cbn [snd] in Hllm; unfold now_isoformat, ret, raise; cbn [snd os_log];
    exact Hllm.
Qed.

(** Building the service sends no search, and never raises. *)
Lemma get_opensearch_service_no_search (w : World) :
  exists w' : World,
    Api.get_opensearch_service w = (Ok tt, w') /\ searches w' = searches w.
Proof.
  unfold Api.get_opensearch_service, OpenSearchService.__init__, bind, get_world.
  destruct (opensearch_service w).
  - exists w. split; reflexivity.
  - destruct (create_index_no_search w) as (w' & Hrun & Hlog).
    rewrite Hrun. eexists. split; [reflexivity|]. exact Hlog.
Qed.

End ChatLimit.



(** * Further properties of the code *)

(** ** Frames of effectful code *)

Section Frames.

Variable R : World -> World -> Prop.
Hypothesis R_refl : forall w : World, R w w.
Hypothesis R_trans : forall w1 w2 w3 : World, R w1 w2 -> R w2 w3 -> R w1 w3.

Lemma keeps_ret {A : Type} (a : A) : keeps R (ret a).
Proof. intros w. apply R_refl. Qed.

Lemma keeps_raise {A : Type} (e : PyError) : keeps R (@raise A e).
Proof. intros w. apply R_refl. Qed.

Lemma keeps_bind {A B : Type} (c : M A) (k : A -> M B) :
  keeps R c -> (forall a : A, keeps R (k a)) -> keeps R (bind c k).
Proof.
  intros Hc Hk w. unfold bind. specialize (Hc w).
  destruct (c w) as [[a|e] w1]; cbn [snd] in *.
  - apply R_trans with w1; [exact Hc | apply Hk].
  - exact Hc.
Qed.

Lemma keeps_try_except {A : Type} (body : M A) (handler : PyError -> M A) :
  keeps R body -> (forall e : PyError, keeps R (handler e)) ->
  keeps R (try_except body handler).
Proof.
  intros Hb Hh w. unfold try_except. specialize (Hb w).
  destruct (body w) as [[a|e] w1]; cbn [snd] in *.
  - exact Hb.
  - apply R_trans with w1; [exact Hb | apply Hh].
Qed.

End Frames.

(** A frame that depends on the index only is kept by the operations that
    leave the index alone. *)
Section IndexFrames.

Variable R : World -> World -> Prop.
Hypothesis R_index : forall w w' : World, os_index w' = os_index w -> R w w'.

Lemma keeps_get_world : keeps R get_world.
Proof. intros w. now apply R_index. Qed.

Lemma keeps_log_call (call : ClientCall) : keeps R (log_call call).
Proof. intros w. now apply R_index. Qed.

Lemma keeps_remote_call : keeps R remote_call.
Proof.
  intros [ix log fs reads svc]. unfold remote_call. cbn [faults].
  destruct fs as [|[msg|] later]; now apply R_index.
Qed.

Lemma keeps_now_isoformat (env : Env) : keeps R (now_isoformat env).
Proof. intros w. now apply R_index. Qed.

End IndexFrames.

Lemma same_index_refl (w : World) : same_index w w.
Proof. reflexivity. Qed.

Lemma same_index_trans (w1 w2 w3 : World) :
  same_index w1 w2 -> same_index w2 w3 -> same_index w1 w3.
Proof. unfold same_index. congruence. Qed.

Lemma same_records_refl (w : World) : same_records w w.
Proof. reflexivity. Qed.

Lemma same_records_trans (w1 w2 w3 : World) :
  same_records w1 w2 -> same_records w2 w3 -> same_records w1 w3.
Proof. unfold same_records. congruence. Qed.

Lemma same_records_index (w w' : World) : os_index w' = os_index w -> same_records w w'.
Proof. unfold same_records, stored. now intros ->. Qed.

Lemma same_ids_refl (w : World) : same_ids w w.
Proof. reflexivity. Qed.

Lemma same_ids_trans (w1 w2 w3 : World) :
  same_ids w1 w2 -> same_ids w2 w3 -> same_ids w1 w3.
Proof. unfold same_ids. congruence. Qed.

Lemma same_ids_index (w w' : World) : os_index w' = os_index w -> same_ids w w'.
Proof. unfold same_ids, stored. now intros ->. Qed.

(** Decomposes a frame goal along the structure of the code. *)
Ltac frame Rrefl Rtrans Rindex :=
  repeat first
    [ apply (keeps_ret _ Rrefl)
    | apply (keeps_raise _ Rrefl)
    | apply (keeps_get_world _ Rindex)
    | apply (keeps_log_call _ Rindex)
    | apply (keeps_remote_call _ Rindex)
    | apply (keeps_now_isoformat _ Rindex)
    | match goal with
      | |- keeps _ (bind _ _) => apply (keeps_bind _ Rtrans)
      | |- keeps _ (try_except _ _) => apply (keeps_try_except _ Rtrans)
      end
    | match goal with
      | |- keeps _ (match ?x with _ => _ end) => destruct x
      | |- forall _, _ => intro
      end ].

Section ClientFrames.

Variable env : Env.

Lemma client_search_same_index (size : Z) (query : Py.str) :
  keeps same_index (client_search env size query).
Proof.
  unfold client_search. frame same_index_refl same_index_trans (fun w w' (H : os_index w' = os_index w) => H).
Qed.

Lemma client_match_all_same_index (size : Z) :
  keeps same_index (client_match_all size).
Proof.
  unfold client_match_all. frame same_index_refl same_index_trans (fun w w' (H : os_index w' = os_index w) => H).
Qed.

Lemma invoke_embedding_model_same_index (text : Py.str) :
  keeps same_index (invoke_embedding_model env text).
Proof.
  unfold invoke_embedding_model. frame same_index_refl same_index_trans (fun w w' (H : os_index w' = os_index w) => H).
Qed.

Lemma get_embedding_sync_same_index (text : Py.str) :
  keeps same_index (OpenSearchService._get_embedding_sync env text).
Proof.
  unfold OpenSearchService._get_embedding_sync, invoke_embedding_model.
  frame same_index_refl same_index_trans (fun w w' (H : os_index w' = os_index w) => H).
Qed.

End ClientFrames.

(** ** The index and its creation *)

(** X1.  [_create_index_if_not_exists] never raises, whatever remote call
    fails; it leaves the records and the clock alone; an index that exists
    is left as it is, and the only index it creates is the empty one with
    the mapping of the service. *)
Theorem create_index_never_raises (w : World) :
  exists w' : World,
    OpenSearchService._create_index_if_not_exists w = (Ok tt, w') /\
    stored w' = stored w /\
    clock_reads w' = clock_reads w /\
    (os_index w' = os_index w \/
     os_index w = None /\
     os_index w' = Some (mkIndex OpenSearchService.index_body ∅)).
Proof.
  destruct w as [ix log fs reads svc].
  destruct fs as [|[msg1|] [|[msg2|] later]], ix as [ix|]; run;
    eexists; (split; [reflexivity|]); cbn [os_index clock_reads];
    (split; [reflexivity|]); (split; [reflexivity|]); auto.
Qed.

(** X2.  On a healthy world [_create_index_if_not_exists] ensures the
    index: afterwards it exists, as it was if it existed and empty with the
    mapping of the service otherwise; a second call changes nothing of it. *)
Theorem create_index_ensures (w : World) :
  healthy w ->
  exists w1 w2 : World,
    OpenSearchService._create_index_if_not_exists w = (Ok tt, w1) /\
    os_index w1
    = Some (Py.dict_get (os_index w) (mkIndex OpenSearchService.index_body ∅)) /\
    healthy w1 /\
    OpenSearchService._create_index_if_not_exists w1 = (Ok tt, w2) /\
    os_index w2 = os_index w1.
Proof.
  destruct w as [ix log fs reads svc]. unfold healthy. cbn [faults]. intros ->.
  destruct ix as [ix|]; run; eexists _, _;
    (split; [reflexivity|]); cbn [os_index faults];
    (split; [reflexivity|]); (split; [reflexivity|]); run; split; reflexivity.
Qed.

Lemma create_index_ensures_witness :
  healthy Example.cold /\
  exists w1 : World,
    OpenSearchService._create_index_if_not_exists Example.cold = (Ok tt, w1) /\
    os_index w1 = Some (mkIndex OpenSearchService.index_body ∅).
Proof.
  split; [reflexivity|].
  destruct (create_index_ensures Example.cold eq_refl) as (w1 & w2 & H1 & Hix & _).
  exists w1. split; [exact H1 | exact Hix].
Defined.

(** ** Failures of an index write *)

(** X3.  An index write is all or nothing, whatever remote call fails: when
    it returns, the id returned is the id of the pair and the record is
    stored under it, the other records being as before; when it raises,
    the message starts with [Error indexing document: ] and the records are
    as before. *)
Theorem index_document_atomic (env : Env) (title content : Py.str)
    (metadata : option Metadata) (w : World) :
  match OpenSearchService._index_document_sync env title content metadata w with
  | (Ok response, w') =>
      OpenSearchService.document_id title content = Some (resp_id response) /\
      stored w'
      = <[resp_id response :=
            written_body env title content metadata (clock_reads w)]> (stored w)
  | (Raise e, w') =>
      (exists msg : Py.str, e = Exception (Py.lit "Error indexing document: " ++ msg)) /\
      stored w' = stored w
  end.
Proof.
  destruct w as [ix log fs reads svc]. run.
  destruct (OpenSearchService.document_id title content) as [id|]; run.
  - destruct fs as [|[msg1|] [|[msg2|] later]], ix as [ix|]; run;
      cbn [os_index]; first [ split; [reflexivity | reflexivity]
                            | split; [eexists; reflexivity | reflexivity] ].
  - split; [eexists; reflexivity | reflexivity].
Qed.

(** X4.  When the embedding call fails, the write raises with the message
    of the failure behind the prefixes of the two handlers; nothing is sent
    to OpenSearch, the clock is not read, the index is untouched. *)
Theorem index_document_embedding_failure (env : Env) (title content : Py.str)
    (metadata : option Metadata) (id msg : Py.str) (later : list (option Py.str))
    (w : World) :
  OpenSearchService.document_id title content = Some id ->
  faults w = Some msg :: later ->
  OpenSearchService._index_document_sync env title content metadata w
  = (Raise (Exception (Py.lit "Error indexing document: " ++
                       Py.lit "Error getting embedding: " ++ msg)),
     mkWorld (os_index w) (os_log w) later (clock_reads w) (opensearch_service w)).
Proof.
  destruct w as [ix log fs reads svc]. cbn [faults]. intros Hid ->.
  run. rewrite Hid. run. reflexivity.
Qed.

Lemma index_document_embedding_failure_witness :
  OpenSearchService.document_id (Py.lit "ab") (Py.lit "c") = Some Example.id_abc /\
  faults Scenario.cold_throttled = [Some (Py.lit "ThrottlingException")] /\
  OpenSearchService._index_document_sync Example.env (Py.lit "ab") (Py.lit "c") None
    Scenario.cold_throttled
  = (Raise (Exception (Py.lit "Error indexing document: " ++
                       Py.lit "Error getting embedding: " ++
                       Py.lit "ThrottlingException")),
     Example.cold).
Proof.
  assert (Hid : OpenSearchService.document_id (Py.lit "ab") (Py.lit "c")
                = Some Example.id_abc) by (vm_compute; reflexivity).
  split; [exact Hid|]. split; [reflexivity|].
  exact (index_document_embedding_failure Example.env (Py.lit "ab") (Py.lit "c") None
           Example.id_abc (Py.lit "ThrottlingException") [] Scenario.cold_throttled
           Hid eq_refl).
Defined.

(** The message of the encoder, on the text of a title and a content. *)
Example unicode_encode_error_examples :
  OpenSearchService.unicode_encode_error ([0xD800%N] ++ Py.lit "c")
  = Py.lit "'utf-8' codec can't encode character '\ud800' in position 0: surrogates not allowed" /\
  OpenSearchService.unicode_encode_error (Py.lit "título " ++ [0xDFFF%N])
  = Py.lit "'utf-8' codec can't encode character '\udfff' in position 7: surrogates not allowed" /\
  OpenSearchService.unicode_encode_error (Py.lit "ab" ++ [0xD83D; 0xDE00]%N ++ Py.lit "c")
  = Py.lit "'utf-8' codec can't encode characters in position 2-3: surrogates not allowed" /\
  OpenSearchService.unicode_encode_error
    ([0xDC80%N] ++ Py.lit "0123456789" ++ [0xD800; 0xD801; 0xD802]%N)
  = Py.lit "'utf-8' codec can't encode character '\udc80' in position 0: surrogates not allowed".
Proof. vm_compute. repeat split. Qed.

(** X5.  A title or a content that UTF-8 cannot encode makes the write
    raise before anything else happens: no remote call, no reading of the
    clock, the world is as it was.  The message is the one of the encoder,
    which names the first surrogate of the title followed by the content
    and its position, behind the prefix of the handler. *)
Theorem index_document_unencodable (env : Env) (title content : Py.str)
    (metadata : option Metadata) (w : World) :
  Py.encode (title ++ content) = None ->
  OpenSearchService._index_document_sync env title content metadata w
  = (Raise (Exception (Py.lit "Error indexing document: " ++
                       OpenSearchService.unicode_encode_error (title ++ content))), w).
Proof.
  intros Henc. destruct w as [ix log fs reads svc]. run.
  unfold OpenSearchService.document_id. rewrite Henc. run. reflexivity.
Qed.

Lemma index_document_unencodable_witness :
  Py.encode (Scenario.surrogate_title ++ Py.lit "c") = None /\
  OpenSearchService._index_document_sync Example.env Scenario.surrogate_title
    (Py.lit "c") None Example.cold
  = (Raise (Exception (Py.lit "Error indexing document: 'utf-8' codec can't encode character '\ud800' in position 0: surrogates not allowed")),
     Example.cold).
Proof.
  assert (Henc : Py.encode (Scenario.surrogate_title ++ Py.lit "c") = None)
    by (vm_compute; reflexivity).
  split; [exact Henc|].
  exact (index_document_unencodable Example.env Scenario.surrogate_title (Py.lit "c")
           None Example.cold Henc).
Defined.

(** Creating the index returns, and leaves the records alone. *)
Lemma create_index_same_records (w : World) :
  exists w' : World,
    OpenSearchService._create_index_if_not_exists w = (Ok tt, w') /\
    stored w' = stored w.
Proof.
  destruct w as [ix log fs reads svc].
  destruct fs as [|[msg1|] [|[msg2|] later]], ix as [ix|]; run;
    eexists; split; reflexivity.
Qed.

(** ** Search *)

Section Search.

Variable env : Env.

(** The hits of a ranking are records of the index, each with the score the
    ranking gives its id. *)
Lemma hits_of_stored (docs : gmap Py.str DocBody) (ranking : list (Py.str * Q)) :
  Forall (fun hit => docs !! hit_id hit = Some (hit_source hit) /\
                     In (hit_id hit, hit_score hit) ranking)
         (hits_of docs ranking).
Proof.
  unfold hits_of. apply Forall_flat_map. apply Forall_forall.
  intros [id score] Hin. apply list_elem_of_In in Hin.
  destruct (docs !! id) as [body|] eqn:Hid.
  - constructor; [|constructor]. cbn [hit_id hit_source hit_score]. auto.
  - constructor.
Qed.

Lemma search_results_map (hits : list Hit) :
  fold_left (fun results hit => results ++ [OpenSearchService.search_result hit]) hits []
  = map OpenSearchService.search_result hits.
Proof. now rewrite (fold_left_append_one _ hits []). Qed.

(** The outcome of the search of the client: at most [size] hits, and the
    index as it was. *)
Lemma client_search_outcome (size : Z) (query : Py.str) (w : World) :
  match client_search env size query w with
  | (Ok hits, w') => (length hits <= Z.to_nat size)%nat /\ os_index w' = os_index w
  | (Raise _, w') => os_index w' = os_index w
  end.
Proof.
  pose proof (client_search_same_index env size query w) as Hsame.
  unfold same_index in Hsame.
  destruct (client_search env size query w) as [[hits|e] w'] eqn:Hrun;
    cbn [snd] in Hsame; [|exact Hsame].
  split; [|exact Hsame].
  destruct w as [ix log fs reads svc]. revert Hrun. run.
  destruct fs as [|[msg|] later], ix as [ix|]; run;
    try destruct (size <? 0)%Z; try destruct (10000 <? size)%Z;
    intros Hrun; simplify_eq; rewrite length_take; lia.
Qed.

End Search.

(** X6.  [search_documents] either returns at most [max_results] results or
    raises with a message that starts with [Error searching documents: ];
    in both cases, and whatever remote call fails, the records of the
    index are as before. *)
Theorem search_documents_outcome (env : Env) (query : Py.str) (max_results : Z)
    (w : World) :
  match OpenSearchService.search_documents env query max_results w with
  | (Ok results, w') =>
      (length results <= Z.to_nat max_results)%nat /\ stored w' = stored w
  | (Raise e, w') =>
      (exists msg : Py.str, e = Exception (Py.lit "Error searching documents: " ++ msg)) /\
      stored w' = stored w
  end.
Proof.
  pose proof (client_search_outcome env max_results query w) as Hsearch.
  unfold OpenSearchService.search_documents, try_except, bind.
  destruct (client_search env max_results query w) as [[hits|e] w1].
  - destruct Hsearch as [Hlen Hix]. cbn [ret]. rewrite search_results_map, length_map.
    split; [exact Hlen|]. now apply same_records_index.
  - assert (Hrec : stored w1 = stored w) by now apply same_records_index.
    destruct (Py.contains (Py.lit "index_not_found_exception") (str_of_error e)).
    + destruct (create_index_same_records w1) as (w2 & Hrun & Hstored).
      rewrite Hrun. cbn [ret length]. split; [lia | congruence].
    + cbn [raise]. split; [eexists; reflexivity | exact Hrec].
Qed.

(** X7.  On a healthy world where the index exists, and for a limit between
    0 and 10000, [search_documents] returns the first [max_results] hits of
    the ranking of the engine, in that order; each result is a record of
    the index, with its id, title, content and metadata, and the score of
    the ranking; the index is as before. *)
Theorem search_documents_results (env : Env) (query : Py.str) (max_results : Z)
    (ix : Index) (w : World) :
  os_index w = Some ix ->
  healthy w ->
  (0 <= max_results <= 10000)%Z ->
  exists (results : list Document) (w' : World),
    OpenSearchService.search_documents env query max_results w = (Ok results, w') /\
    results
    = map OpenSearchService.search_result
        (take (Z.to_nat max_results)
           (hits_of (idx_docs ix) (rank env query (idx_docs ix)))) /\
    os_index w' = Some ix /\
    Forall (fun doc =>
              exists (id : Py.str) (body : DocBody) (score : Q),
                idx_docs ix !! id = Some body /\
                In (id, score) (rank env query (idx_docs ix)) /\
                doc = mkDocument (Some id) (Some (body_title body))
                        (Some (body_content body)) (Some (body_metadata body))
                        (Some score) (Some (body_created_at body)))
           results.
Proof.
  destruct w as [ix' log fs reads svc]. unfold healthy. cbn [os_index faults].
  intros -> -> [Hlo Hhi]. run.
  destruct (Z.ltb_spec max_results 0) as [Hneg|_]; [lia|].
  destruct (Z.ltb_spec 10000 max_results) as [Hbig|_]; [lia|].
  run. rewrite search_results_map.
  eexists _, _. split; [reflexivity|]. split; [reflexivity|].
  split; [reflexivity|].
  apply Forall_map. apply Forall_take.
  eapply Forall_impl; [apply hits_of_stored|].
  intros [id score body] [Hid Hin]. cbn [hit_id hit_source hit_score] in *.
  exists id, body, score. auto.
Qed.

Lemma search_documents_results_witness :
  os_index Example.after_ab_c = Some Example.index_ab_c /\
  healthy Example.after_ab_c /\
  (0 <= 5 <= 10000)%Z /\
  exists (results : list Document) (w' : World),
    OpenSearchService.search_documents Example.env (Py.lit "c") 5 Example.after_ab_c
    = (Ok results, w') /\
    map doc_id results = [Some Example.id_abc] /\
    map doc_title results = [Some (Py.lit "ab")].
Proof.
  assert (Hix : os_index Example.after_ab_c = Some Example.index_ab_c)
    by (vm_compute; reflexivity).
  assert (Hw : healthy Example.after_ab_c) by (vm_compute; reflexivity).
  assert (Hn : (0 <= 5 <= 10000)%Z) by lia.
  split; [exact Hix|]. split; [exact Hw|]. split; [exact Hn|].
  destruct (search_documents_results Example.env (Py.lit "c") 5 Example.index_ab_c
              Example.after_ab_c Hix Hw Hn) as (results & w' & Hrun & Hres & _).
  exists results, w'. split; [exact Hrun|].
  rewrite Hres. split; vm_compute; reflexivity.
Defined.

(** ** Deletion and listing *)

(** X8.  On a healthy world where the index exists, [delete_document]
    returns when the id is stored and raises with the message of the
    missing document otherwise; either way the records afterwards are the
    former ones without that id, and the mapping is kept. *)
Theorem delete_document_outcome (id : Py.str) (ix : Index) (w : World) :
  os_index w = Some ix ->
  healthy w ->
  exists w' : World,
    OpenSearchService.delete_document id w
    = (match idx_docs ix !! id with
       | Some _ => Ok (mkWriteResponse id (Py.lit "deleted"))
       | None =>
           Raise (Exception (Py.lit "Error deleting document: " ++ document_not_found))
       end, w') /\
    os_index w' = Some (mkIndex (idx_mapping ix) (delete id (idx_docs ix))).
Proof.
  destruct w as [ix' log fs reads svc]. unfold healthy. cbn [os_index faults].
  intros -> ->. destruct ix as [mapping docs].
  unfold OpenSearchService.delete_document. run.
  destruct (docs !! id) as [body|] eqn:Hid; run; eexists;
    (split; [reflexivity|]); cbn [os_index]; [reflexivity|].
  now rewrite delete_id.
Qed.

Lemma delete_document_outcome_witness :
  os_index Example.after_ab_c = Some Example.index_ab_c /\
  healthy Example.after_ab_c /\
  (exists w' : World,
     OpenSearchService.delete_document Example.id_abc Example.after_ab_c
     = (Ok (mkWriteResponse Example.id_abc (Py.lit "deleted")), w') /\
     stored w' = ∅) /\
  (exists w' : World,
     OpenSearchService.delete_document (Py.lit "no-such-id") Example.after_ab_c
     = (Raise (Exception (Py.lit "Error deleting document: " ++ document_not_found)), w') /\
     stored w' = stored Example.after_ab_c).
Proof.
  assert (Hix : os_index Example.after_ab_c = Some Example.index_ab_c)
    by (vm_compute; reflexivity).
  assert (Hw : healthy Example.after_ab_c) by (vm_compute; reflexivity).
  split; [exact Hix|]. split; [exact Hw|]. split.
  - destruct (delete_document_outcome Example.id_abc Example.index_ab_c
                Example.after_ab_c Hix Hw) as (w' & Hrun & Hafter).
    exists w'. split.
    + rewrite Hrun. f_equal.
    + unfold stored. rewrite Hafter. vm_compute. reflexivity.
  - destruct (delete_document_outcome (Py.lit "no-such-id") Example.index_ab_c
                Example.after_ab_c Hix Hw) as (w' & Hrun & Hafter).
    exists w'. split.
    + rewrite Hrun. f_equal.
    + unfold stored. rewrite Hafter, Hix. vm_compute. reflexivity.
Defined.

(** X9.  Indexing a pair whose id is not stored and then deleting the id
    returned leaves the records as they were before the two calls. *)
Theorem index_then_delete (env : Env) (title content : Py.str)
    (metadata : option Metadata) (id : Py.str) (w : World) :
  OpenSearchService.document_id title content = Some id ->
  healthy w ->
  stored w !! id = None ->
  exists (r1 r2 : WriteResponse) (w1 w2 : World),
    OpenSearchService._index_document_sync env title content metadata w = (Ok r1, w1) /\
    resp_id r1 = id /\
    stored w1 !! id = Some (written_body env title content metadata (clock_reads w)) /\
    OpenSearchService.delete_document (resp_id r1) w1 = (Ok r2, w2) /\
    stored w2 = stored w.
Proof.
  intros Hid Hw Hfree.
  destruct w as [ix log fs reads svc]. unfold healthy in Hw. cbn [faults] in Hw.
  subst fs. unfold stored in Hfree. cbn [os_index] in Hfree.
  destruct (index_document_run env title content metadata id
              (mkWorld ix log [] reads svc) Hid eq_refl) as [res H1].
  cbn [clock_reads] in *.
  set (body := written_body env title content metadata reads) in *.
  destruct ix as [[mapping docs]|]; cbn [idx_docs] in Hfree;
    eexists _, _, _, _; (split; [exact H1|]); (split; [reflexivity|]);
    (split; [rewrite stored_after_index; apply lookup_insert_eq|]);
    cbn [resp_id]; unfold OpenSearchService.delete_document, world_after_index;
    run; rewrite lookup_insert_eq; (split; [reflexivity|]); cbn [os_index];
    now apply delete_insert_id.
Qed.

Lemma index_then_delete_witness :
  OpenSearchService.document_id (Py.lit "ab") (Py.lit "c") = Some Example.id_abc /\
  healthy Example.cold /\
  stored Example.cold !! Example.id_abc = None /\
  exists (r2 : WriteResponse) (w2 : World),
    OpenSearchService.delete_document Example.id_abc Example.after_ab_c = (Ok r2, w2) /\
    stored w2 = stored Example.cold.
Proof.
  assert (Hid : OpenSearchService.document_id (Py.lit "ab") (Py.lit "c")
                = Some Example.id_abc) by (vm_compute; reflexivity).
  split; [exact Hid|]. split; [reflexivity|]. split; [reflexivity|].
  destruct (index_then_delete Example.env (Py.lit "ab") (Py.lit "c") None
              Example.id_abc Example.cold Hid eq_refl eq_refl)
    as (r1 & r2 & w1 & w2 & H1 & Er & _ & Hdel & Hback).
  assert (E1 : Example.after_ab_c = w1).
  { unfold Example.after_ab_c. now rewrite H1. }
  exists r2, w2. rewrite E1, <- Er. split; [exact Hdel | exact Hback].
Defined.

Lemma map_fmap {A B : Type} (f : A -> B) (l : list A) : map f l = f <$> l.
Proof. induction l as [|a l IH]; [reflexivity|]. cbn. now rewrite IH. Qed.

(** X10.  On a healthy world where the index exists, with a limit between
    0 and 10000 that is at least the number of records, [list_documents]
    lists every record of the index once: as many documents as records,
    no id twice, a document for each record, with its id, title, content,
    metadata and dates and without score, and no document that is not a
    record; the index is as before. *)
Theorem list_documents_all (limit : Z) (ix : Index) (w : World) :
  os_index w = Some ix ->
  healthy w ->
  (0 <= limit <= 10000)%Z ->
  (Z.of_nat (size (idx_docs ix)) <= limit)%Z ->
  exists (documents : list (Document * Py.str)) (w' : World),
    OpenSearchService.list_documents limit w = (Ok documents, w') /\
    os_index w' = Some ix /\
    length documents = size (idx_docs ix) /\
    NoDup (map (fun listed => doc_id (fst listed)) documents) /\
    forall listed : Document * Py.str,
      listed ∈ documents <->
      exists (id : Py.str) (body : DocBody),
        idx_docs ix !! id = Some body /\
        listed
        = (mkDocument (Some id) (Some (body_title body)) (Some (body_content body))
             (Some (body_metadata body)) None (Some (body_created_at body)),
           body_updated_at body).
Proof.
  destruct w as [ix' log fs reads svc]. unfold healthy. cbn [os_index faults].
  intros -> -> [Hlo Hhi] Hall. destruct ix as [mapping docs]. cbn [idx_docs] in *.
  unfold OpenSearchService.list_documents, client_match_all. run.
  destruct (Z.ltb_spec limit 0) as [Hneg|_]; [lia|].
  destruct (Z.ltb_spec 10000 limit) as [Hbig|_]; [lia|].
  run. rewrite (fold_left_append_one _ _ []). cbn [app].
  rewrite take_ge by (rewrite length_map, length_map_to_list; lia).
  eexists _, _. split; [reflexivity|]. split; [reflexivity|].
  rewrite map_map. split; [|split].
  - now rewrite length_map, length_map_to_list.
  - rewrite map_map.
    rewrite (map_ext _ (fun entry => Some (fst entry))) by (now intros [id body]).
    rewrite <- (map_map fst Some), !map_fmap.
    apply NoDup_fmap_2; [apply _|]. apply NoDup_fst_map_to_list.
  - intros listed. rewrite map_fmap, list_elem_of_fmap. split.
    + intros [[id body] [Heq Hin]]. apply elem_of_map_to_list in Hin.
      exists id, body. split; [exact Hin | exact Heq].
    + intros (id & body & Hid & Heq). exists (id, body).
      split; [exact Heq|]. now apply elem_of_map_to_list.
Qed.

Lemma list_documents_all_witness :
  os_index Example.after_ab_c = Some Example.index_ab_c /\
  healthy Example.after_ab_c /\
  (0 <= 100 <= 10000)%Z /\
  (Z.of_nat (size (idx_docs Example.index_ab_c)) <= 100)%Z /\
  exists (documents : list (Document * Py.str)) (w' : World),
    OpenSearchService.list_documents 100 Example.after_ab_c = (Ok documents, w') /\
    length documents = 1%nat /\
    map (fun listed => doc_id (fst listed)) documents = [Some Example.id_abc].
Proof.
  assert (Hix : os_index Example.after_ab_c = Some Example.index_ab_c)
    by (vm_compute; reflexivity).
  assert (Hw : healthy Example.after_ab_c) by (vm_compute; reflexivity).
  assert (Hn : (0 <= 100 <= 10000)%Z) by lia.
  assert (Hall : (Z.of_nat (size (idx_docs Example.index_ab_c)) <= 100)%Z)
    by (vm_compute; discriminate).
  split; [exact Hix|]. split; [exact Hw|]. split; [exact Hn|]. split; [exact Hall|].
  destruct (list_documents_all 100 Example.index_ab_c Example.after_ab_c Hix Hw Hn Hall)
    as (documents & w' & Hrun & _ & Hlen & _).
  exists documents, w'. split; [exact Hrun|]. split.
  - rewrite Hlen. vm_compute. reflexivity.
  - assert (Hfst : fst (OpenSearchService.list_documents 100 Example.after_ab_c)
                   = Ok documents) by now rewrite Hrun.
    vm_compute in Hfst. injection Hfst as <-. vm_compute. reflexivity.
Defined.

(** ** Updates of records that do not exist *)

Lemma keeps_weaken {A : Type} (R S : World -> World -> Prop) (c : M A) :
  (forall w w' : World, R w w' -> S w w') -> keeps R c -> keeps S c.
Proof. intros HRS Hc w. apply HRS, Hc. Qed.

Lemma same_index_same_ids (w w' : World) : same_index w w' -> same_ids w w'.
Proof. apply same_ids_index. Qed.

(** A partial update keeps the ids of the index, whatever its outcome. *)
Lemma client_update_same_ids (id : Py.str) (doc : PartialDoc) :
  keeps same_ids (client_update id doc).
Proof.
  intros [ix log fs reads svc]. unfold same_ids, stored. run.
  destruct fs as [|[msg|] later], ix as [[mapping docs]|]; run;
    try reflexivity;
    destruct (docs !! id) as [old|] eqn:Hold; run; try reflexivity;
    cbn [os_index idx_docs]; apply dom_insert_lookup_L; rewrite Hold; eauto.
Qed.

(** X11.  [update_document] never adds or removes a record: whatever the
    arguments, the world and the outcome, the ids stored afterwards are the
    ids stored before. *)
Theorem update_document_same_ids (env : Env) (id : Py.str) (title content : option Py.str)
    (metadata : option Metadata) (w : World) :
  dom (stored (snd (OpenSearchService.update_document env id title content metadata w)))
  = dom (stored w).
Proof.
  revert w. change (keeps same_ids
                      (OpenSearchService.update_document env id title content metadata)).
  unfold OpenSearchService.update_document.
  repeat first
    [ apply client_update_same_ids
    | apply (keeps_weaken same_index);
      [apply same_index_same_ids | apply get_embedding_sync_same_index]
    | progress frame same_ids_refl same_ids_trans same_ids_index ].
Qed.

(** X12.  On a healthy world where the index exists, the update of an id
    that is not stored raises with the message of the missing document
    behind the prefix of the handler, and leaves the index as it was. *)
Theorem update_document_missing (env : Env) (id : Py.str) (title content : option Py.str)
    (metadata : option Metadata) (ix : Index) (w : World) :
  os_index w = Some ix ->
  idx_docs ix !! id = None ->
  healthy w ->
  exists w' : World,
    OpenSearchService.update_document env id title content metadata w
    = (Raise (Exception (Py.lit "Error updating document: " ++ document_missing)), w') /\
    os_index w' = Some ix.
Proof.
  destruct w as [ix' log fs reads svc]. unfold healthy. cbn [os_index faults].
  intros -> Hnone ->. destruct ix as [mapping docs]. cbn [idx_docs] in Hnone.
  destruct title as [[|t0 t]|], content as [[|c0 c]|], metadata as [m|];
    run; try destruct (bool_decide (m = ∅)); run; rewrite Hnone;
    eexists; split; reflexivity.
Qed.

Lemma update_document_missing_witness :
  os_index Example.after_ab_c = Some Example.index_ab_c /\
  idx_docs Example.index_ab_c !! Py.lit "no-such-id" = None /\
  healthy Example.after_ab_c /\
  exists w' : World,
    OpenSearchService.update_document Example.env (Py.lit "no-such-id") None
      (Some (Py.lit "xyz")) None Example.after_ab_c
    = (Raise (Exception (Py.lit "Error updating document: " ++ document_missing)), w') /\
    os_index w' = Some Example.index_ab_c.
Proof.
  assert (Hix : os_index Example.after_ab_c = Some Example.index_ab_c)
    by (vm_compute; reflexivity).
  assert (Hnone : idx_docs Example.index_ab_c !! Py.lit "no-such-id" = None)
    by (vm_compute; reflexivity).
  assert (Hw : healthy Example.after_ab_c) by (vm_compute; reflexivity).
  split; [exact Hix|]. split; [exact Hnone|]. split; [exact Hw|].
  exact (update_document_missing Example.env (Py.lit "no-such-id") None
           (Some (Py.lit "xyz")) None Example.index_ab_c Example.after_ab_c
           Hix Hnone Hw).
Defined.

(** The outcome of a write on a healthy world, result included. *)
Lemma index_document_returns (env : Env) (title content : Py.str)
    (metadata : option Metadata) (id : Py.str) (w : World) :
  OpenSearchService.document_id title content = Some id ->
  healthy w ->
  OpenSearchService._index_document_sync env title content metadata w
  = (Ok (mkWriteResponse id
           match stored w !! id with
           | Some _ => Py.lit "updated"
           | None => Py.lit "created"
           end),
     world_after_index w id (written_body env title content metadata (clock_reads w))).
Proof.
  destruct w as [ix log fs reads svc]. unfold healthy. cbn [faults].
  intros Hid ->. run. rewrite Hid. run.
  unfold world_after_index, written_body.
  cbn [os_index os_log clock_reads opensearch_service Py.dict_get].
  destruct ix; reflexivity.
Qed.

(** X13.  An update of the content does not move the record to the id of
    its new pair.  So on a healthy world, when the content of a stored
    record is updated and the pair of its title and new content is indexed
    next, and the id of that pair is not the id of the record, the index
    holds the pair twice: under the id of the record and under the id of
    the pair. *)
Theorem update_then_index_duplicates (env : Env) (id id' content : Py.str)
    (metadata : option Metadata) (ix : Index) (old : DocBody) (w : World) :
  os_index w = Some ix ->
  idx_docs ix !! id = Some old ->
  healthy w ->
  content <> [] ->
  OpenSearchService.document_id (body_title old) content = Some id' ->
  id' <> id ->
  exists (r1 r2 : WriteResponse) (w1 w2 : World) (first second : DocBody),
    OpenSearchService.update_document env id None (Some content) None w = (Ok r1, w1) /\
    OpenSearchService._index_document_sync env (body_title old) content metadata w1
    = (Ok r2, w2) /\
    resp_id r1 = id /\ resp_id r2 = id' /\
    stored w2 !! id = Some first /\
    stored w2 !! id' = Some second /\
    body_title first = body_title old /\ body_title second = body_title old /\
    body_content first = content /\ body_content second = content.
Proof.
  destruct w as [ix' log fs reads svc]. unfold healthy. cbn [os_index faults].
  intros -> Hold -> Hne Hid' Hdiff. destruct ix as [mapping docs].
  cbn [idx_docs] in Hold. destruct content as [|c0 c]; [congruence|].
  eexists _, _, _, _, _, _.
  split; [run; rewrite Hold; run; reflexivity|].
  split; [apply (index_document_returns env _ _ metadata id' _ Hid'); reflexivity|].
  split; [reflexivity|]. split; [reflexivity|].
  rewrite stored_after_index. unfold stored. cbn [os_index idx_docs].
  rewrite lookup_insert_ne by exact Hdiff. rewrite !lookup_insert_eq.
  split; [reflexivity|]. split; [reflexivity|].
  repeat split; reflexivity.
Qed.

Lemma update_then_index_duplicates_witness :
  os_index Example.after_ab_c = Some Example.index_ab_c /\
  idx_docs Example.index_ab_c !! Example.id_abc = Some Example.record_ab_c /\
  healthy Example.after_ab_c /\
  Py.lit "xyz" <> [] /\
  OpenSearchService.document_id (body_title Example.record_ab_c) (Py.lit "xyz")
  = Some Scenario.id_abxyz /\
  Scenario.id_abxyz <> Example.id_abc /\
  exists (r1 r2 : WriteResponse) (w1 w2 : World) (first second : DocBody),
    OpenSearchService.update_document Example.env Example.id_abc None
      (Some (Py.lit "xyz")) None Example.after_ab_c = (Ok r1, w1) /\
    OpenSearchService._index_document_sync Example.env (Py.lit "ab") (Py.lit "xyz") None w1
    = (Ok r2, w2) /\
    stored w2 !! Example.id_abc = Some first /\
    stored w2 !! Scenario.id_abxyz = Some second /\
    body_content first = Py.lit "xyz" /\ body_content second = Py.lit "xyz".
Proof.
  assert (Hix : os_index Example.after_ab_c = Some Example.index_ab_c)
    by (vm_compute; reflexivity).
  assert (Hold : idx_docs Example.index_ab_c !! Example.id_abc = Some Example.record_ab_c)
    by (vm_compute; reflexivity).
  assert (Hw : healthy Example.after_ab_c) by (vm_compute; reflexivity).
  assert (Hne : Py.lit "xyz" <> []) by (vm_compute; discriminate).
  assert (Hid' : OpenSearchService.document_id (body_title Example.record_ab_c)
                   (Py.lit "xyz") = Some Scenario.id_abxyz)
    by (vm_compute; reflexivity).
  assert (Hdiff : Scenario.id_abxyz <> Example.id_abc) by (vm_compute; discriminate).
  split; [exact Hix|]. split; [exact Hold|]. split; [exact Hw|]. split; [exact Hne|].
  split; [exact Hid'|]. split; [exact Hdiff|].
  destruct (update_then_index_duplicates Example.env Example.id_abc Scenario.id_abxyz
              (Py.lit "xyz") None Example.index_ab_c Example.record_ab_c
              Example.after_ab_c Hix Hold Hw Hne Hid' Hdiff)
    as (r1 & r2 & w1 & w2 & first & second & H1 & H2 & _ & _ & Hf & Hs & _ & _ & Hcf & Hcs).
  exists r1, r2, w1, w2, first, second.
  split; [exact H1|]. split; [exact H2|]. split; [exact Hf|]. split; [exact Hs|].
  split; [exact Hcf | exact Hcs].
Defined.

(** ** The history window and the response *)

(** X14.  Only the last five items of a history are read: when they are
    dicts, the block is made of their lines, whatever stands before them,
    objects that are not dicts included. *)
Theorem prepare_chat_history_ignores_older (capitalize : Py.str -> Py.str)
    (older : list HistoryItem) (recent : list ChatTurn) :
  length recent = 5%nat ->
  RAGService._prepare_chat_history capitalize (older ++ map ItemDict recent)
  = Ok (Py.join Py.nl (map (SpecPrompt.turn_line capitalize) recent)).
Proof.
  intros Hlen. unfold RAGService._prepare_chat_history.
  assert (Hslice : Py.slice_last 5 (older ++ map ItemDict recent) = map ItemDict recent).
  { unfold Py.slice_last. rewrite length_app, length_map, Hlen.
    replace (length older + 5 - 5)%nat with (length older) by lia.
    apply drop_app_length. }
  rewrite Hslice, history_loop.
  destruct (older ++ map ItemDict recent) eqn:Hall; [|reflexivity].
  apply (f_equal (@length HistoryItem)) in Hall.
  rewrite length_app, length_map, Hlen in Hall. cbn in Hall. lia.
Qed.

Lemma prepare_chat_history_ignores_older_witness :
  length Conversation.recent = 5%nat /\
  RAGService._prepare_chat_history Py.ascii_capitalize
    (Conversation.older ++ map ItemDict Conversation.recent)
  = Ok Example.eight_turns_block.
Proof.
  split; [reflexivity|].
  rewrite (prepare_chat_history_ignores_older Py.ascii_capitalize Conversation.older
             Conversation.recent eq_refl).
  vm_compute. reflexivity.
Defined.

(** X15.  Whatever the inputs and the failures, [generate_response] sends
    nothing to OpenSearch and leaves the index alone.  When it returns, the
    sources and the confidence are those of the documents it was given and
    the timestamp is the reading of the clock; when it raises, the message
    starts with [Error generating RAG response: ] and the clock was not
    read. *)
Theorem generate_response_outcome (env : Env) (question : Py.str)
    (documents : list Document) (chat_history : option (list HistoryItem)) (w : World) :
  match RAGService.generate_response env question documents chat_history w with
  | (Ok response, w') =>
      rag_sources response = RAGService._prepare_sources documents /\
      rag_confidence response = RAGService._calculate_confidence (float_sum env) documents /\
      rag_timestamp response = clock env (clock_reads w) /\
      os_index w' = os_index w /\ os_log w' = os_log w
  | (Raise e, w') =>
      (exists msg : Py.str,
         e = Exception (Py.lit "Error generating RAG response: " ++ msg)) /\
      os_index w' = os_index w /\ os_log w' = os_log w /\
      clock_reads w' = clock_reads w
  end.
Proof.
  destruct w as [ix log fs reads svc].
  unfold RAGService.generate_response, RAGService._generate_llm_response. run.
  destruct (RAGService._prepare_chat_history _ _) as [history|e].
  - destruct fs as [|[msg|] later]; run; cbn [os_index os_log clock_reads];
      first [ now repeat split
            | split; [eexists; reflexivity | now repeat split] ].
  - cbn [os_index os_log clock_reads].
    split; [eexists; reflexivity | now repeat split].
Qed.

(** X16.  With a history of dicts, [generate_response] raises exactly when
    the call to the model fails, with the message of the failure behind
    the prefixes of the two handlers; otherwise the answer is what the
    model returns for the prompt made of the question, the context of the
    documents and the block of the last five turns. *)
Theorem generate_response_model_failure (env : Env) (question : Py.str)
    (documents : list Document) (turns : list ChatTurn) (w : World) :
  match faults w with
  | Some msg :: later =>
      RAGService.generate_response env question documents (Some (map ItemDict turns)) w
      = (Raise (Exception (Py.lit "Error generating RAG response: " ++
                           Py.lit "Error calling Bedrock: " ++ msg)),
         mkWorld (os_index w) (os_log w) later (clock_reads w) (opensearch_service w))
  | _ =>
      exists (response : RagResponse) (w' : World),
        RAGService.generate_response env question documents (Some (map ItemDict turns)) w
        = (Ok response, w') /\
        rag_answer response
        = claude_haiku env
            (RAGService._create_prompt question (RAGService._prepare_context documents)
               (Py.join Py.nl
                  (map (SpecPrompt.turn_line (capitalize env)) (Py.slice_last 5 turns))))
  end.
Proof.
  assert (Hhist : RAGService._prepare_chat_history (capitalize env) (map ItemDict turns)
                  = Ok (Py.join Py.nl (map (SpecPrompt.turn_line (capitalize env))
                                         (Py.slice_last 5 turns)))).
  { unfold RAGService._prepare_chat_history.
    destruct turns as [|t turns]; [reflexivity|].
    cbn [map Py.truthy negb].
    change (ItemDict t :: map ItemDict turns) with (map ItemDict (t :: turns)).
    now rewrite slice_last_map, history_loop. }
  destruct w as [ix log fs reads svc].
  unfold RAGService.generate_response, RAGService._generate_llm_response.
  cbn [faults]. destruct fs as [|[msg|] later]; run; rewrite Hhist; run;
    first [ reflexivity | eexists _, _; split; reflexivity ].
Qed.

(** ** The prompt *)

Lemma startswith_app (prefix rest : Py.str) : Py.startswith prefix (prefix ++ rest) = true.
Proof.
  induction prefix as [|c prefix IH]; [reflexivity|].
  cbn. now rewrite N.eqb_refl, IH.
Qed.

Lemma contains_unfold (needle haystack : Py.str) :
  Py.contains needle haystack
  = Py.startswith needle haystack ||
    match haystack with
    | [] => false
    | _ :: rest => Py.contains needle rest
    end.
Proof. destruct haystack; reflexivity. Qed.

Lemma contains_here (needle rest : Py.str) : Py.contains needle (needle ++ rest) = true.
Proof. rewrite contains_unfold, startswith_app. reflexivity. Qed.

Lemma contains_app_r (needle before rest : Py.str) :
  Py.contains needle rest = true -> Py.contains needle (before ++ rest) = true.
Proof.
  intros Hrest. induction before as [|c before IH]; [exact Hrest|].
  rewrite contains_unfold. cbn [app]. rewrite IH. apply orb_true_r.
Qed.

(** X17.  The prompt holds, as they are given, the question, the context
    and the history block; it holds the heading of the history when the
    history block is not empty; and it always holds the heading of the
    context and the instructions. *)
Theorem create_prompt_contains (question context history : Py.str) :
  let prompt := RAGService._create_prompt question context history in
  Py.contains question prompt = true /\
  Py.contains context prompt = true /\
  Py.contains history prompt = true /\
  Py.contains (if Py.truthy history then Py.lit "Historial de conversación:" else [])
    prompt = true /\
  Py.contains (Py.lit "Contexto de documentos disponibles:") prompt = true /\
  Py.contains (Py.lit "Instrucciones:") prompt = true.
Proof.
  intros prompt. unfold prompt, RAGService._create_prompt.
  assert (Hnil : forall haystack : Py.str, Py.contains [] haystack = true)
    by (intros haystack; now rewrite contains_unfold).
  destruct (Py.truthy history); repeat split; try apply Hnil;
    repeat match goal with
           | |- Py.contains ?needle (?part ++ _) = true =>
               first [ constr_eq needle part; apply contains_here
                     | apply contains_app_r ]
           end.
Qed.

(** ** The endpoints of the API *)

Section ModelHistory.

Variable capitalize : Py.str -> Py.str.

Lemma history_loop_raised (items : list HistoryItem) (e : PyError) :
  fold_left (RAGService.history_step capitalize) items (Raise e) = Raise e.
Proof. induction items as [|item items IH]; [reflexivity | exact IH]. Qed.

(** A history of [ChatMessage] objects makes [_prepare_chat_history] raise
    as soon as it is not empty. *)
Lemma prepare_chat_history_models (message : ChatMessage) (messages : list ChatMessage) :
  RAGService._prepare_chat_history capitalize (map ItemModel (message :: messages))
  = Raise (Exception (Py.lit "'ChatMessage' object has no attribute 'get'")).
Proof.
  unfold RAGService._prepare_chat_history.
  change (map ItemModel (message :: messages))
    with (ItemModel message :: map ItemModel messages) at 1.
  cbn [Py.truthy negb]. rewrite slice_last_map.
  destruct (Py.slice_last 5 (message :: messages)) as [|first window] eqn:Hwindow.
  - apply (f_equal (@length ChatMessage)) in Hwindow.
    rewrite slice_last_length in Hwindow. cbn in Hwindow. lia.
  - cbn [map fold_left RAGService.history_step RAGService.item_get].
    now rewrite history_loop_raised.
Qed.

End ModelHistory.

(** X18.  A chat request of the FastAPI endpoint with a history that is not
    empty never gets an answer: the history holds [ChatMessage] objects,
    which have no [get], so the request ends with status 500 whatever the
    world. *)
Theorem chat_with_history_fails (env : Env) (request : ChatRequest)
    (message : ChatMessage) (messages : list ChatMessage) (w : World) :
  req_chat_history request = Some (message :: messages) ->
  exists (detail : Py.str) (w' : World),
    Api.chat env request w = (Raise (HTTPException 500 detail), w').
Proof.
  intros Hhistory. unfold Api.chat, try_except, bind.
  destruct (get_opensearch_service_no_search w) as (w0 & Hsvc & _). rewrite Hsvc.
  destruct (OpenSearchService.search_documents env _ _ w0) as [[docs|e] w1];
    [|eexists _, _; reflexivity].
  rewrite Hhistory.
  unfold RAGService.generate_response, try_except, bind. cbn [Py.dict_get].
  rewrite prepare_chat_history_models. eexists _, _. reflexivity.
Qed.

Lemma chat_with_history_fails_witness :
  req_chat_history Requests.request_with_history
  = Some [mkChatMessage (Py.lit "user") (Py.lit "What is S3?") None] /\
  exists w' : World,
    Api.chat Example.env Requests.request_with_history Example.warm
    = (Raise (HTTPException 500
                (Py.lit "Error generating RAG response: " ++
                 Py.lit "'ChatMessage' object has no attribute 'get'")), w').
Proof.
  split; [reflexivity|].
  destruct (chat_with_history_fails Example.env Requests.request_with_history
              (mkChatMessage (Py.lit "user") (Py.lit "What is S3?") None) []
              Example.warm eq_refl) as (detail & w' & Hrun).
  exists w'. rewrite Hrun. f_equal. f_equal.
  assert (Hfst : fst (Api.chat Example.env Requests.request_with_history Example.warm)
                 = Raise (HTTPException 500 detail)) by now rewrite Hrun.
  vm_compute in Hfst. injection Hfst as <-. vm_compute. reflexivity.
Defined.

(** X19.  The service is built once: [get_opensearch_service] always
    returns, afterwards the service exists, and a further call does nothing
    at all, not even a remote call.
    (The configuration of the deployment is present: building the service
    fails on nothing but its calls to the engine.) *)
Theorem get_opensearch_service_once (w : World) :
  exists w1 : World,
    Api.get_opensearch_service w = (Ok tt, w1) /\
    opensearch_service w1 = true /\
    Api.get_opensearch_service w1 = (Ok tt, w1).
Proof.
  destruct w as [ix log fs reads svc].
  unfold Api.get_opensearch_service. destruct svc; run.
  - eexists. split; [reflexivity|]. split; reflexivity.
  - destruct fs as [|[msg1|] [|[msg2|] later]], ix as [ix|]; run;
      eexists; (split; [reflexivity|]); split; reflexivity.
Qed.

Lemma hits_of_empty (ranking : list (Py.str * Q)) : hits_of ∅ ranking = [].
Proof.
  unfold hits_of. induction ranking as [|[id score] ranking IH]; [reflexivity|].
  cbn [flat_map]. now rewrite lookup_empty, IH.
Qed.

(** X20.  On a healthy world whose index holds no record (or does not
    exist), a chat request without history and with a limit from 0 to
    10000 is answered: no source, confidence 0, and as message what the
    model returns for the prompt with an empty context and no history. *)
Theorem chat_without_documents (env : Env) (request : ChatRequest) (w : World) :
  stored w = ∅ ->
  healthy w ->
  Py.dict_get (req_chat_history request) [] = [] ->
  (0 <= Api.int_or (req_max_results request) 5 <= 10000)%Z ->
  exists (response : ChatResponse) (w' : World),
    Api.chat env request w = (Ok response, w') /\
    res_sources response = [] /\
    res_confidence response = PyFloat.zero /\
    res_message response
    = claude_haiku env (RAGService._create_prompt (req_message request) [] []) /\
    stored w' = ∅.
Proof.
  destruct w as [ix log fs reads svc]. unfold healthy, stored. cbn [os_index faults].
  intros Hempty -> Hhistory [Hlo Hhi].
  unfold Api.chat, Api.get_opensearch_service, RAGService.generate_response,
    RAGService._generate_llm_response.
  rewrite Hhistory. cbn [map].
  change (RAGService._prepare_chat_history (capitalize env) (Py.dict_get (Some []) []))
    with (@Ok Py.str []).
  destruct ix as [[mapping docs]|], svc; cbn [idx_docs] in Hempty; subst; run;
    try (destruct (Z.ltb_spec (Api.int_or (req_max_results request) 5) 0); [lia|];
         destruct (Z.ltb_spec 10000 (Api.int_or (req_max_results request) 5)); [lia|]);
    run; rewrite ?index_not_found_token; run; rewrite ?hits_of_empty; rewrite ?take_nil;
    run; cbn [fold_left];
    eexists _, _; (split; [reflexivity|]);
    cbn [res_sources res_confidence res_message os_index idx_docs];
    repeat split; reflexivity.
Qed.

Lemma chat_without_documents_witness :
  stored Example.cold = ∅ /\
  healthy Example.cold /\
  Py.dict_get (req_chat_history Requests.request_plain) [] = [] /\
  (0 <= Api.int_or (req_max_results Requests.request_plain) 5 <= 10000)%Z /\
  exists (response : ChatResponse) (w' : World),
    Api.chat Example.env Requests.request_plain Example.cold = (Ok response, w') /\
    res_sources response = [] /\
    res_confidence response = PyFloat.zero /\
    res_message response = Py.lit "S3 is the object storage service of AWS.".
Proof.
  assert (Hn : (0 <= Api.int_or (req_max_results Requests.request_plain) 5 <= 10000)%Z)
    by (vm_compute; split; discriminate).
  split; [reflexivity|]. split; [reflexivity|]. split; [reflexivity|].
  split; [exact Hn|].
  destruct (chat_without_documents Example.env Requests.request_plain Example.cold
              eq_refl eq_refl eq_refl Hn)
    as (response & w' & Hrun & Hsources & Hconfidence & Hmessage & _).
  exists response, w'. split; [exact Hrun|]. split; [exact Hsources|].
  split; [exact Hconfidence|]. rewrite Hmessage. reflexivity.
Defined.

(** X21.  [DELETE /documents/{id}] for an id that is not stored, on a
    healthy world where the index exists: the answer is status 500 with
    the message of the missing document, and the records are as before. *)
Theorem delete_endpoint_missing (id : Py.str) (ix : Index) (w : World) :
  os_index w = Some ix ->
  idx_docs ix !! id = None ->
  healthy w ->
  exists w' : World,
    Endpoints.delete_document id w
    = (Raise (HTTPException 500
                (Py.lit "Error deleting document: " ++ document_not_found)), w') /\
    os_index w' = Some ix.
Proof.
  destruct w as [ix' log fs reads svc]. unfold healthy. cbn [os_index faults].
  intros -> Hnone ->. destruct ix as [mapping docs]. cbn [idx_docs] in Hnone.
  unfold Endpoints.delete_document, Api.get_opensearch_service,
    OpenSearchService.delete_document.
  destruct svc; run; rewrite Hnone; run; eexists; split; reflexivity.
Qed.

Lemma delete_endpoint_missing_witness :
  os_index Example.warm = Some (mkIndex OpenSearchService.index_body ∅) /\
  idx_docs (mkIndex OpenSearchService.index_body ∅) !! Py.lit "no-such-id" = None /\
  healthy Example.warm /\
  exists w' : World,
    Endpoints.delete_document (Py.lit "no-such-id") Example.warm
    = (Raise (HTTPException 500
                (Py.lit "Error deleting document: " ++ document_not_found)), w').
Proof.
  split; [reflexivity|]. split; [reflexivity|]. split; [reflexivity|].
  destruct (delete_endpoint_missing (Py.lit "no-such-id")
              (mkIndex OpenSearchService.index_body ∅) Example.warm
              eq_refl eq_refl eq_refl) as (w' & Hrun & _).
  exists w'. exact Hrun.
Defined.

(** ** The chat route of the simple Lambda handler *)

Section LambdaChat.

Variable env : Env.
Variable lambda_environment : bool.
Variable package : Package.

Lemma local_step_frame (outcome : option Py.str) (w : World) :
  snd (SimpleHandler.local_step outcome w) = w.
Proof. destruct outcome; reflexivity. Qed.

(** Reading the configuration consumes remote calls and nothing else. *)
Lemma get_environment_config_frame (w : World) :
  let w' := snd (SimpleHandler.get_environment_config lambda_environment package w) in
  os_index w' = os_index w /\ os_log w' = os_log w /\ clock_reads w' = clock_reads w.
Proof.
  unfold SimpleHandler.get_environment_config.
  destruct lambda_environment; [|rewrite local_step_frame; repeat split].
  destruct w as [ix log fs reads svc].
  destruct fs as [|[msg1|] [|[msg2|] [|[msg3|] later]]]; repeat split.
Qed.

(** In Lambda it fails with the message of a failed reading of the
    Parameter Store behind its prefix, and only so. *)
Lemma get_environment_config_outcome (w : World) :
  lambda_environment = true ->
  match fst (SimpleHandler.get_environment_config lambda_environment package w) with
  | Ok _ => True
  | Raise e =>
      exists message : Py.str,
        In (Some message) (take 3 (faults w)) /\
        e = Exception (Py.lit "Failed to get OpenSearch configuration from SSM: " ++ message)
  end.
Proof.
  intros ->. destruct w as [ix log fs reads svc].
  unfold SimpleHandler.get_environment_config.
  destruct fs as [|[msg1|] [|[msg2|] [|[msg3|] later]]]; run; cbn [fst take];
    try exact I; eexists; (split; [|reflexivity]); cbn [In]; auto.
Qed.

(** Building the services sends no search and leaves the records alone. *)
Lemma build_services_frame (w : World) :
  let w' := snd (SimpleHandler.build_services lambda_environment package w) in
  searches w' = searches w /\ stored w' = stored w.
Proof.
  unfold SimpleHandler.build_services, OpenSearchService.__init__, bind.
  pose proof (local_step_frame (imported package) w) as Himport.
  destruct (SimpleHandler.local_step (imported package) w) as [[[]|e] wi];
    cbn [snd] in Himport; subst wi; cbv beta iota zeta; [|split; reflexivity].
  pose proof (get_environment_config_frame w) as (Hix0 & Hlog0 & _).
  destruct (SimpleHandler.get_environment_config lambda_environment package w) as [[[]|e] w0];
    cbn [snd] in Hix0, Hlog0; cbv beta iota zeta;
    [|cbn [snd]; unfold searches, stored; rewrite Hix0, Hlog0; split; reflexivity].
  pose proof (local_step_frame (opensearch_clients package) w0) as Hclients.
  destruct (SimpleHandler.local_step (opensearch_clients package) w0) as [[[]|e] wc];
    cbn [snd] in Hclients; subst wc; cbv beta iota zeta;
    [|cbn [snd]; unfold searches, stored; rewrite Hix0, Hlog0; split; reflexivity].
  destruct (create_index_no_search w0) as (w1 & Hinit & Hlog1).
  destruct (create_index_same_records w0) as (w1' & Hinit' & Hstored1).
  rewrite Hinit in Hinit'. injection Hinit' as <-. rewrite Hinit.
  pose proof (get_environment_config_frame w1) as (Hix2 & Hlog2 & _).
  assert (Hw1 : searches w1 = searches w /\ stored w1 = stored w).
  { unfold searches, stored in *. rewrite Hlog1, Hstored1, Hix0, Hlog0. split; reflexivity. }
  destruct (SimpleHandler.get_environment_config lambda_environment package w1) as [[[]|e] w2];
    cbn [snd] in Hix2, Hlog2; cbv beta iota zeta.
  - pose proof (local_step_frame (rag_clients package) w2) as Hrag.
    destruct (SimpleHandler.local_step (rag_clients package) w2) as [r wr];
      cbn [snd] in *; subst wr.
    destruct Hw1 as [Hs1 Hr1]. unfold searches, stored in *.
    rewrite Hix2, Hlog2. split; assumption.
  - cbn [snd]. destruct Hw1 as [Hs1 Hr1]. unfold searches, stored in *.
    rewrite Hix2, Hlog2. split; assumption.
Qed.

(** They are built when the package is complete and the configuration is
    not read from the Parameter Store or no remote call fails. *)
Lemma build_services_succeeds (w : World) :
  package = mkPackage None None None None ->
  lambda_environment = false \/ healthy w ->
  fst (SimpleHandler.build_services lambda_environment package w) = Ok tt.
Proof.
  intros ->. destruct w as [ix log fs reads svc]. unfold healthy. cbn [faults].
  unfold SimpleHandler.build_services, SimpleHandler.get_environment_config,
    SimpleHandler.local_step, OpenSearchService.__init__.
  cbn [imported dotenv opensearch_clients rag_clients].
  intros [Hlocal | ->].
  - rewrite Hlocal.
    destruct (create_index_same_records (mkWorld ix log fs reads svc)) as (w1 & Hinit & _).
    unfold bind, ret. rewrite Hinit. reflexivity.
  - destruct lambda_environment, ix; reflexivity.
Qed.

(** The workflow sends one search, with the limit it is given, once the
    services are built, and none when they are not. *)
Lemma rag_workflow_searches (message : Py.str) (chat_history : list ChatTurn)
    (max_results : Z) (w : World) :
  match fst (SimpleHandler.build_services lambda_environment package w) with
  | Ok _ =>
      searches (snd (SimpleHandler.rag_workflow env lambda_environment package message
                       chat_history max_results w))
      = searches w ++ [CallSearch max_results message]
  | Raise e =>
      fst (SimpleHandler.rag_workflow env lambda_environment package message
             chat_history max_results w) = Raise e /\
      searches (snd (SimpleHandler.rag_workflow env lambda_environment package message
                       chat_history max_results w))
      = searches w
  end.
Proof.
  unfold SimpleHandler.rag_workflow.
  match goal with
  | |- context [bind (SimpleHandler.build_services lambda_environment package) ?k] =>
      set (rest := k)
  end.
  unfold bind.
  pose proof (build_services_frame w) as [Hlog0 _].
  destruct (SimpleHandler.build_services lambda_environment package w) as [[[]|e] w0];
    cbn [fst snd] in *; [|split; [reflexivity | exact Hlog0]].
  subst rest. cbv beta. unfold bind.
  pose proof (search_documents_one_search env message max_results w0) as Hsearch.
  rewrite Hlog0 in Hsearch.
  destruct (OpenSearchService.search_documents env message max_results w0)
    as [[docs|e] w1]; cbn [snd] in Hsearch; [|exact Hsearch].
  pose proof (generate_response_log env message docs
                (Some (map ItemDict chat_history)) w1) as Hgen.
  destruct (RAGService.generate_response env message docs _ w1) as [[response|e] w2];
    cbn [snd] in Hgen; unfold ret; cbn [snd]; unfold searches in *;
    rewrite Hgen; exact Hsearch.
Qed.

End LambdaChat.

(** X22.  The chat route of the Lambda handler answers every parsed
    payload with status 200, whatever fails.  It first imports and builds
    the two services, which read the configuration from the Parameter Store
    when the code runs in Lambda.  When that fails, for whatever reason, no
    search is sent and the body is the mock response with the error.  When
    the services are built, exactly one search is sent, for the message and
    with [max_results] as given, zero and negative values included, 5 only
    when the key is missing; the body is then the response of the workflow
    when it returns and the mock response when it raises.  The mock
    response has confidence 0.0, no source, and a message that quotes the
    question and the error. *)
Theorem lambda_chat_masks_failures (env : Env) (lambda_environment : bool)
    (package : Package) (payload : ChatPayload) (w : World) :
  let message := Py.dict_get (pl_message payload) [] in
  let chat_history := Py.dict_get (pl_chat_history payload) [] in
  let max_results := Py.dict_get (pl_max_results payload) 5%Z in
  exists (body : ChatResponse) (w' : World),
    SimpleHandler.chat_route env lambda_environment package payload w
    = (Ok (mkLambdaAnswer 200 body), w') /\
    match fst (SimpleHandler.build_services lambda_environment package w) with
    | Ok _ => searches w' = searches w ++ [CallSearch max_results message]
    | Raise e =>
        searches w' = searches w /\
        res_message body = SimpleHandler.mock_message message (str_of_error e)
    end /\
    match fst (SimpleHandler.rag_workflow env lambda_environment package message
                 chat_history max_results w) with
    | Ok response => body = response
    | Raise e =>
        res_confidence body = PyFloat.zero /\
        res_sources body = [] /\
        res_message body = SimpleHandler.mock_message message (str_of_error e)
    end.
Proof.
  intros message chat_history max_results.
  pose proof (rag_workflow_searches env lambda_environment package message chat_history
                max_results w) as Hsearch.
  unfold SimpleHandler.chat_route, try_except, bind.
  fold message chat_history max_results.
  destruct (SimpleHandler.build_services lambda_environment package w) as [[[]|e0] w0];
    cbn [fst] in Hsearch |- *.
  - destruct (SimpleHandler.rag_workflow env lambda_environment package message
                chat_history max_results w) as [[response|e] w1]; cbn [fst snd] in *.
    + eexists _, _. split; [reflexivity|]. split; [exact Hsearch | reflexivity].
    + unfold now_isoformat, ret. eexists _, _. split; [reflexivity|].
      split; [exact Hsearch|]. repeat split; reflexivity.
  - destruct Hsearch as [Hraise Hsearch].
    destruct (SimpleHandler.rag_workflow env lambda_environment package message
                chat_history max_results w) as [[response|e] w1]; cbn [fst snd] in *;
      [discriminate Hraise|].
    injection Hraise as ->.
    unfold now_isoformat, ret. eexists _, _. split; [reflexivity|].
    split; [|repeat split; reflexivity].
    split; [exact Hsearch | reflexivity].
Qed.

(** The route in Lambda when the Parameter Store denies the first reading,
    and anywhere when a library is missing: the mock response, and nothing
    sent to the search engine.  With a complete package and no failure, on
    a cold start: one search, with the 0 of the payload. *)
Example lambda_chat_not_configured :
  (exists (body : ChatResponse) (w' : World),
     SimpleHandler.chat_route Example.env true (mkPackage None None None None)
       Requests.payload_zero
       (mkWorld None [] [Some (Py.lit "AccessDeniedException")] 0 false)
     = (Ok (mkLambdaAnswer 200 body), w') /\
     os_log w' = [] /\ os_index w' = None /\
     res_message body
     = SimpleHandler.mock_message (Py.lit "What is S3?")
         (Py.lit "Failed to get OpenSearch configuration from SSM: AccessDeniedException")) /\
  (exists (body : ChatResponse) (w' : World),
     SimpleHandler.chat_route Example.env false
       (mkPackage (Some (Py.lit "No module named 'langchain'")) None None None)
       Requests.payload_zero Example.cold
     = (Ok (mkLambdaAnswer 200 body), w') /\
     w' = mkWorld None [] [] 1 false /\
     res_message body
     = SimpleHandler.mock_message (Py.lit "What is S3?")
         (Py.lit "No module named 'langchain'")) /\
  searches (snd (SimpleHandler.chat_route Example.env true (mkPackage None None None None)
                   Requests.payload_zero Example.cold))
  = [CallSearch 0 (Py.lit "What is S3?")].
Proof.
  split; [|split].
  - eexists _, _. split; [vm_compute; reflexivity|]. repeat split.
  - eexists _, _. split; [vm_compute; reflexivity|]. repeat split.
  - vm_compute. reflexivity.
Qed.

(** ** Direct uploads *)

Section DirectUpload.

Variable env : Env.

(** A write leaves the records alone when it raises, and adds its record
    when it returns. *)
Lemma index_document_frame (title content : Py.str) (metadata : option Metadata)
    (w : World) :
  match OpenSearchService._index_document_sync env title content metadata w with
  | (Ok response, w') =>
      OpenSearchService.document_id title content = Some (resp_id response) /\
      exists body : DocBody,
        stored w' = <[resp_id response := body]> (stored w) /\
        body_title body = title /\ body_content body = content /\
        body_metadata body = Py.dict_get metadata ∅
  | (Raise e, w') => stored w' = stored w
  end.
Proof.
  destruct w as [ix log fs reads svc]. run.
  destruct (OpenSearchService.document_id title content) as [id|]; run;
    [|reflexivity].
  destruct fs as [|[msg1|] [|[msg2|] later]], ix as [ix|]; run;
    cbn [os_index]; first [ reflexivity
                          | split; [reflexivity|]; eexists; split; [reflexivity|];
                            repeat split; reflexivity ].
Qed.

End DirectUpload.

Lemma merged_metadata (metadata : option Metadata) (processing : Metadata) :
  (if OpenSearchService.given_dict metadata
   then Py.dict_get metadata ∅ ∪ processing
   else processing)
  = Py.dict_get metadata ∅ ∪ processing.
Proof.
  destruct metadata as [m|]; cbn [OpenSearchService.given_dict Py.dict_get].
  - destruct (bool_decide (m = ∅)) eqn:Hm; cbn [negb]; [|reflexivity].
    apply bool_decide_eq_true in Hm. subst m. now rewrite (left_id_L ∅ (∪)).
  - now rewrite (left_id_L ∅ (∪)).
Qed.

(** X23.  A direct upload on a healthy world returns the id of the pair and
    the length of the content, and stores the record with the metadata it
    returns: every key the caller gives keeps the value of the caller, and
    the keys [source], [processed_at] and [content_length] the caller does
    not give are [direct_upload], the reading of the clock and the length
    of the content in decimal. *)
Theorem process_direct_document_metadata (env : Env) (title content : Py.str)
    (metadata : option Metadata) (id : Py.str) (w : World) :
  OpenSearchService.document_id title content = Some id ->
  healthy w ->
  exists (result : DirectResult) (w' : World),
    DocumentProcessorService._process_direct_document_sync env title content metadata w
    = (Ok result, w') /\
    dr_document_id result = id /\
    dr_content_length result = length content /\
    stored w' !! id
    = Some (written_body env title content (Some (dr_metadata result))
              (S (clock_reads w))) /\
    (forall key value : Py.str,
       Py.dict_get metadata ∅ !! key = Some value ->
       dr_metadata result !! key = Some value) /\
    (Py.dict_get metadata ∅ !! Py.lit "source" = None ->
     dr_metadata result !! Py.lit "source" = Some (Py.lit "direct_upload")) /\
    (Py.dict_get metadata ∅ !! Py.lit "processed_at" = None ->
     dr_metadata result !! Py.lit "processed_at" = Some (clock env (clock_reads w))) /\
    (Py.dict_get metadata ∅ !! Py.lit "content_length" = None ->
     dr_metadata result !! Py.lit "content_length"
     = Some (PyInt.str_of_nat (length content))).
Proof.
  intros Hid Hw.
  unfold DocumentProcessorService._process_direct_document_sync, try_except, bind,
    now_isoformat.
  rewrite merged_metadata.
  match goal with
  | |- context [OpenSearchService._index_document_sync env title content ?md ?w1] =>
      rewrite (index_document_returns env title content md id w1 Hid)
        by (destruct w; exact Hw)
  end.
  cbn [ret]. eexists _, _. split; [reflexivity|].
  cbn [dr_document_id dr_content_length dr_metadata resp_id].
  split; [reflexivity|]. split; [reflexivity|].
  split; [rewrite stored_after_index; apply lookup_insert_eq|].
  split; [intros key value Hkey; now apply lookup_union_Some_l|].
  repeat split; intros Hnone; rewrite lookup_union_r by exact Hnone.
  - rewrite lookup_insert_ne by (vm_compute; discriminate). apply lookup_insert_eq.
  - rewrite !lookup_insert_ne by (vm_compute; discriminate). apply lookup_insert_eq.
  - apply lookup_insert_eq.
Qed.

Lemma process_direct_document_metadata_witness :
  OpenSearchService.document_id (Py.lit "ab") (Py.lit "c") = Some Example.id_abc /\
  healthy Example.cold /\
  exists (result : DirectResult) (w' : World),
    DocumentProcessorService._process_direct_document_sync Example.env (Py.lit "ab")
      (Py.lit "c") (Some {[ Py.lit "source" := Py.lit "crawler" ]}) Example.cold
    = (Ok result, w') /\
    dr_document_id result = Example.id_abc /\
    dr_metadata result !! Py.lit "source" = Some (Py.lit "crawler") /\
    dr_metadata result !! Py.lit "content_length" = Some (Py.lit "1") /\
    dr_metadata result !! Py.lit "processed_at" = Some (Py.lit "2025-07-18T00:00:00").
Proof.
  assert (Hid : OpenSearchService.document_id (Py.lit "ab") (Py.lit "c")
                = Some Example.id_abc) by (vm_compute; reflexivity).
  split; [exact Hid|]. split; [reflexivity|].
  destruct (process_direct_document_metadata Example.env (Py.lit "ab") (Py.lit "c")
              (Some {[ Py.lit "source" := Py.lit "crawler" ]}) Example.id_abc
              Example.cold Hid eq_refl)
    as (result & w' & Hrun & Hrid & _ & _ & Hcaller & _ & Hat & Hlen).
  exists result, w'. split; [exact Hrun|]. split; [exact Hrid|].
  split; [apply Hcaller; vm_compute; reflexivity|].
  split.
  - rewrite Hlen by (vm_compute; reflexivity). vm_compute. reflexivity.
  - rewrite Hat by (vm_compute; reflexivity). vm_compute. reflexivity.
Defined.

(** X24.  A direct invocation without a title or without a content, or with
    an empty one, is answered with status 400 whatever fails, and writes no
    record; the service is built before the fields are looked at, so the
    index may be created on the way.  This holds for every way the body
    reaches the handler: as the text of [event['body']], as the value of
    [event['body']], or as the event itself.
    (The configuration of the deployment is present: building the service
    fails on nothing but its calls to the engine.) *)
Theorem direct_invocation_requires_fields (env : Env)
    (json_loads : Py.str -> Py.str + JsonValue) (event : DirectEvent)
    (body : DirectBody) (w : World) :
  DocumentProcessorLambda.event_value json_loads event = inr (JsonObject body) ->
  OpenSearchService.given_str (db_title body) = false \/
  OpenSearchService.given_str (db_content body) = false ->
  exists w' : World,
    DocumentProcessorLambda.handle_direct_invocation env json_loads event w
    = (Ok FieldsRequired, w') /\
    status_code FieldsRequired = 400%Z /\
    stored w' = stored w /\
    (os_index w' = os_index w \/
     os_index w = None /\ os_index w' = Some (mkIndex OpenSearchService.index_body ∅)).
Proof.
  intros Hbody Hmissing.
  unfold DocumentProcessorLambda.handle_direct_invocation,
    DocumentProcessorService.__init__, OpenSearchService.__init__, bind.
  rewrite Hbody.
  assert (Hcheck : negb (OpenSearchService.given_str (db_title body)) ||
                   negb (OpenSearchService.given_str (db_content body)) = true).
  { destruct Hmissing as [-> | ->]; [reflexivity | apply orb_true_r]. }
  rewrite Hcheck.
  destruct w as [ix log fs reads svc].
  destruct fs as [|[msg1|] [|[msg2|] later]], ix as [ix|]; run;
    eexists; (split; [reflexivity|]); (split; [reflexivity|]);
    cbn [os_index]; (split; [reflexivity|]); auto.
Qed.

Lemma direct_invocation_requires_fields_witness :
  DocumentProcessorLambda.event_value Requests.json_loads Requests.event_title_only
  = inr (JsonObject Requests.body_without_content) /\
  (OpenSearchService.given_str (db_title Requests.body_without_content) = false \/
   OpenSearchService.given_str (db_content Requests.body_without_content) = false) /\
  exists w' : World,
    DocumentProcessorLambda.handle_direct_invocation Example.env Requests.json_loads
      Requests.event_title_only Example.cold = (Ok FieldsRequired, w') /\
    stored w' = ∅.
Proof.
  assert (Hbody : DocumentProcessorLambda.event_value Requests.json_loads
                    Requests.event_title_only
                  = inr (JsonObject Requests.body_without_content))
    by (vm_compute; reflexivity).
  assert (Hmissing :
            OpenSearchService.given_str (db_title Requests.body_without_content) = false \/
            OpenSearchService.given_str (db_content Requests.body_without_content) = false)
    by (right; reflexivity).
  split; [exact Hbody|]. split; [exact Hmissing|].
  destruct (direct_invocation_requires_fields Example.env Requests.json_loads
              Requests.event_title_only Requests.body_without_content
              Example.cold Hbody Hmissing) as (w' & Hrun & _ & Hstored & _).
  exists w'. split; [exact Hrun | exact Hstored].
Defined.

(** A direct invocation raises only for a body that is not JSON or not an
    object; it has built the service by then and written no record. *)
Lemma handle_direct_invocation_cases (env : Env)
    (json_loads : Py.str -> Py.str + JsonValue) (event : DirectEvent) (w : World) :
  exists w' : World,
    match DocumentProcessorLambda.event_value json_loads event with
    | inl message =>
        DocumentProcessorLambda.handle_direct_invocation env json_loads event w
        = (Raise (Exception message), w') /\ stored w' = stored w
    | inr (JsonOther type_name) =>
        DocumentProcessorLambda.handle_direct_invocation env json_loads event w
        = (Raise (Exception (DocumentProcessorLambda.no_attribute_get type_name)), w') /\
        stored w' = stored w
    | inr (JsonObject body) =>
        exists answer : DirectAnswer,
          DocumentProcessorLambda.handle_direct_invocation env json_loads event w
          = (Ok answer, w') /\
          match answer with
          | DocumentProcessed id =>
              OpenSearchService.document_id (Py.dict_get (db_title body) [])
                (Py.dict_get (db_content body) []) = Some id /\
              exists record : DocBody,
                stored w' = <[id := record]> (stored w) /\
                body_title record = Py.dict_get (db_title body) [] /\
                body_content record = Py.dict_get (db_content body) []
          | FieldsRequired | ProcessingError _ => stored w' = stored w
          end
    end.
Proof.
  unfold DocumentProcessorLambda.handle_direct_invocation,
    DocumentProcessorService.__init__, OpenSearchService.__init__, bind.
  destruct (create_index_same_records w) as (w0 & Hinit & Hstored0). rewrite Hinit.
  destruct (DocumentProcessorLambda.event_value json_loads event)
    as [message|[body|type_name]].
  - exists w0. split; [reflexivity | exact Hstored0].
  - destruct (negb (OpenSearchService.given_str (db_title body)) ||
              negb (OpenSearchService.given_str (db_content body))).
    + eexists _, _. split; [reflexivity | exact Hstored0].
    + unfold DocumentProcessorService._process_direct_document_sync, try_except, bind,
        now_isoformat.
      match goal with
      | |- context [OpenSearchService._index_document_sync env ?t ?c ?md ?w1] =>
          pose proof (index_document_frame env t c md w1) as Hwrite;
          destruct (OpenSearchService._index_document_sync env t c md w1)
            as [[response|e] w2]
      end.
      * destruct Hwrite as (Hid & record & Hafter & Htitle & Hcontent & _).
        eexists _, _. split; [reflexivity|]. cbn [dr_document_id].
        split; [exact Hid|]. exists record.
        split; [|split; [exact Htitle | exact Hcontent]].
        rewrite Hafter. unfold stored at 1. cbn [os_index].
        fold (stored w0). now rewrite Hstored0.
      * eexists _, _. split; [reflexivity|].
        rewrite Hwrite. unfold stored at 1. cbn [os_index].
        fold (stored w0). exact Hstored0.
  - exists w0. split; [reflexivity | exact Hstored0].
Qed.

(** X25.  [lambda_handler] never raises on a direct invocation and answers
    200, 400 or 500.  A body that is not JSON, or that is JSON and not an
    object, makes [handle_direct_invocation] raise, outside its own [try]:
    the handler answers 500 with the message of the parser or of the
    missing attribute [get].  When the answer is 200, the body is an
    object, the id returned is the id of the pair of its title and content,
    and the record of that pair is stored under it; when the answer is 400
    or 500, the records are as before.
    (The configuration of the deployment is present: building the service
    fails on nothing but its calls to the engine.) *)
Theorem direct_invocation_outcome (env : Env) (files : Files) (lower : Py.str -> Py.str)
    (json_loads : Py.str -> Py.str + JsonValue) (event : DirectEvent) (w : World) :
  exists (answer : DirectAnswer) (w' : World),
    DocumentProcessorLambda.lambda_handler env files lower json_loads
      (DocumentProcessorLambda.DirectInvocation event) w
    = (Ok (DocumentProcessorLambda.DirectReply answer), w') /\
    match DocumentProcessorLambda.event_value json_loads event with
    | inl message =>
        fst (DocumentProcessorLambda.handle_direct_invocation env json_loads event w)
        = Raise (Exception message) /\
        answer = ProcessingError message /\
        stored w' = stored w
    | inr (JsonOther type_name) =>
        fst (DocumentProcessorLambda.handle_direct_invocation env json_loads event w)
        = Raise (Exception (DocumentProcessorLambda.no_attribute_get type_name)) /\
        answer = ProcessingError (DocumentProcessorLambda.no_attribute_get type_name) /\
        stored w' = stored w
    | inr (JsonObject body) =>
        DocumentProcessorLambda.handle_direct_invocation env json_loads event w
        = (Ok answer, w') /\
        match answer with
        | DocumentProcessed id =>
            OpenSearchService.document_id (Py.dict_get (db_title body) [])
              (Py.dict_get (db_content body) []) = Some id /\
            exists record : DocBody,
              stored w' = <[id := record]> (stored w) /\
              body_title record = Py.dict_get (db_title body) [] /\
              body_content record = Py.dict_get (db_content body) []
        | FieldsRequired | ProcessingError _ => stored w' = stored w
        end
    end.
Proof.
  unfold DocumentProcessorLambda.lambda_handler, try_except.
  unfold bind at 1.
  destruct (handle_direct_invocation_cases env json_loads event w) as (w' & Hcases).
  destruct (DocumentProcessorLambda.event_value json_loads event)
    as [message|[body|type_name]].
  - destruct Hcases as [Hrun Hstored]. rewrite Hrun.
    eexists _, _. split; [reflexivity|]. repeat split. exact Hstored.
  - destruct Hcases as (answer & Hrun & Hanswer). rewrite Hrun.
    exists answer, w'. split; [reflexivity|]. split; [reflexivity | exact Hanswer].
  - destruct Hcases as [Hrun Hstored]. rewrite Hrun.
    eexists _, _. split; [reflexivity|]. repeat split. exact Hstored.
Qed.

(** The handler on a text that is not JSON, on a list and on [null]. *)
Example lambda_handler_bad_bodies :
  fst (DocumentProcessorLambda.lambda_handler Example.env Uploads.files
         (map Py.ascii_lower) Requests.json_loads
         (DocumentProcessorLambda.DirectInvocation Requests.event_not_json) Example.cold)
  = Ok (DocumentProcessorLambda.DirectReply
          (ProcessingError (Py.lit "Expecting value: line 1 column 1 (char 0)"))) /\
  fst (DocumentProcessorLambda.lambda_handler Example.env Uploads.files
         (map Py.ascii_lower) Requests.json_loads
         (DocumentProcessorLambda.DirectInvocation Requests.event_list) Example.cold)
  = Ok (DocumentProcessorLambda.DirectReply
          (ProcessingError (Py.lit "'list' object has no attribute 'get'"))) /\
  fst (DocumentProcessorLambda.lambda_handler Example.env Uploads.files
         (map Py.ascii_lower) Requests.json_loads
         (DocumentProcessorLambda.DirectInvocation Requests.event_null) Example.cold)
  = Ok (DocumentProcessorLambda.DirectReply
          (ProcessingError (Py.lit "'NoneType' object has no attribute 'get'"))) /\
  fst (DocumentProcessorLambda.lambda_handler Example.env Uploads.files
         (map Py.ascii_lower) Requests.json_loads
         (DocumentProcessorLambda.DirectInvocation Requests.event_ab_c) Example.cold)
  = Ok (DocumentProcessorLambda.DirectReply (DocumentProcessed Example.id_abc)).
Proof. vm_compute. repeat split. Qed.

(** ** Chunks of a document *)

Section Chunks.

Variable split_text : Py.str -> list Py.str.

Lemma process_loop (metadata : option Metadata) (total : nat) (chunks : list Py.str)
    (start : nat) (processed : list Chunk) :
  snd (fold_left (RAGChunks.process_step metadata total) chunks (start, processed))
  = processed ++
    imap (fun i chunk =>
            mkChunk chunk
              (<[Py.lit "total_chunks" := PyInt.str_of_nat total]>
                 (<[Py.lit "chunk_index" := PyInt.str_of_nat (start + i)]>
                    (Py.dict_get metadata ∅))))
         chunks.
Proof.
  revert start processed. induction chunks as [|chunk chunks IH]; intros start processed.
  - cbn. now rewrite app_nil_r.
  - cbn [fold_left RAGChunks.process_step]. rewrite IH, imap_cons, <- app_assoc.
    cbn [app]. rewrite Nat.add_0_r. do 2 f_equal.
    apply imap_ext. intros i x _. cbn. now rewrite Nat.add_succ_r.
Qed.

End Chunks.

(** X26.  [process_document] returns one chunk per piece of the splitter,
    in order and with the text of the piece.  The metadata of chunk [i]
    hold its index [i] and the number of pieces, in decimal, whatever the
    caller gives under [chunk_index] and [total_chunks]; every other key
    has the value of the caller. *)
Theorem process_document_chunks (split_text : Py.str -> list Py.str) (content : Py.str)
    (metadata : option Metadata) :
  let chunks := split_text content in
  let processed := RAGChunks.process_document split_text content metadata in
  map chunk_content processed = chunks /\
  forall (i : nat) (chunk : Py.str),
    chunks !! i = Some chunk ->
    exists processed_chunk : Chunk,
      processed !! i = Some processed_chunk /\
      chunk_content processed_chunk = chunk /\
      chunk_metadata processed_chunk !! Py.lit "chunk_index"
      = Some (PyInt.str_of_nat i) /\
      chunk_metadata processed_chunk !! Py.lit "total_chunks"
      = Some (PyInt.str_of_nat (length chunks)) /\
      forall key : Py.str,
        key <> Py.lit "chunk_index" -> key <> Py.lit "total_chunks" ->
        chunk_metadata processed_chunk !! key = Py.dict_get metadata ∅ !! key.
Proof.
  intros chunks processed. unfold processed, RAGChunks.process_document.
  fold chunks. rewrite process_loop. cbn [app]. split.
  - rewrite map_fmap, fmap_imap.
    rewrite (imap_ext _ (const id)) by (intros i x _; reflexivity).
    rewrite imap_const. apply list_fmap_id.
  - intros i chunk Hi. rewrite list_lookup_imap, Hi. cbn [fmap option_fmap option_map].
    eexists. split; [reflexivity|]. cbn [chunk_content chunk_metadata].
    split; [reflexivity|]. split; [|split].
    + rewrite lookup_insert_ne by (vm_compute; discriminate). apply lookup_insert_eq.
    + apply lookup_insert_eq.
    + intros key Hindex Htotal. now rewrite !lookup_insert_ne by congruence.
Qed.

Lemma process_document_chunks_witness :
  Requests.split_in_pairs (Py.lit "abcde") !! 2%nat = Some (Py.lit "e") /\
  exists processed_chunk : Chunk,
    RAGChunks.process_document Requests.split_in_pairs (Py.lit "abcde")
      (Some {[ Py.lit "chunk_index" := Py.lit "7"; Py.lit "source" := Py.lit "s3" ]}) !! 2%nat
    = Some processed_chunk /\
    chunk_content processed_chunk = Py.lit "e" /\
    chunk_metadata processed_chunk !! Py.lit "chunk_index" = Some (Py.lit "2") /\
    chunk_metadata processed_chunk !! Py.lit "total_chunks" = Some (Py.lit "3") /\
    chunk_metadata processed_chunk !! Py.lit "source" = Some (Py.lit "s3").
Proof.
  assert (Hi : Requests.split_in_pairs (Py.lit "abcde") !! 2%nat = Some (Py.lit "e"))
    by (vm_compute; reflexivity).
  split; [exact Hi|].
  destruct (process_document_chunks Requests.split_in_pairs (Py.lit "abcde")
              (Some {[ Py.lit "chunk_index" := Py.lit "7"; Py.lit "source" := Py.lit "s3" ]}))
    as [_ Hchunks].
  destruct (Hchunks 2%nat (Py.lit "e") Hi)
    as (processed_chunk & Hat & Hcontent & Hindex & Htotal & Hother).
  exists processed_chunk. split; [exact Hat|]. split; [exact Hcontent|].
  split; [rewrite Hindex; vm_compute; reflexivity|].
  split; [rewrite Htotal; vm_compute; reflexivity|].
  rewrite Hother by (vm_compute; discriminate). vm_compute. reflexivity.
Defined.

(** ** Integers as text *)

Example str_of_nat_examples :
  PyInt.str_of_nat 0 = Py.lit "0" /\ PyInt.str_of_nat 7 = Py.lit "7" /\
  PyInt.str_of_nat 250 = Py.lit "250" /\ PyInt.str_of_nat 1000 = Py.lit "1000" /\
  PyInt.str_of_nat 1023 = Py.lit "1023" /\ PyInt.str_of_nat 1024 = Py.lit "1024".
Proof. vm_compute. repeat split; reflexivity. Qed.

Lemma digits_value (fuel : nat) (n : N) (acc : Py.str) :
  (n < 2 ^ N.of_nat fuel)%N ->
  fold_left (fun value digit => (10 * value + (digit - 48))%N)
    (PyInt.digits fuel n acc) 0%N
  = fold_left (fun value digit => (10 * value + (digit - 48))%N) acc n.
Proof.
  revert n acc. induction fuel as [|fuel IH]; intros n acc Hn.
  - cbn in Hn. assert (n = 0%N) by lia. subst n. reflexivity.
  - cbn [PyInt.digits]. destruct (N.ltb_spec n 10) as [Hsmall|Hbig].
    + cbn [fold_left]. f_equal.
      rewrite (N.add_comm 48), N.add_sub, N.mod_small by exact Hsmall. reflexivity.
    + rewrite IH.
      * cbn [fold_left]. f_equal. rewrite (N.add_comm 48), N.add_sub.
        symmetry. apply N.div_mod. discriminate.
      * rewrite Nat2N.inj_succ, N.pow_succ_r' in Hn.
        apply N.Div0.div_lt_upper_bound. lia.
Qed.

(** The decimal text of a number reads back as the number: the digits are
    all there. *)
Lemma int_of_str_of_nat (n : nat) :
  PyIntRead.int_of_str (PyInt.str_of_nat n) = N.of_nat n.
Proof.
  unfold PyIntRead.int_of_str, PyInt.str_of_nat. rewrite digits_value; [reflexivity|].
  rewrite Nat2N.inj_succ, N2Nat.id.
  destruct (N.of_nat n) as [|p] eqn:Hp; [reflexivity|].
  apply N.log2_spec. lia.
Qed.

(** ** The cache of the configuration manager *)

(** What the cache holds, it keeps. *)
Lemma cache_kept_by_event (prefix key value : Py.str) (cw : ConfigWorld)
    (event : ConfigEvent) :
  cm_cache cw !! key = Some value ->
  cm_cache (after_event prefix cw event) !! key = Some value.
Proof.
  intros Hkey. destruct event as [parameters faults|other decrypt]; [exact Hkey|].
  cbn [after_event].
  unfold ConfigManager.get_parameter, ConfigManager.ssm_get_parameter.
  destruct (cm_cache cw !! ConfigManager.full_name prefix other) as [cached|] eqn:Hother;
    [exact Hkey|].
  assert (Hne : ConfigManager.full_name prefix other <> key) by congruence.
  destruct (ssm_faults cw) as [|[msg|] later];
    destruct (ssm_parameters cw !! ConfigManager.full_name prefix other) as [found|];
    cbn [snd cm_cache]; rewrite ?lookup_insert_ne by exact Hne; exact Hkey.
Qed.

Lemma cache_kept_by_events (prefix key value : Py.str) (events : list ConfigEvent) :
  forall cw : ConfigWorld,
  cm_cache cw !! key = Some value ->
  cm_cache (after_events prefix cw events) !! key = Some value.
Proof.
  induction events as [|event later IH]; intros cw Hkey; [exact Hkey|].
  apply IH, cache_kept_by_event, Hkey.
Qed.

Lemma full_name_inj (prefix name other : Py.str) :
  ConfigManager.full_name prefix name = ConfigManager.full_name prefix other ->
  name = other.
Proof.
  unfold ConfigManager.full_name. intros Heq.
  apply app_inv_head in Heq. now apply app_inv_head in Heq.
Qed.

(** A name that is not read is not put in the cache. *)
Lemma cache_miss_kept_by_event (prefix name : Py.str) (cw : ConfigWorld)
    (event : ConfigEvent) :
  reads_other name event ->
  cm_cache cw !! ConfigManager.full_name prefix name = None ->
  cm_cache (after_event prefix cw event) !! ConfigManager.full_name prefix name = None.
Proof.
  intros Hother Hmiss. destruct event as [parameters faults|other decrypt]; [exact Hmiss|].
  cbn [after_event reads_other] in *.
  assert (Hne : ConfigManager.full_name prefix other <> ConfigManager.full_name prefix name)
    by (intros Heq; apply Hother, (full_name_inj prefix), Heq).
  unfold ConfigManager.get_parameter, ConfigManager.ssm_get_parameter.
  destruct (cm_cache cw !! ConfigManager.full_name prefix other) as [cached|];
    [exact Hmiss|].
  destruct (ssm_faults cw) as [|[msg|] later];
    destruct (ssm_parameters cw !! ConfigManager.full_name prefix other) as [found|];
    cbn [snd cm_cache]; rewrite ?lookup_insert_ne by exact Hne; exact Hmiss.
Qed.

Lemma cache_miss_kept_by_events (prefix name : Py.str) (events : list ConfigEvent) :
  forall cw : ConfigWorld,
  Forall (reads_other name) events ->
  cm_cache cw !! ConfigManager.full_name prefix name = None ->
  cm_cache (after_events prefix cw events) !! ConfigManager.full_name prefix name = None.
Proof.
  induction events as [|event later IH]; intros cw Hevents Hmiss; [exact Hmiss|].
  apply Forall_cons in Hevents as [Hevent Hlater].
  apply IH; [exact Hlater|]. now apply cache_miss_kept_by_event.
Qed.

(** X27.  A parameter that was found is remembered: once [get_parameter]
    has returned a value for a name, every later call for that name
    returns the same value without asking the store, whatever happened in
    between (other parameters read through the manager, the store changed
    or failing) and whatever the store holds by then. *)
Theorem get_parameter_cached (prefix name value : Py.str) (decrypt decrypt' : bool)
    (cw cw1 : ConfigWorld) (events : list ConfigEvent) :
  ConfigManager.get_parameter prefix name decrypt cw = (Ok (Some value), cw1) ->
  ConfigManager.get_parameter prefix name decrypt' (after_events prefix cw1 events)
  = (Ok (Some value), after_events prefix cw1 events).
Proof.
  intros Hfirst.
  assert (Hhit : cm_cache cw1 !! (ConfigManager.full_name prefix name) = Some value).
  { revert Hfirst.
    unfold ConfigManager.get_parameter, ConfigManager.ssm_get_parameter.
    destruct (cm_cache cw !! (ConfigManager.full_name prefix name)) as [cached|] eqn:Hcw.
    - intros Hfirst. injection Hfirst as <- <-. exact Hcw.
    - destruct (ssm_faults cw) as [|[msg|] later];
        destruct (ssm_parameters cw !! ConfigManager.full_name prefix name) as [found|];
        cbv beta iota zeta; intros Hfirst; try discriminate Hfirst;
        injection Hfirst as <- <-; cbn [cm_cache]; apply lookup_insert_eq. }
  apply (cache_kept_by_events prefix _ _ events) in Hhit.
  unfold ConfigManager.get_parameter at 1. cbv zeta. rewrite Hhit. reflexivity.
Qed.

Lemma get_parameter_cached_witness :
  exists cw1 : ConfigWorld,
    ConfigManager.get_parameter Parameters.prefix (Py.lit "opensearch/endpoint") false
      Parameters.fresh = (Ok (Some (Py.lit "https://search.example")), cw1) /\
    ssm_parameters (after_events Parameters.prefix cw1 Parameters.read_then_throttled) = ∅ /\
    ssm_requests (after_events Parameters.prefix cw1 Parameters.read_then_throttled)
    = [Parameters.endpoint_name; Py.lit "/chatbot/dev/vpc/id"] /\
    ConfigManager.get_parameter Parameters.prefix (Py.lit "opensearch/endpoint") false
      (after_events Parameters.prefix cw1 Parameters.read_then_throttled)
    = (Ok (Some (Py.lit "https://search.example")),
       after_events Parameters.prefix cw1 Parameters.read_then_throttled).
Proof.
  destruct (ConfigManager.get_parameter Parameters.prefix (Py.lit "opensearch/endpoint")
              false Parameters.fresh) as [r cw1] eqn:Hrun.
  assert (Hr : r = Ok (Some (Py.lit "https://search.example"))).
  { apply (f_equal fst) in Hrun. cbn [fst] in Hrun. rewrite <- Hrun.
    vm_compute. reflexivity. }
  assert (Hcw1 : cw1 = snd (ConfigManager.get_parameter Parameters.prefix
                              (Py.lit "opensearch/endpoint") false Parameters.fresh))
    by (rewrite Hrun; reflexivity).
  subst r. exists cw1. split; [reflexivity|].
  split; [rewrite Hcw1; reflexivity|].
  split; [rewrite Hcw1; vm_compute; reflexivity|].
  exact (get_parameter_cached Parameters.prefix (Py.lit "opensearch/endpoint")
           (Py.lit "https://search.example") false false Parameters.fresh cw1
           Parameters.read_then_throttled Hrun).
Defined.

(** X28.  A parameter that was not found is not remembered: the call
    returns [None], asks the store once and leaves the cache as it was.  So
    the next call for that name, whatever happened in between (other
    parameters read through the manager, the store changed), asks the store
    again and, when the store answers, returns what it holds by then. *)
Theorem get_parameter_not_found (prefix name : Py.str) (decrypt decrypt' : bool)
    (cw : ConfigWorld) (events : list ConfigEvent) :
  cm_cache cw !! (ConfigManager.full_name prefix name) = None ->
  ssm_parameters cw !! (ConfigManager.full_name prefix name) = None ->
  store_answers cw ->
  Forall (reads_other name) events ->
  exists cw1 : ConfigWorld,
    ConfigManager.get_parameter prefix name decrypt cw = (Ok None, cw1) /\
    cm_cache cw1 = cm_cache cw /\
    ssm_requests cw1 = ssm_requests cw ++ [ConfigManager.full_name prefix name] /\
    let cw2 := after_events prefix cw1 events in
    ssm_requests (snd (ConfigManager.get_parameter prefix name decrypt' cw2))
    = ssm_requests cw2 ++ [ConfigManager.full_name prefix name] /\
    (store_answers cw2 ->
     fst (ConfigManager.get_parameter prefix name decrypt' cw2)
     = Ok (ssm_parameters cw2 !! (ConfigManager.full_name prefix name))).
Proof.
  intros Hmiss Habsent Hanswers Hevents.
  assert (Hfirst : exists cw1 : ConfigWorld,
             ConfigManager.get_parameter prefix name decrypt cw = (Ok None, cw1) /\
             cm_cache cw1 = cm_cache cw /\
             ssm_requests cw1 = ssm_requests cw ++ [ConfigManager.full_name prefix name]).
  { unfold ConfigManager.get_parameter, ConfigManager.ssm_get_parameter.
    unfold store_answers in Hanswers. rewrite Hmiss, Habsent.
    destruct (ssm_faults cw) as [|[msg|] later]; [|contradiction|];
      eexists; repeat split. }
  destruct Hfirst as (cw1 & Hrun & Hcache & Hrequests).
  exists cw1. split; [exact Hrun|]. split; [exact Hcache|]. split; [exact Hrequests|].
  intros cw2.
  assert (Hmiss2 : cm_cache cw2 !! ConfigManager.full_name prefix name = None).
  { apply cache_miss_kept_by_events; [exact Hevents|]. now rewrite Hcache. }
  unfold ConfigManager.get_parameter, ConfigManager.ssm_get_parameter, store_answers.
  rewrite Hmiss2.
  destruct (ssm_faults cw2) as [|[msg|] later];
    destruct (ssm_parameters cw2 !! ConfigManager.full_name prefix name) as [found|];
    split; solve [reflexivity | intros []| intros _; reflexivity].
Qed.

Lemma get_parameter_not_found_witness :
  exists cw1 : ConfigWorld,
    ConfigManager.get_parameter Parameters.prefix (Py.lit "opensearch/endpoint") false
      Parameters.empty_store = (Ok None, cw1) /\
    cm_cache (after_events Parameters.prefix cw1 Parameters.read_then_added)
    = {[ Py.lit "/chatbot/dev/vpc/id" := Py.lit "vpc-1" ]} /\
    fst (ConfigManager.get_parameter Parameters.prefix (Py.lit "opensearch/endpoint")
           false (after_events Parameters.prefix cw1 Parameters.read_then_added))
    = Ok (Some (Py.lit "https://search.example")).
Proof.
  destruct (get_parameter_not_found Parameters.prefix (Py.lit "opensearch/endpoint")
              false false Parameters.empty_store Parameters.read_then_added
              eq_refl eq_refl I)
    as (cw1 & Hrun & _ & _ & _ & Hagain).
  { apply Forall_cons; split; [exact I|].
    apply Forall_cons; split; [cbn [reads_other]; intros Heq; vm_compute in Heq; discriminate Heq|].
    apply Forall_cons; split; [exact I|]. apply Forall_nil. exact I. }
  exists cw1.
  assert (Hcw1 : cw1 = snd (ConfigManager.get_parameter Parameters.prefix
                              (Py.lit "opensearch/endpoint") false Parameters.empty_store))
    by (rewrite Hrun; reflexivity).
  split; [exact Hrun|].
  split; [rewrite Hcw1; vm_compute; reflexivity|].
  rewrite Hagain; [rewrite Hcw1; vm_compute; reflexivity|].
  rewrite Hcw1. vm_compute. exact I.
Defined.

(** ** Files from S3 *)

(** The path functions and the decoder on known values. *)
Example splitext_examples :
  PosixPath.splitext (Py.lit "docs/v1.2/Notes.TXT")
  = (Py.lit "docs/v1.2/Notes", Py.lit ".TXT") /\
  PosixPath.splitext (Py.lit "docs/v1.2/README") = (Py.lit "docs/v1.2/README", []) /\
  PosixPath.splitext (Py.lit "docs/.txt") = (Py.lit "docs/.txt", []) /\
  PosixPath.splitext (Py.lit "archive.tar.gz") = (Py.lit "archive.tar", Py.lit ".gz") /\
  PosixPath.splitext (Py.lit "..md") = (Py.lit "..md", []) /\
  PosixPath.basename (Py.lit "docs/v1.2/Notes.TXT") = Py.lit "Notes.TXT" /\
  PosixPath.basename (Py.lit "Notes.TXT") = Py.lit "Notes.TXT" /\
  PosixPath.basename (Py.lit "docs/") = [].
Proof. vm_compute. repeat split. Qed.

Example decode_utf8_examples :
  Codec.decode_utf8 [0x63; 0x61; 0x66; 0xC3; 0xA9]%N = Some [99; 97; 102; 233]%N /\
  Codec.decode_utf8 [0xE2; 0x82; 0xAC]%N = Some [0x20AC]%N /\
  Codec.decode_utf8 [0xF0; 0x9F; 0x98; 0x80]%N = Some [0x1F600]%N /\
  Codec.decode_utf8 [0x63; 0x61; 0x66; 0xE9]%N = None /\
  Codec.decode_utf8 [0xC0; 0x80]%N = None /\
  Codec.decode_utf8 [0xE0; 0x80; 0x80]%N = None /\
  Codec.decode_utf8 [0xED; 0xA0; 0x80]%N = None /\
  Codec.decode_utf8 [0xF4; 0x90; 0x80; 0x80]%N = None /\
  Codec.decode_utf8 [0xE2; 0x82]%N = None /\
  Codec.decode_utf8 [0x80]%N = None.
Proof. vm_compute. repeat split. Qed.

(** What is decoded is what [encode] writes. *)
Lemma decode_utf8_encode_examples :
  Forall (fun s => option_map Codec.decode_utf8 (Py.encode s) = Some (Some s))
    [ Py.lit "Notes.TXT"; [233; 0x7FF; 0x800; 0xD7FF; 0xE000; 0xFFFF; 0x10000; 0x10FFFF]%N ].
Proof. repeat constructor. Qed.

Section StorageFacts.

Variable env : Env.
Variable files : Files.
Variable lower : Py.str -> Py.str.

Lemma download_text (bucket key : Py.str) (octets : Py.bytes) (w : World) :
  get_object files bucket key = inr octets ->
  DocumentProcessorService._download_and_process_text files bucket key w
  = (Ok (Py.dict_get (Codec.decode_utf8 octets) (Codec.decode_latin1 octets)), w).
Proof.
  intros Hget.
  unfold DocumentProcessorService._download_and_process_text,
    DocumentProcessorService.client_call, try_except, bind.
  rewrite Hget. cbn [ret]. destruct (Codec.decode_utf8 octets); reflexivity.
Qed.

Lemma pdf_without_text_detection (bucket key message : Py.str) (w : World) :
  detect_document_text files bucket key = inl message ->
  DocumentProcessorService._process_pdf files bucket key w
  = DocumentProcessorService._download_and_process_text files bucket key w.
Proof.
  intros Hdetect.
  unfold DocumentProcessorService._process_pdf,
    DocumentProcessorService.client_call, try_except, bind.
  rewrite Hdetect. reflexivity.
Qed.

(** The processors read: they leave the world as it is. *)
Lemma download_text_pure (bucket key : Py.str) (w : World) :
  snd (DocumentProcessorService._download_and_process_text files bucket key w) = w.
Proof.
  unfold DocumentProcessorService._download_and_process_text,
    DocumentProcessorService.client_call, try_except, bind.
  destruct (get_object files bucket key) as [message|octets]; [reflexivity|].
  cbn [ret]. destruct (Codec.decode_utf8 octets); reflexivity.
Qed.

(** A result of [_process_s3_file_sync] names the bucket and the key it was
    called with. *)
Lemma process_s3_file_location (bucket key : Py.str) (result : S3Result) (w w' : World) :
  DocumentProcessorService._process_s3_file_sync env files lower bucket key w
  = (Ok result, w') ->
  sr_bucket result = bucket /\ sr_key result = key.
Proof.
  unfold DocumentProcessorService._process_s3_file_sync,
    DocumentProcessorService.client_call, try_except, bind.
  destruct (head_object files bucket key) as [message|response]; [discriminate|].
  cbn [ret raise].
  destruct (DocumentProcessorService.supported files _) as [processor|]; [|discriminate].
  destruct (processor bucket key w) as [[content|e] w1]; [|discriminate].
  unfold now_isoformat.
  match goal with
  | |- context [OpenSearchService._index_document_sync ?e ?t ?c ?m ?w2] =>
      destruct (OpenSearchService._index_document_sync e t c m w2) as [[written|e'] w3]
  end; [|discriminate].
  intros Hrun. injection Hrun as <- _. split; reflexivity.
Qed.

(** The loop of [handle_s3_event] adds one entry for every record of S3, in
    the order of the records, and does not raise. *)
Lemma process_records_entries (records : list EventRecord) :
  forall (results : list EventResult) (w : World),
  exists (entries : list EventResult) (w' : World),
    DocumentProcessorLambda.process_records env files lower records results w
    = (Ok (results ++ entries), w') /\
    map result_location entries
    = map record_location (List.filter is_s3_record records).
Proof.
  induction records as [|record later IH]; intros results w.
  - exists [], w. split; [|reflexivity]. cbn. now rewrite app_nil_r.
  - cbn [DocumentProcessorLambda.process_records List.filter]. unfold is_s3_record at 1.
    destruct (bool_decide (eventSource record = Py.lit "aws:s3")); cbn [negb].
    + unfold bind at 1, try_except, bind.
      destruct (DocumentProcessorService._process_s3_file_sync env files lower
                  (bucket_name record) (object_key record) w) as [[result|e] w1] eqn:Hrun;
        cbn [ret];
        match goal with
        | |- context [DocumentProcessorLambda.process_records _ _ _ _ (_ ++ [?entry]) ?w2] =>
            destruct (IH (results ++ [entry]) w2) as (entries & w' & Hloop & Hmap);
            exists (entry :: entries), w'; rewrite Hloop, <- app_assoc;
            split; [reflexivity|]; cbn [map result_location]; rewrite Hmap
        end; [|reflexivity].
      apply process_s3_file_location in Hrun as [-> ->]. reflexivity.
    + apply IH.
Qed.

Lemma supported_text (file_extension : Py.str) :
  In file_extension [Py.lit ".txt"; Py.lit ".docx"; Py.lit ".md"] ->
  DocumentProcessorService.supported files file_extension
  = Some (DocumentProcessorService._download_and_process_text files).
Proof.
  intros [<-|[<-|[<-|[]]]]; reflexivity.
Qed.

Lemma supported_pdf :
  DocumentProcessorService.supported files (Py.lit ".pdf")
  = Some (DocumentProcessorService._process_pdf files).
Proof. reflexivity. Qed.

End StorageFacts.

(** X29.  A file of S3 that is read as text (a [.txt], [.docx] or [.md] key
    in any case of the letters, or a [.pdf] key on which the text detection
    fails) is decoded as UTF-8, and as Latin-1 when it is not UTF-8, and
    stored on a healthy world under the id of its file name without the
    folders and its text.  The result names the bucket and the key, counts
    the characters of the text, and its metadata, which is the metadata of
    the stored record, gives the source [s3://bucket/key], the size and the
    date S3 reports, the extension in lower case and the reading of the
    clock. *)
Theorem process_s3_file_stores (env : Env) (files : Files) (lower : Py.str -> Py.str)
    (bucket key id : Py.str) (head : S3Head) (octets : Py.bytes) (w : World) :
  head_object files bucket key = inr head ->
  (In (lower (snd (PosixPath.splitext key))) [Py.lit ".txt"; Py.lit ".docx"; Py.lit ".md"] \/
   lower (snd (PosixPath.splitext key)) = Py.lit ".pdf" /\
   exists message : Py.str, detect_document_text files bucket key = inl message) ->
  get_object files bucket key = inr octets ->
  OpenSearchService.document_id (PosixPath.basename key)
    (Py.dict_get (Codec.decode_utf8 octets) (Codec.decode_latin1 octets)) = Some id ->
  healthy w ->
  exists (result : S3Result) (w' : World),
    DocumentProcessorService._process_s3_file_sync env files lower bucket key w
    = (Ok result, w') /\
    sr_document_id result = id /\
    sr_bucket result = bucket /\
    sr_key result = key /\
    sr_content_length result
    = length (Py.dict_get (Codec.decode_utf8 octets) (Codec.decode_latin1 octets)) /\
    stored w' !! id
    = Some (written_body env (PosixPath.basename key)
              (Py.dict_get (Codec.decode_utf8 octets) (Codec.decode_latin1 octets))
              (Some (sr_metadata result)) (S (clock_reads w))) /\
    sr_metadata result !! Py.lit "source"
    = Some (Py.lit "s3://" ++ bucket ++ Py.lit "/" ++ key) /\
    sr_metadata result !! Py.lit "file_size"
    = Some (PyInt.str_of_nat (ContentLength head)) /\
    sr_metadata result !! Py.lit "last_modified" = Some (LastModified head) /\
    sr_metadata result !! Py.lit "file_type" = Some (lower (snd (PosixPath.splitext key))) /\
    sr_metadata result !! Py.lit "processed_at" = Some (clock env (clock_reads w)).
Proof.
  intros Hhead Hext Hget Hid Hw.
  assert (Hread : exists processor,
             DocumentProcessorService.supported files (lower (snd (PosixPath.splitext key)))
             = Some processor /\
             processor bucket key w
             = (Ok (Py.dict_get (Codec.decode_utf8 octets) (Codec.decode_latin1 octets)), w)).
  { destruct Hext as [Htext|[Hpdf [message Hdetect]]].
    - eexists. split; [apply supported_text, Htext|]. now apply download_text.
    - eexists. split; [rewrite Hpdf; apply supported_pdf|].
      rewrite (pdf_without_text_detection files bucket key message w Hdetect).
      now apply download_text. }
  destruct Hread as (processor & Hsupported & Hrun).
  unfold DocumentProcessorService._process_s3_file_sync,
    DocumentProcessorService.client_call, try_except.
  unfold bind at 1. rewrite Hhead. cbn [ret]. rewrite Hsupported.
  unfold bind at 1. rewrite Hrun.
  unfold bind at 1, now_isoformat.
  unfold bind at 1.
  match goal with
  | |- context [OpenSearchService._index_document_sync env ?t ?c ?md ?w1] =>
      rewrite (index_document_returns env t c md id w1 Hid)
        by (destruct w; exact Hw)
  end.
  cbn [ret]. eexists _, _. split; [reflexivity|].
  cbn [sr_document_id sr_bucket sr_key sr_content_length sr_metadata resp_id].
  do 4 (split; [reflexivity|]).
  split; [rewrite stored_after_index; apply lookup_insert_eq|].
  repeat split.
Qed.

Lemma process_s3_file_stores_witness :
  exists (result : S3Result) (w' : World),
    DocumentProcessorService._process_s3_file_sync Example.env Uploads.files
      (map Py.ascii_lower) Uploads.bucket Uploads.key Example.cold
    = (Ok result, w') /\
    sr_content_length result = 4%nat /\
    (exists body : DocBody,
       stored w' !! sr_document_id result = Some body /\
       body_title body = Py.lit "Notes.TXT" /\
       body_content body = [99; 97; 102; 233]%N) /\
    sr_metadata result !! Py.lit "source"
    = Some (Py.lit "s3://inbox/docs/v1.2/Notes.TXT") /\
    sr_metadata result !! Py.lit "file_type" = Some (Py.lit ".txt").
Proof.
  destruct (OpenSearchService.document_id (PosixPath.basename Uploads.key)
              (Py.dict_get (Codec.decode_utf8 Uploads.cafe_latin1)
                 (Codec.decode_latin1 Uploads.cafe_latin1))) as [id|] eqn:Hid;
    [|vm_compute in Hid; discriminate].
  destruct (process_s3_file_stores Example.env Uploads.files (map Py.ascii_lower)
              Uploads.bucket Uploads.key id
              (mkS3Head 4 (Py.lit "2025-07-01T10:00:00+00:00")) Uploads.cafe_latin1
              Example.cold eq_refl
              (or_introl (or_introl eq_refl)) eq_refl Hid eq_refl)
    as (result & w' & Hrun & Hrid & _ & _ & Hlen & Hstored & Hsource & _ & _ & Htype & _).
  exists result, w'. split; [exact Hrun|]. split; [exact Hlen|].
  split; [|split; [exact Hsource|exact Htype]].
  rewrite Hrid. eexists. split; [exact Hstored|]. split; reflexivity.
Defined.

(** X30.  The handler of S3 events never raises and always answers 200,
    whatever S3, Textract, the model and the search engine do: a file that
    cannot be processed becomes an entry with its error.  The results hold
    one entry for every record whose source is [aws:s3], in the order of
    the records and with the bucket and the key of its record, and the
    message counts them.
    (The configuration of the deployment is present: building the service
    fails on nothing but its calls to the engine.) *)
Theorem handle_s3_event_outcome (env : Env) (files : Files) (lower : Py.str -> Py.str)
    (records : list EventRecord) (w : World) :
  exists (results : list EventResult) (w' : World),
    DocumentProcessorLambda.handle_s3_event env files lower records w
    = (Ok (mkEventAnswer 200
             (Py.lit "Processed " ++ PyInt.str_of_nat (length results) ++
              Py.lit " documents")
             results), w') /\
    map result_location results
    = map record_location (List.filter is_s3_record records).
Proof.
  unfold DocumentProcessorLambda.handle_s3_event, DocumentProcessorService.__init__,
    OpenSearchService.__init__, bind.
  destruct (create_index_same_records w) as (w1 & -> & _).
  destruct (process_records_entries env files lower records [] w1)
    as (entries & w' & -> & Hmap).
  exists entries, w'. split; [reflexivity|exact Hmap].
Qed.
